(** * GoalMate: definitions

    The progress, leveling and streak engine of [src/index.tsx]

    A shallow embedding of the functions of [index.tsx] that turn user
    actions into derived state: [awardXp] (experience, level, perks, XP
    log), [calculateOverallProgressDisplay] (progress percentage and text),
    the module handlers of [GoalProgressViewPage], the check-in and freeze
    handlers of [DailyTrackerPage], and the response parsing of
    [getWeeklyQuest].

    Conventions of the embedding.
    - The module-level variables of the script ([mockUserProfile],
      [mockXpLog], [mockCheckinsLog], [mockTrackersData]) and the React
      state of a page are fields of explicit state records that every
      handler takes and returns.
    - [getTodaysDateString ()] reads the clock; the date string it returns
      is the parameter [today] of every function that calls it.
    - Integer-valued JS numbers (experience, levels, streaks, counters) are
      [Z]; the one place where the script divides,
      [calculateOverallProgressDisplay], is modelled in IEEE-754 binary64
      with the operations of [SpecFloat].
    - A JS string is the sequence of its code units, here [string], each
      code unit in the one-byte range. *)

From Stdlib Require Import ZArith List String Ascii Bool Lia.
From Stdlib Require Import Floats.SpecFloat.
From Stdlib Require DecimalString.
Import ListNotations.

Set Implicit Arguments.

Local Open Scope string_scope.
Local Open Scope list_scope.
Local Open Scope Z_scope.

(** ** Array and value helpers of the host language *)

(** [Array.prototype.findIndex]: the first index whose element satisfies
    [f]; JS returns [-1] where this returns [None]. *)
Fixpoint findIndex {A} (f : A -> bool) (l : list A) : option nat :=
  match l with
  | [] => None
  | x :: r => if f x then Some O else option_map S (findIndex f r)
  end.

(** [arr[i] = g(arr[i])] for an index returned by [findIndex]. *)
Fixpoint updateAt {A} (i : nat) (g : A -> A) (l : list A) : list A :=
  match l, i with
  | [], _ => []
  | x :: r, O => g x :: r
  | x :: r, S j => x :: updateAt j g r
  end.

(** [Array.prototype.shift]: drops the first element. *)
Definition shift {A} (l : list A) : list A := tl l.

(** [x || 0] on a number that may be [undefined]. *)
Definition orZero (o : option Z) : Z :=
  match o with Some v => v | None => 0 end.

(** Truthiness of a number that may be [undefined]: [0] is falsy. *)
Definition truthyNum (o : option Z) : bool :=
  match o with Some v => negb (v =? 0) | None => false end.

(** Truthiness of a string that may be [undefined] or [null]: the empty
    string is falsy. *)
Definition truthyStr (o : option string) : bool :=
  match o with
  | Some EmptyString => false
  | Some _ => true
  | None => false
  end.

(** ** Leveling ledger: [mockUserProfile], [mockXpLog], [awardXp] *)

Record Perk := mkPerk {
  perk_name : string;
  xpRequired : Z;
  perk_id : string
}.

Record XpLogEntry := mkXpLogEntry {
  xl_date : string;
  xl_xp : Z
}.

(** The fields of [mockUserProfile] that [awardXp] reads or writes. *)
Record UserProfile := mkUserProfile {
  xp : Z;
  level : Z;
  unlockedPerks : list Perk
}.

Record Ledger := mkLedger {
  mockUserProfile : UserProfile;
  mockXpLog : list XpLogEntry
}.

(** [const LEVEL_THRESHOLDS = { 1: 0, 2: 100, 3: 250, 4: 500, 5: 1000 }] *)
Definition LEVEL_THRESHOLDS : list (Z * Z) :=
  [(1, 0); (2, 100); (3, 250); (4, 500); (5, 1000)].

(** Property lookup [table[k]]; [None] is [undefined]. *)
Fixpoint lookupLevel (table : list (Z * Z)) (k : Z) : option Z :=
  match table with
  | [] => None
  | (l, t) :: r => if l =? k then Some t else lookupLevel r k
  end.

Definition UNLOCKABLES : list Perk :=
  [ mkPerk "Dark Mode Theme" 100 "dark_mode";
    mkPerk "Buddy Insight Stats" 200 "buddy_stats";
    mkPerk "Custom Goal Categories" 300 "custom_categories";
    mkPerk "Community Quests" 500 "community_quests" ].

(** The XP-log update of [awardXp]: overwrite today's entry or push a new
    one, then one [shift] if the log has more than 60 entries. *)
Definition updateXpLog (today : string) (newXp : Z)
    (log : list XpLogEntry) : list XpLogEntry :=
  let log1 :=
    match findIndex (fun e => String.eqb (xl_date e) today) log with
    | Some i => updateAt i (fun e => mkXpLogEntry (xl_date e) newXp) log
    | None => log ++ [mkXpLogEntry today newXp]
    end in
  if (60 <? Z.of_nat (List.length log1)) then shift log1 else log1.

(** The level check of [awardXp]: one comparison against the threshold of
    [currentLevel + 1]. *)
Definition checkLevelUp (newXp currentLevel : Z) : Z :=
  let nextLevel := currentLevel + 1 in
  if truthyNum (lookupLevel LEVEL_THRESHOLDS nextLevel)
     && (orZero (lookupLevel LEVEL_THRESHOLDS nextLevel) <=? newXp)
  then nextLevel else currentLevel.

(** One iteration of [UNLOCKABLES.forEach]. *)
Definition checkUnlock (newXp : Z) (owned : list Perk) (unlock : Perk)
    : list Perk :=
  if (xpRequired unlock <=? newXp)
     && negb (existsb (fun p => String.eqb (perk_id p) (perk_id unlock)) owned)
  then owned ++ [unlock] else owned.

Definition awardXp (today : string) (amount : Z) (s : Ledger) : Ledger :=
  if amount =? 0 then s
  else
    let p := mockUserProfile s in
    let newXp := xp p + amount in
    mkLedger
      (mkUserProfile newXp
         (checkLevelUp newXp (level p))
         (fold_left (checkUnlock newXp) UNLOCKABLES (unlockedPerks p)))
      (updateXpLog today newXp (mockXpLog s)).

(** Specification side: [L] is the largest level of the table whose
    threshold is at most [e]. *)
Definition isLargestLevel (table : list (Z * Z)) (e L : Z) : Prop :=
  (exists t, lookupLevel table L = Some t /\ t <= e) /\
  (forall L' t', lookupLevel table L' = Some t' -> t' <= e -> L' <= L).

(** ** Goals and modules *)

(** [status: 'pending' | 'completed'] of a module. *)
Inductive ModuleStatus := pending | completed.

Definition ModuleStatus_eqb (a b : ModuleStatus) : bool :=
  match a, b with
  | pending, pending | completed, completed => true
  | _, _ => false
  end.

Record GoalModule := mkModule {
  m_id : string;
  m_name : string;
  status : ModuleStatus;
  verified : bool;
  source : string
}.

(** A goal object; optional properties are [option]s ([None] is
    [undefined], and for [linkedHabitId] also [null]). *)
Record Goal := mkGoal {
  g_id : string;
  title : string;
  type : option string;
  modules : option (list GoalModule);
  progressPercent : option Z;
  statusText : option string;
  linkedHabitId : option string
}.

(** ** Binary64 numbers *)

Definition prec : Z := 53.
Definition emax : Z := 1024.

(** The Number denoted by an integer literal or an array length. *)
Definition num (z : Z) : spec_float := binary_normalize prec emax z 0 false.

(** The literal [0.5]. *)
Definition num_half : spec_float := binary_normalize prec emax 1 (-1) false.

Definition fadd := SFadd prec emax.
Definition fmul := SFmul prec emax.
Definition fdiv := SFdiv prec emax.

(** [Math.round]: the integer closest to [x], ties towards +infinity, that
    is [floor (x + 1/2)] computed exactly.  The operand at its one call
    site is finite; the other classes are mapped to [0]. *)
Definition Math_round (x : spec_float) : Z :=
  match x with
  | S754_finite s m e =>
      let n := if s then Z.neg m else Z.pos m in
      if 0 <=? e then n * 2 ^ e
      else (2 * n + 2 ^ (- e)) / 2 ^ (1 - e)
  | _ => 0
  end.

(** Decimal rendering of a count inside a template literal. *)
Definition showNat (n : nat) : string :=
  DecimalString.NilEmpty.string_of_uint (Nat.to_uint n).

(** ** Progress projector: [calculateOverallProgressDisplay] *)

Record ProgressDisplay := mkDisplay {
  percent : Z;
  text : string
}.

Definition isVerified (m : GoalModule) : bool := verified m.

Definition isSelfCompleted (m : GoalModule) : bool :=
  ModuleStatus_eqb (status m) completed && negb (verified m).

(** The last [return] of the function: a goal's own fields. *)
Definition storedDisplay (g : Goal) : ProgressDisplay :=
  mkDisplay (orZero (progressPercent g))
    (match statusText g with
     | Some (String c t) => String c t
     | _ => if orZero (progressPercent g) =? 100 then "Completed!"
            else "Not started"
     end).

(** [goal.type === 'Learning' && goal.modules] *)
Definition learningModules (g : Goal) : option (list GoalModule) :=
  match type g, modules g with
  | Some ty, Some ms => if String.eqb ty "Learning" then Some ms else None
  | _, _ => None
  end.

Definition calculateOverallProgressDisplay (goal : option Goal)
    : ProgressDisplay :=
  match goal with
  | None => mkDisplay 0 "N/A"
  | Some g =>
      match learningModules g with
      | Some ms =>
          let totalModules := List.length ms in
          if Nat.eqb totalModules 0 then mkDisplay 0 "No modules"
          else
            let verifiedCount := List.length (filter isVerified ms) in
            let completedNotVerifiedCount :=
              List.length (filter isSelfCompleted ms) in
            let effectiveProgressValue :=
              fadd (num (Z.of_nat verifiedCount))
                   (fmul (num (Z.of_nat completedNotVerifiedCount))
                         num_half) in
            let pct :=
              Math_round
                (fmul (fdiv effectiveProgressValue
                            (num (Z.of_nat totalModules)))
                      (num 100)) in
            mkDisplay pct
              (showNat verifiedCount ++ " Verified, "
               ++ showNat completedNotVerifiedCount ++ " Self-Completed / "
               ++ showNat totalModules ++ " Total Modules")%string
      | None => storedDisplay g
      end
  end.

(** Specification side: round-half-up of [100 * (v + h/2) / n] in exact
    arithmetic, that is [floor ((100 * (2v + h) + n) / (2n))]. *)
Definition roundHalfUpPercent (v h n : nat) : Z :=
  (100 * (2 * Z.of_nat v + Z.of_nat h) + Z.of_nat n) / (2 * Z.of_nat n).

(** Specification side: the text the projector must show. *)
Definition progressText (v h n : nat) : string :=
  (showNat v ++ " Verified, " ++ showNat h ++ " Self-Completed / "
   ++ showNat n ++ " Total Modules")%string.

(** The percentage the projector computes from the three counts. *)
Definition percentOfCounts (v h n : nat) : Z :=
  Math_round
    (fmul (fdiv (fadd (num (Z.of_nat v)) (fmul (num (Z.of_nat h)) num_half))
                (num (Z.of_nat n)))
          (num 100)).

(** Exhaustive comparison of the computed percentage with the exact
    round-half-up, over all counts with [v + h <= n < bound]. *)
Definition percentExactBelow (bound : nat) : bool :=
  forallb (fun n =>
    forallb (fun v =>
      forallb (fun h =>
        percentOfCounts v h n =? roundHalfUpPercent v h n)
        (seq 0 (S n - v)))
      (seq 0 (S n)))
    (seq 1 (bound - 1)).

(** ** Module handlers of [GoalProgressViewPage] *)

(** The page: the global [mockGoalsData] and the React state [goal]; the
    prop [goalId] is a parameter of the handlers. *)
Record GoalPage := mkGoalPage {
  mockGoalsData : list Goal;
  goal : option Goal
}.

(** [{ ...currentGoal, progressPercent: ..., statusText: ... }] *)
Definition calculateLocalGoalProgress (currentGoal : Goal) : Goal :=
  let progressDetails := calculateOverallProgressDisplay (Some currentGoal) in
  mkGoal (g_id currentGoal) (title currentGoal) (type currentGoal)
    (modules currentGoal)
    (Some (percent progressDetails)) (Some (text progressDetails))
    (linkedHabitId currentGoal).

(** The placeholder object of the effect; [goalId || "N/A"]. *)
Definition goalNotFound (goalId : string) : Goal :=
  mkGoal (match goalId with EmptyString => "N/A" | _ => goalId end)
    "Goal Not Found" None None (Some 0) (Some "Could not load goal.") None.

(** The effect that follows every [forceUpdate]: reload [goal] from
    [mockGoalsData]. *)
Definition loadGoal (goalId : string) (data : list Goal) : Goal :=
  match find (fun g => String.eqb (g_id g) goalId) data with
  | Some foundGoal => calculateLocalGoalProgress foundGoal
  | None => goalNotFound goalId
  end.

(** The value of a property after a spread of two objects. *)
Definition orElse {A} (a b : option A) : option A :=
  match a with Some _ => a | None => b end.

(** [{ ...old, ...updated }]: a property of [updated] wins where it is
    present. *)
Definition mergeGoal (old updated : Goal) : Goal :=
  mkGoal (g_id updated) (title updated)
    (orElse (type updated) (type old))
    (orElse (modules updated) (modules old))
    (orElse (progressPercent updated) (progressPercent old))
    (orElse (statusText updated) (statusText old))
    (orElse (linkedHabitId updated) (linkedHabitId old)).

(** Merges the updated goal into [mockGoalsData] at the first entry with
    its id, then [forceUpdate ()], whose effect reloads [goal]. *)
Definition updateGlobalAndLocalGoal (goalId : string) (updatedGoalData : Goal)
    (st : GoalPage) : GoalPage :=
  let data :=
    match findIndex (fun g => String.eqb (g_id g) (g_id updatedGoalData))
                    (mockGoalsData st) with
    | Some globalGoalIndex =>
        updateAt globalGoalIndex (fun old => mergeGoal old updatedGoalData)
                 (mockGoalsData st)
    | None => mockGoalsData st
    end in
  mkGoalPage data (Some (loadGoal goalId data)).

(** [{ ...goal, modules: updatedModules }] *)
Definition withModules (g : Goal) (ms : list GoalModule) : Goal :=
  mkGoal (g_id g) (title g) (type g) (Some ms) (progressPercent g)
    (statusText g) (linkedHabitId g).

(** [m.id === moduleId ? { ...m, status: 'completed', verified: v } : m] *)
Definition completeModule (moduleId : string) (v : bool) (m : GoalModule)
    : GoalModule :=
  if String.eqb (m_id m) moduleId
  then mkModule (m_id m) (m_name m) completed v (source m)
  else m.

(** The two handlers return early when [goal] or [goal.modules] is
    missing. *)
Definition handleModuleVerified (goalId moduleId : string) (st : GoalPage)
    : GoalPage :=
  match goal st with
  | None => st
  | Some g =>
      match modules g with
      | None => st
      | Some ms =>
          let updatedModules := map (completeModule moduleId true) ms in
          updateGlobalAndLocalGoal goalId (withModules g updatedModules) st
      end
  end.

Definition handleModuleSelfCompleted (goalId moduleId : string)
    (st : GoalPage) : GoalPage :=
  match goal st with
  | None => st
  | Some g =>
      match modules g with
      | None => st
      | Some ms =>
          let updatedModules := map (completeModule moduleId false) ms in
          updateGlobalAndLocalGoal goalId (withModules g updatedModules) st
      end
  end.

(** What the page renders for one module: the self-completion button and
    the button that opens the verification dialog (which holds both the
    submit and the self-completion action) appear for a pending module,
    the dialog button alone for a completed module that is not verified,
    and no action for a verified one. *)
Definition moduleActionsOffered (m : GoalModule) : bool :=
  ModuleStatus_eqb (status m) pending
  || (ModuleStatus_eqb (status m) completed && negb (verified m)).

(** The two module-updating operations: one call of a handler of the
    current render. *)
Inductive ModuleOp :=
| OpVerified (moduleId : string)
| OpSelfCompleted (moduleId : string).

Definition moduleStep (goalId : string) (op : ModuleOp) (st : GoalPage)
    : GoalPage :=
  match op with
  | OpVerified moduleId => handleModuleVerified goalId moduleId st
  | OpSelfCompleted moduleId => handleModuleSelfCompleted goalId moduleId st
  end.

(** The modules the page shows. *)
Definition pageModules (st : GoalPage) : list GoalModule :=
  match goal st with
  | Some g => match modules g with Some ms => ms | None => [] end
  | None => []
  end.

(** The page after its mount effect: [goal] was loaded from the global
    list. *)
Definition mounted (goalId : string) (st : GoalPage) : Prop :=
  goal st = Some (loadGoal goalId (mockGoalsData st)).

(** [verified == true] implies [status == Completed]. *)
Definition verifiedIsCompleted (m : GoalModule) : Prop :=
  verified m = true -> status m = completed.

(** What an operation does to one module, and a run of operations. *)
Definition opOnModule (op : ModuleOp) (m : GoalModule) : GoalModule :=
  match op with
  | OpVerified moduleId => completeModule moduleId true m
  | OpSelfCompleted moduleId => completeModule moduleId false m
  end.

Definition opsOnModule (ops : list ModuleOp) (m : GoalModule) : GoalModule :=
  fold_left (fun x op => opOnModule op x) ops m.

(** ** Habit tracker: [DailyTrackerPage] *)

Inductive ProofType := screenshot | link | unverified | frozen.

Definition proofTypeName (t : ProofType) : string :=
  match t with
  | screenshot => "screenshot"
  | link => "link"
  | unverified => "unverified"
  | frozen => "frozen"
  end.

(** [status: 'completed' | 'frozen'] of a log entry. *)
Inductive LogStatus := log_completed | log_frozen.

Record ProofRecord := mkProof {
  proof_type : ProofType;
  proof_value : option string;
  proof_comment : option string
}.

Record CheckIn := mkCheckIn {
  ci_date : string;
  ci_status : LogStatus;
  ci_proof : ProofRecord
}.

Record StreakFreezes := mkFreezes {
  remaining : Z;
  total : Z
}.

(** A habit; the display-only properties (emoji, colour, frequency, buddy
    progress) are left out. *)
Record Tracker := mkTracker {
  t_id : string;
  t_name : string;
  currentStreak : Z;
  longestStreak : Z;
  streakFreezes : StreakFreezes;
  logs : list CheckIn
}.

(** [inputs[trackerId]]: the pending form values of one habit. *)
Record TrackerInputs := mkInputs {
  screenshotPreview : option string;
  in_link : option string;
  in_comment : option string
}.

Definition noInputs : TrackerInputs := mkInputs None None None.

Record CheckinCount := mkCheckinCount {
  cc_date : string;
  cc_count : Z
}.

Record TrackerPage := mkTrackerPage {
  ledger : Ledger;
  mockCheckinsLog : list CheckinCount;
  mockTrackersData : list Tracker;
  trackers : list Tracker;
  inputs : list (string * TrackerInputs)
}.

(** [inputs[trackerId] || {}] *)
Fixpoint getInputs (trackerId : string) (m : list (string * TrackerInputs))
    : TrackerInputs :=
  match m with
  | [] => noInputs
  | (k, v) :: r => if String.eqb k trackerId then v else getInputs trackerId r
  end.

(** [{ ...prev, [trackerId]: v }] *)
Fixpoint setInputs (trackerId : string) (v : TrackerInputs)
    (m : list (string * TrackerInputs)) : list (string * TrackerInputs) :=
  match m with
  | [] => [(trackerId, v)]
  | (k, w) :: r =>
      if String.eqb k trackerId then (k, v) :: r
      else (k, w) :: setInputs trackerId v r
  end.

Inductive InputField := f_screenshotPreview | f_link | f_comment.

Definition handleInputChange (trackerId : string) (field : InputField)
    (value : string) (p : TrackerPage) : TrackerPage :=
  let prev := getInputs trackerId (inputs p) in
  let next :=
    match field with
    | f_screenshotPreview => mkInputs (Some value) (in_link prev) (in_comment prev)
    | f_link => mkInputs (screenshotPreview prev) (Some value) (in_comment prev)
    | f_comment => mkInputs (screenshotPreview prev) (in_link prev) (Some value)
    end in
  mkTrackerPage (ledger p) (mockCheckinsLog p) (mockTrackersData p)
    (trackers p) (setInputs trackerId next (inputs p)).

(** [setTrackers(newTrackers); mockTrackersData = deep copy of newTrackers] *)
Definition updateTrackersState (newTrackers : list Tracker) (p : TrackerPage)
    : TrackerPage :=
  mkTrackerPage (ledger p) (mockCheckinsLog p) newTrackers newTrackers
    (inputs p).

(** The counter update of [handleCheckIn] on [mockCheckinsLog]. *)
Definition countCheckin (today : string) (log : list CheckinCount)
    : list CheckinCount :=
  match findIndex (fun e => String.eqb (cc_date e) today) log with
  | Some i => updateAt i (fun e => mkCheckinCount (cc_date e) (cc_count e + 1)) log
  | None => log ++ [mkCheckinCount today 1]
  end.

(** The value the form holds for a proof of kind [type]. *)
Definition proofValueOf (type : ProofType) (trackerInputs : TrackerInputs)
    : option string :=
  match type with
  | screenshot => screenshotPreview trackerInputs
  | link => in_link trackerInputs
  | _ => None
  end.

(** The guard of [handleCheckIn]: a screenshot or link check-in without a
    payload. *)
Definition proofMissing (type : ProofType) (trackerInputs : TrackerInputs)
    : bool :=
  match type with
  | screenshot | link => negb (truthyStr (proofValueOf type trackerInputs))
  | _ => false
  end.

(** The habit after a check-in: the new entry in front of the log, the
    streak raised by one, the longest streak updated. *)
Definition checkedIn (newLog : CheckIn) (t : Tracker) : Tracker :=
  let newStreak := currentStreak t + 1 in
  mkTracker (t_id t) (t_name t) newStreak
    (Z.max (longestStreak t) newStreak)
    (streakFreezes t) (newLog :: logs t).

(** [handleCheckIn (trackerId, type, xp = 0)]; the first component is the
    message of [alert] when the call is refused. *)
Definition handleCheckIn (today trackerId : string) (type : ProofType)
    (xpAmount : Z) (p : TrackerPage) : option string * TrackerPage :=
  let trackerInputs := getInputs trackerId (inputs p) in
  let proofValue := proofValueOf type trackerInputs in
  if proofMissing type trackerInputs then
    (Some ("Please provide a " ++ proofTypeName type ++ " to check in.")%string,
     p)
  else
    let ledger' := awardXp today xpAmount (ledger p) in
    let counts' := countCheckin today (mockCheckinsLog p) in
    let newLog :=
      mkCheckIn today log_completed
        (mkProof type proofValue
           (if truthyStr (in_comment trackerInputs)
            then in_comment trackerInputs else None)) in
    let updatedTrackers :=
      map (fun t => if String.eqb (t_id t) trackerId
                    then checkedIn newLog t else t)
          (trackers p) in
    (None,
     mkTrackerPage ledger' counts' updatedTrackers updatedTrackers
       (setInputs trackerId noInputs (inputs p))).

(** The habit after a freeze: a frozen entry in front of the log and one
    token less. *)
Definition frozenToday (today : string) (t : Tracker) : Tracker :=
  let newLog := mkCheckIn today log_frozen (mkProof frozen None None) in
  mkTracker (t_id t) (t_name t) (currentStreak t) (longestStreak t)
    (mkFreezes (remaining (streakFreezes t) - 1) (total (streakFreezes t)))
    (newLog :: logs t).

(** [handleUseStreakFreeze (trackerId)]; it returns nothing and alerts
    nothing. *)
Definition handleUseStreakFreeze (today trackerId : string) (p : TrackerPage)
    : TrackerPage :=
  let updatedTrackers :=
    map (fun t => if String.eqb (t_id t) trackerId
                     && (0 <? remaining (streakFreezes t))
                  then frozenToday today t else t)
        (trackers p) in
  updateTrackersState updatedTrackers p.

(** What the page renders for one habit. *)

(** [tracker.logs.find(log => log.date === getTodaysDateString())] *)
Definition todaysLog (today : string) (t : Tracker) : option CheckIn :=
  find (fun l => String.eqb (ci_date l) today) (logs t).

(** The check-in actions are rendered only when [todaysLog] is absent. *)
Definition checkInOffered (today : string) (t : Tracker) : bool :=
  match todaysLog today t with Some _ => false | None => true end.

(** [disabled={todaysLog || tracker.streakFreezes.remaining === 0}] *)
Definition freezeDisabled (today : string) (t : Tracker) : bool :=
  match todaysLog today t with
  | Some _ => true
  | None => remaining (streakFreezes t) =? 0
  end.

(** [<StreakVisual streak={tracker.currentStreak || 0} />] *)
Definition shownStreak (t : Tracker) : Z := currentStreak t.

(** Number of log entries of a habit on a date. *)
Definition entriesOn (date : string) (t : Tracker) : nat :=
  List.length (filter (fun l => String.eqb (ci_date l) date) (logs t)).

(** The handlers of the page as operations, and their sequential runs. *)
Inductive TrackerOp :=
| OpInput (trackerId : string) (field : InputField) (value : string)
| OpCheckIn (today trackerId : string) (type : ProofType) (xpAmount : Z)
| OpFreeze (today trackerId : string).

Definition trackerStep (op : TrackerOp) (p : TrackerPage) : TrackerPage :=
  match op with
  | OpInput trackerId field value => handleInputChange trackerId field value p
  | OpCheckIn today trackerId type xpAmount =>
      snd (handleCheckIn today trackerId type xpAmount p)
  | OpFreeze today trackerId => handleUseStreakFreeze today trackerId p
  end.

Definition runTrackerOps (ops : list TrackerOp) (p : TrackerPage)
    : TrackerPage :=
  fold_left (fun s op => trackerStep op s) ops p.

(** Specification side: calendar arithmetic on the [YYYY-MM-DD] strings of
    [getTodaysDateString], used only to say that a day was skipped. *)
Definition digitOf (c : ascii) : option Z :=
  let n := Z.of_nat (nat_of_ascii c) in
  if (48 <=? n) && (n <=? 57) then Some (n - 48) else None.

Fixpoint numberOf (acc : Z) (s : string) : option Z :=
  match s with
  | EmptyString => Some acc
  | String c r =>
      match digitOf c with
      | Some d => numberOf (10 * acc + d) r
      | None => None
      end
  end.

(** Days since 1970-01-01 of a civil date. *)
Definition daysFromCivil (y m d : Z) : Z :=
  let y' := if m <=? 2 then y - 1 else y in
  let era := y' / 400 in
  let yoe := y' - era * 400 in
  let doy := (153 * (if 2 <? m then m - 3 else m + 9) + 2) / 5 + d - 1 in
  let doe := yoe * 365 + yoe / 4 - yoe / 100 + doy in
  era * 146097 + doe - 719468.

Definition isoDay (s : string) : option Z :=
  match numberOf 0 (substring 0 4 s), numberOf 0 (substring 5 2 s),
        numberOf 0 (substring 8 2 s) with
  | Some y, Some m, Some d =>
      if Nat.eqb (String.length s) 10 then Some (daysFromCivil y m d)
      else None
  | _, _, _ => None
  end.

(** The date [d] is before the day preceding [today]. *)
Definition olderThanYesterday (today d : string) : bool :=
  match isoDay today, isoDay d with
  | Some a, Some b => b <? a - 1
  | _, _ => false
  end.

(** The habit has logs and its most recent one is older than yesterday. *)
Definition daySkipped (today : string) (t : Tracker) : bool :=
  match logs t with
  | [] => false
  | _ => forallb (fun l => olderThanYesterday today (ci_date l)) (logs t)
  end.

(** The effect of an accepted check-in, and of a freeze, on one habit of
    the page. *)
Definition checkInEffect (today trackerId : string) (t t1 : Tracker) : Prop :=
  if String.eqb (t_id t) trackerId then
    t_id t1 = t_id t /\
    currentStreak t1 = currentStreak t + 1 /\
    longestStreak t1 = Z.max (longestStreak t) (currentStreak t + 1) /\
    streakFreezes t1 = streakFreezes t /\
    (exists newLog, logs t1 = newLog :: logs t /\
                    ci_date newLog = today /\
                    ci_status newLog = log_completed) /\
    entriesOn today t1 = S (entriesOn today t) /\
    checkInOffered today t1 = false /\
    freezeDisabled today t1 = true
  else t1 = t.

Definition freezeEffect (today trackerId : string) (t t1 : Tracker) : Prop :=
  if String.eqb (t_id t) trackerId && (0 <? remaining (streakFreezes t)) then
    t_id t1 = t_id t /\
    logs t1 = mkCheckIn today log_frozen (mkProof frozen None None) :: logs t /\
    entriesOn today t1 = S (entriesOn today t) /\
    remaining (streakFreezes t1) = remaining (streakFreezes t) - 1 /\
    total (streakFreezes t1) = total (streakFreezes t) /\
    currentStreak t1 = currentStreak t /\
    longestStreak t1 = longestStreak t /\
    checkInOffered today t1 = false /\
    freezeDisabled today t1 = true
  else t1 = t.

(** The streak of a habit is kept or raised, never lowered. *)
Definition streakKept (t t1 : Tracker) : Prop :=
  t_id t1 = t_id t /\ currentStreak t <= currentStreak t1.

(** ** Strings of the host language, for [getWeeklyQuest] *)

Definition codeOf (c : ascii) : Z := Z.of_nat (nat_of_ascii c).

(** White space and line terminators, the characters [trim] strips. *)
Definition isWhiteSpace (c : ascii) : bool :=
  let n := codeOf c in
  ((9 <=? n) && (n <=? 13)) || (n =? 32) || (n =? 160).

(** Line terminators, the characters [.] of a regular expression does not
    match. *)
Definition isLineTerminator (c : ascii) : bool :=
  let n := codeOf c in (n =? 10) || (n =? 13).

Fixpoint trimStart (s : string) : string :=
  match s with
  | EmptyString => EmptyString
  | String c r => if isWhiteSpace c then trimStart r else s
  end.

Fixpoint trimEnd (s : string) : string :=
  match s with
  | EmptyString => EmptyString
  | String c r =>
      match trimEnd r with
      | EmptyString => if isWhiteSpace c then EmptyString
                       else String c EmptyString
      | r' => String c r'
      end
  end.

Definition trim (s : string) : string := trimEnd (trimStart s).

Definition lowerChar (c : ascii) : ascii :=
  let n := codeOf c in
  if ((65 <=? n) && (n <=? 90))
     || ((192 <=? n) && (n <=? 222) && negb (n =? 215))
  then ascii_of_nat (nat_of_ascii c + 32) else c.

Fixpoint toLowerCase (s : string) : string :=
  match s with
  | EmptyString => EmptyString
  | String c r => String (lowerChar c) (toLowerCase r)
  end.

(** [s.startsWith(p)], returning what follows the prefix. *)
Fixpoint stripPrefix (p s : string) : option string :=
  match p, s with
  | EmptyString, _ => Some s
  | String a p', String b s' =>
      if Ascii.eqb a b then stripPrefix p' s' else None
  | String _ _, EmptyString => None
  end.

(** [s.includes(t)] *)
Fixpoint includes (s t : string) : bool :=
  match stripPrefix t s with
  | Some _ => true
  | None =>
      match s with
      | EmptyString => false
      | String _ r => includes r t
      end
  end.

(** What the capture group (any characters, greedy) matches at the start
    of [s]: everything up to the first line terminator. *)
Fixpoint restOfLine (s : string) : string :=
  match s with
  | EmptyString => EmptyString
  | String c r =>
      if isLineTerminator c then EmptyString else String c (restOfLine r)
  end.

(** [s.match] of a regular expression made of a literal [label] followed
    by one capture group of any characters: the group of the leftmost
    occurrence of [label], [None] for [null]. *)
Fixpoint matchLabel (label s : string) : option string :=
  match stripPrefix label s with
  | Some rest => Some (restOfLine rest)
  | None =>
      match s with
      | EmptyString => None
      | String _ r => matchLabel label r
      end
  end.

(** [arr.join(sep)] *)
Fixpoint join (sep : string) (l : list string) : string :=
  match l with
  | [] => EmptyString
  | [x] => x
  | x :: r => (x ++ sep ++ join sep r)%string
  end.

(** ** Quest parsing: [getWeeklyQuest] *)

Record Quest := mkQuest {
  q_title : string;
  q_description : string;
  relatedGoal : string
}.

(** What [await ai.models.generateContent (...)] does: it resolves with a
    response whose [text] may be [undefined], or it rejects. *)
Inductive ProviderReply :=
| Resolved (responseText : option string)
| Rejected.

(** [(g.progressPercent || 0) < 100] *)
Definition isActive (g : Goal) : bool := orZero (progressPercent g) <? 100.

(** Lines 1052 to 1071, the body of the [try] after the provider answered:
    [None] is the [throw] on an empty response, which the [catch] of the
    function handles. *)
Definition parseQuestResponse (responseText : option string)
    (userGoals : list Goal) : option Quest :=
  match option_map trim responseText with
  | None | Some EmptyString => None
  | Some text =>
      match matchLabel "Quest Title: " text,
            matchLabel "Description: " text,
            matchLabel "Related Goal: " text with
      | Some titleMatch, Some descriptionMatch, Some relatedGoalMatch =>
          Some (mkQuest (trim titleMatch) (trim descriptionMatch)
                        (trim relatedGoalMatch))
      | _, _, _ =>
          let foundGoal :=
            find (fun g => includes (toLowerCase text) (toLowerCase (title g)))
                 userGoals in
          Some (mkQuest "Weekly Quest Suggestion" text
                  (match foundGoal with
                   | Some g => title g
                   | None => "General"
                   end))
      end
  end.

(** The [catch] block; [pick] stands for the draw of [Math.random], the
    index chosen being [pick mod activeGoals.length]. *)
Definition questOnError (pick : nat) (userGoals : list Goal) : Quest :=
  let activeGoals := filter isActive userGoals in
  let randomGoal :=
    match activeGoals with
    | [] => None
    | _ => nth_error activeGoals (pick mod List.length activeGoals)%nat
    end in
  mkQuest "Quest Idea!"
    ("Focus on making a solid leap forward in one of your goals this week. "
     ++ match randomGoal with
        | Some g => "Perhaps something for '" ++ title g ++ "'?"
        | None => "You've got this!"
        end)%string
    (match randomGoal with Some g => title g | None => EmptyString end).

(** [getWeeklyQuest (userGoals)]; [ai] tells whether the client is
    configured, [reply] and [pick] are what the provider and the random
    generator deliver if they are asked. *)
Definition getWeeklyQuest (ai : bool) (reply : ProviderReply) (pick : nat)
    (userGoals : option (list Goal)) : Quest :=
  if negb ai then
    mkQuest "Tech Offline!"
      "Our AI is taking a break. How about you set a small step for one of your goals yourself this week?"
      EmptyString
  else
    match userGoals with
    | None | Some [] =>
        mkQuest "No Goals Yet!" "Add a goal to get your first weekly quest!"
          EmptyString
    | Some goals =>
        match join ", " (map title (filter isActive goals)) with
        | EmptyString =>
            mkQuest "All Goals Conquered!"
              "Looks like you've completed all your current goals! Amazing! Add a new one for a fresh quest."
              EmptyString
        | _ =>
            match reply with
            | Resolved responseText =>
                match parseQuestResponse responseText goals with
                | Some quest => quest
                | None => questOnError pick goals
                end
            | Rejected => questOnError pick goals
            end
        end
    end.










(** ** Sample states *)

(** A profile at the start of level 1 with an empty XP log. *)
Definition freshLedger : Ledger :=
  mkLedger (mkUserProfile 0 1 []) [].

(** [mockUserProfile] as the script initialises it (85 XP, level 1). *)
Definition initialLedger : Ledger :=
  mkLedger (mkUserProfile 85 1 []) [mkXpLogEntry "2024-07-22" 85].

(** A ledger whose XP log already holds 60 days. *)
Definition fullLedger : Ledger :=
  mkLedger (mkUserProfile 85 1 [])
    (map (fun d => mkXpLogEntry (showNat d) 85) (seq 1 60)).

(** The three kinds of module state. *)
Definition verifiedModule (id : string) : GoalModule :=
  mkModule id "Introduction to JSX" completed true "user".
Definition selfCompletedModule (id : string) : GoalModule :=
  mkModule id "Components and Props" completed false "user".
Definition pendingModule (id : string) : GoalModule :=
  mkModule id "State and Lifecycle" pending false "user".

Definition learningGoal (ms : list GoalModule) : Goal :=
  mkGoal "React101" "Learn React Fundamentals" (Some "Learning") (Some ms)
    None None (Some "h1").

(** A goal with modules [verified, completed-unverified, pending]. *)
Definition threeModuleGoal : Goal :=
  learningGoal
    [verifiedModule "m1"; selfCompletedModule "m2"; pendingModule "m3"].

(** A goal with 20 modules: 11 verified, 1 self-completed, 8 pending. *)
Definition twentyModuleGoal : Goal :=
  learningGoal
    (map (fun i => verifiedModule (showNat i)) (seq 1 11)
     ++ [selfCompletedModule "12"]
     ++ map (fun i => pendingModule (showNat i)) (seq 13 8)).

(** The page of [threeModuleGoal] after its mount effect. *)
Definition samplePage : GoalPage :=
  mkGoalPage [threeModuleGoal] (Some (loadGoal "React101" [threeModuleGoal])).

(** [mockTrackersData] as the script initialises it; the data URL of the
    screenshot is cut short. *)
Definition habitH1 : Tracker :=
  mkTracker "h1" "Code one problem" 5 15 (mkFreezes 1 1)
    [ mkCheckIn "2024-07-22" log_completed
        (mkProof link (Some "https://leetcode.com/problems/two-sum/")
                 (Some "Classic one to warm up."));
      mkCheckIn "2024-07-21" log_completed
        (mkProof screenshot (Some "data:image/svg+xml;base64")
                 (Some "Finished the daily challenge."));
      mkCheckIn "2024-07-20" log_completed
        (mkProof unverified None (Some "Just a quick one today."));
      mkCheckIn "2024-07-18" log_frozen
        (mkProof frozen None (Some "Used a freeze.")) ].

Definition habitH2 : Tracker :=
  mkTracker "h2" "Learn 5 vocab words" 0 12 (mkFreezes 0 1) [].

(** The habit page when it opens: [trackers] is a copy of the global list
    and no form value is entered. *)
Definition initialTrackerPage : TrackerPage :=
  mkTrackerPage initialLedger [] [habitH1; habitH2] [habitH1; habitH2] [].

(** A goal list and responses of the provider. *)
Definition learnPython : Goal :=
  mkGoal "py" "Learn Python" None None (Some 10) None None.

Definition newline : string := String (ascii_of_nat 10) EmptyString.

Definition wellFormedResponse : string :=
  ("Quest Title: A" ++ newline ++ "Description: B" ++ newline
   ++ "Related Goal: C")%string.


(** ** Further functions of the script *)

(** *** The ledger as its callers and readers use it *)

(** A run of [awardXp] calls, each with the date of its day. *)
Definition awardAll (awards : list (string * Z)) (s : Ledger) : Ledger :=
  fold_left (fun s1 a => awardXp (fst a) (snd a) s1) awards s.

(** [unlockedPerks.find(p => p.id === id)], as a truth value. *)
Definition ownsPerk (id : string) (owned : list Perk) : bool :=
  existsb (fun p => String.eqb (perk_id p) id) owned.

(** [mockXpLog.find(log => log.date === date)] *)
Definition xpLogEntryOn (date : string) (log : list XpLogEntry)
    : option XpLogEntry :=
  find (fun e => String.eqb (xl_date e) date) log.

(** The level figures of [ProfilePage] (lines 2109 to 2114). *)
Record LevelProgress := mkLevelProgress {
  currentLevelXp : Z;
  nextLevelXp : Z;
  xpIntoLevel : Z;
  xpForNextLevel : Z;
  levelBarPercent : spec_float
}.

Definition levelProgress (p : UserProfile) : LevelProgress :=
  let currentLevelXp := orZero (lookupLevel LEVEL_THRESHOLDS (level p)) in
  let nextLevelXp :=
    if truthyNum (lookupLevel LEVEL_THRESHOLDS (level p + 1))
    then orZero (lookupLevel LEVEL_THRESHOLDS (level p + 1))
    else currentLevelXp + 150 in
  let xpIntoLevel := xp p - currentLevelXp in
  let xpForNextLevel := nextLevelXp - currentLevelXp in
  mkLevelProgress currentLevelXp nextLevelXp xpIntoLevel xpForNextLevel
    (if 0 <? xpForNextLevel
     then fmul (fdiv (num xpIntoLevel) (num xpForNextLevel)) (num 100)
     else num 100).

(** [canUseDarkMode] of [SettingsPage]:
    [user.xp >= UNLOCKABLES.find(u => u.id === 'dark_mode').xpRequired];
    the entry is in the table, [None] would be a [TypeError]. *)
Definition canUseDarkMode (p : UserProfile) : option bool :=
  match find (fun u => String.eqb (perk_id u) "dark_mode") UNLOCKABLES with
  | Some u => Some (xpRequired u <=? xp p)
  | None => None
  end.

(** *** The finalize button and the habit link of [GoalProgressViewPage] *)

(** [canFinalizeGoal] (lines 1423 to 1425). *)
Definition canFinalizeGoal (g : Goal) : bool :=
  match learningModules g with
  | Some ms => forallb (fun m => ModuleStatus_eqb (status m) completed) ms
  | None =>
      match progressPercent g with
      | Some v => v =? 100
      | None => false
      end
  end.

(** [{ ...goal, statusText: "Completed & Finalized!", progressPercent: 100 }] *)
Definition finalizedGoal (g : Goal) : Goal :=
  mkGoal (g_id g) (title g) (type g) (modules g) (Some 100)
    (Some "Completed & Finalized!") (linkedHabitId g).

(** The finalize button (lines 1502 to 1520): its [onClick] runs only while
    the button is not [disabled], that is while [canFinalizeGoal] holds.
    The page renders the button only once [goal] is set. *)
Definition finalizeButton (goalId : string) (st : GoalPage) : GoalPage :=
  match goal st with
  | None => st
  | Some g =>
      if canFinalizeGoal g
      then updateGlobalAndLocalGoal goalId (finalizedGoal g) st
      else st
  end.

(** The goal page together with the global habit list. *)
Record GoalHabitPage := mkGoalHabitPage {
  gh_page : GoalPage;
  gh_habits : list Tracker
}.

(** [{ ...goal, linkedHabitId: habitId }] *)
Definition withLinkedHabit (g : Goal) (habitId : string) : Goal :=
  mkGoal (g_id g) (title g) (type g) (modules g) (progressPercent g)
    (statusText g) (Some habitId).

(** [handleLinkHabit (habitId)]; without a loaded goal the spread has no id,
    nothing is stored and the update only reloads the page. *)
Definition handleLinkHabit (goalId habitId : string) (st : GoalPage)
    : GoalPage :=
  match goal st with
  | Some g => updateGlobalAndLocalGoal goalId (withLinkedHabit g habitId) st
  | None =>
      mkGoalPage (mockGoalsData st)
        (Some (loadGoal goalId (mockGoalsData st)))
  end.

(** The habit object of [handleCreateAndLinkHabit]; [now] is the reading of
    [Date.now ()]. *)
Definition newHabit (now : nat) (newHabitName : string) : Tracker :=
  mkTracker ("h" ++ showNat now) newHabitName 0 0 (mkFreezes 1 1) [].

(** [handleCreateAndLinkHabit ()]; [answer] is what [prompt] returns, [None]
    when the dialog is cancelled. *)
Definition handleCreateAndLinkHabit (goalId : string) (now : nat)
    (answer : option string) (s : GoalHabitPage) : GoalHabitPage :=
  match answer with
  | Some (String c r) =>
      let h := newHabit now (String c r) in
      mkGoalHabitPage (handleLinkHabit goalId (t_id h) (gh_page s))
        (gh_habits s ++ [h])
  | _ => s
  end.

(** [linkedHabit] (line 1416): the habit the goal points to, [None] for
    [null] or [undefined]. *)
Definition linkedHabit (s : GoalHabitPage) : option Tracker :=
  match goal (gh_page s) with
  | Some g =>
      match linkedHabitId g with
      | Some (String c r) =>
          find (fun t => String.eqb (t_id t) (String c r)) (gh_habits s)
      | _ => None
      end
  | None => None
  end.

(** The goal of [mockGoalsData] with the id of the page. *)
Definition storedGoal (goalId : string) (st : GoalPage) : option Goal :=
  find (fun g => String.eqb (g_id g) goalId) (mockGoalsData st).

(** A goal without modules that is complete, and its page. *)
Definition sideProjectDone : Goal :=
  mkGoal "SideProject" "Launch Side Project API" None None (Some 100)
    (Some "Shipped") None.

Definition sideProjectPage : GoalPage :=
  mkGoalPage [threeModuleGoal; sideProjectDone]
    (Some (loadGoal "SideProject" [threeModuleGoal; sideProjectDone])).

(** The module id an operation names. *)
Definition opTarget (op : ModuleOp) : string :=
  match op with
  | OpVerified moduleId => moduleId
  | OpSelfCompleted moduleId => moduleId
  end.

(** The page of [threeModuleGoal] with the habit list of the script. *)
Definition sampleGoalHabitPage : GoalHabitPage :=
  mkGoalHabitPage samplePage [habitH1; habitH2].

(** *** Readers of the habit and check-in data *)

Definition isFrozenEntry (l : CheckIn) : bool :=
  match ci_status l with log_frozen => true | log_completed => false end.

Definition isCompletedEntry (l : CheckIn) : bool :=
  match ci_status l with log_completed => true | log_frozen => false end.

(** Number of frozen, and of completed, entries in the log of a habit. *)
Definition frozenEntries (t : Tracker) : Z :=
  Z.of_nat (List.length (filter isFrozenEntry (logs t))).

Definition completedEntries (t : Tracker) : Z :=
  Z.of_nat (List.length (filter isCompletedEntry (logs t))).

(** What a run of page operations keeps of a habit. *)
Definition trackerKept (t t1 : Tracker) : Prop :=
  t_id t1 = t_id t /\
  (exists added, logs t1 = added ++ logs t) /\
  total (streakFreezes t1) = total (streakFreezes t) /\
  remaining (streakFreezes t1) <= remaining (streakFreezes t) /\
  (0 <= remaining (streakFreezes t) -> 0 <= remaining (streakFreezes t1)) /\
  remaining (streakFreezes t1) + frozenEntries t1
  = remaining (streakFreezes t) + frozenEntries t /\
  currentStreak t1 - completedEntries t1
  = currentStreak t - completedEntries t /\
  longestStreak t <= longestStreak t1 /\
  (currentStreak t <= longestStreak t ->
   currentStreak t1 <= longestStreak t1).

(** The count [ActivityHeatmap] shows for a date (lines 2043 to 2052):
    [new Map(data.map(d => [d.date, d.count])).get(date) || 0]; a later
    entry of a date replaces an earlier one in the map. *)
Definition heatStep (date : string) (acc : option Z) (e : CheckinCount)
    : option Z :=
  if String.eqb (cc_date e) date then Some (cc_count e) else acc.

Definition heatmapCount (date : string) (data : list CheckinCount) : Z :=
  orZero (fold_left (heatStep date) data None).

(** [Math.max(...l)]; [None] is the [-Infinity] of an empty argument
    list. *)
Definition Math_max (l : list Z) : option Z :=
  match l with
  | [] => None
  | x :: r => Some (fold_left Z.max r x)
  end.

(** [TopStreakCard] (lines 688 to 690). *)
Definition topStreak (data : list Tracker) : option Z :=
  Math_max (map currentStreak data).

Definition topStreakTracker (data : list Tracker) : option Tracker :=
  match topStreak data with
  | Some m => find (fun t => currentStreak t =? m) data
  | None => None
  end.

(** The statistics and badges of [ProfilePage] (lines 2116 to 2129). *)
Definition goalsCompleted (goals : list Goal) : nat :=
  List.length
    (filter (fun g => percent (calculateOverallProgressDisplay (Some g)) =? 100)
            goals).

Definition verifiedIn (g : Goal) : nat :=
  match modules g with
  | Some ms => List.length (filter isVerified ms)
  | None => 0
  end.

Definition modulesVerified (goals : list Goal) : nat :=
  fold_left (fun acc g => (acc + verifiedIn g)%nat) goals 0%nat.

Definition statsLongestStreak (data : list Tracker) : Z :=
  fold_left Z.max (map longestStreak data) 0.

Definition badgeGoalSetter (goals : list Goal) : bool :=
  (0 <? goalsCompleted goals)%nat.

Definition badgeStreakStarter (data : list Tracker) : bool :=
  10 <=? statsLongestStreak data.

Definition badgeVerifiedPro (goals : list Goal) : bool :=
  (5 <=? modulesVerified goals)%nat.

(** *** Interest tags: [TagSelectionPage] *)

Record Tag := mkTag {
  tag_emoji : string;
  tag_text : string
}.

(** [addTag (tag)] on the state [selectedTags]. *)
Definition addTag (tag : Tag) (selectedTags : list Tag) : list Tag :=
  match trim (tag_text tag) with
  | EmptyString => selectedTags
  | _ =>
      if existsb (fun t => String.eqb (toLowerCase (tag_text t))
                                      (toLowerCase (tag_text tag)))
                 selectedTags
      then selectedTags
      else selectedTags ++ [tag]
  end.

(** [removeTag (tagToRemove)] *)
Definition removeTag (tagToRemove : Tag) (selectedTags : list Tag)
    : list Tag :=
  filter (fun tag => negb (String.eqb (tag_text tag) (tag_text tagToRemove)))
         selectedTags.

(** The emoji of a custom tag; the label emoji of the script has no code
    unit in the one-byte range, and no function reads the field. *)
Definition customTagEmoji : string := "#".

(** [handleTagInputKeyDown (e)] on the states [selectedTags] and
    [tagInput]. *)
Definition handleTagInputKeyDown (key : string) (st : list Tag * string)
    : list Tag * string :=
  if String.eqb key "Enter"
  then (addTag (mkTag customTagEmoji (trim (snd st))) (fst st), EmptyString)
  else st.

(** Two tags have the same text up to case. *)
Definition sameTagText (a b : Tag) : Prop :=
  toLowerCase (tag_text a) = toLowerCase (tag_text b).

(** *** The sign-in form: [AuthPage] *)

Record AuthForm := mkAuthForm {
  isLoginView : bool;
  fullName : string;
  email : string;
  password : string;
  confirmPassword : string
}.

Definition isEmpty (s : string) : bool :=
  match s with EmptyString => true | _ => false end.

(** [handleSubmit (e)]: the message given to [setError], or the page the
    timer navigates to. *)
Definition handleSubmit (f : AuthForm) : string + string :=
  if isEmpty (email f) then inl "Please enter your email address."
  else if isEmpty (password f) then
    inl (if isLoginView f then "Please enter your password."
         else "Please create a password.")
  else if isLoginView f then inr "mainHome"
  else if isEmpty (fullName f) then inl "Please enter your full name."
  else if (String.length (password f) <? 8)%nat then
    inl "Password must be at least 8 characters."
  else if isEmpty (confirmPassword f) then inl "Please confirm your password."
  else if negb (String.eqb (password f) (confirmPassword f)) then
    inl "Passwords do not match. Please re-enter."
  else inr "tagSelection".

(** *** The daily check-in of [MainDashboardContent] *)

Record Dashboard := mkDashboard {
  isCheckedIn : bool;
  isCheckingIn : bool;
  dash_ledger : Ledger
}.

(** The two halves of the asynchronous [handleCheckIn] of the dashboard
    (lines 779 to 823): the click up to the [await], and the part that runs
    when the insert into the check-in table settles, with its error if it
    failed. *)
Inductive DashEvent :=
| DashClick
| DashSettled (today : string) (error : option string).

Definition dashStep (ev : DashEvent) (d : Dashboard)
    : option string * Dashboard :=
  match ev with
  | DashClick =>
      if isCheckingIn d || isCheckedIn d then (None, d)
      else (None, mkDashboard (isCheckedIn d) true (dash_ledger d))
  | DashSettled today error =>
      if negb (isCheckingIn d) then (None, d)
      else
        match error with
        | None =>
            (Some "Daily Check-in Logged! +10 XP",
             mkDashboard true false (awardXp today 10 (dash_ledger d)))
        | Some _ =>
            (Some "Sorry, there was a problem saving your check-in. Please try again later.",
             mkDashboard (isCheckedIn d) false (dash_ledger d))
        end
  end.

Definition dashRun (evs : list DashEvent) (d : Dashboard) : Dashboard :=
  fold_left (fun s ev => snd (dashStep ev s)) evs d.

Definition dashXp (d : Dashboard) : Z := xp (mockUserProfile (dash_ledger d)).

(** *** The fixed quests of [getWeeklyQuest] *)

Definition questTechOffline : Quest :=
  mkQuest "Tech Offline!"
    "Our AI is taking a break. How about you set a small step for one of your goals yourself this week?"
    EmptyString.

Definition questNoGoals : Quest :=
  mkQuest "No Goals Yet!" "Add a goal to get your first weekly quest!"
    EmptyString.

Definition questAllConquered : Quest :=
  mkQuest "All Goals Conquered!"
    "Looks like you've completed all your current goals! Amazing! Add a new one for a fresh quest."
    EmptyString.

(** *** The verification dialog: [AIVerificationModal] *)

(** The two handlers as the dialog receives them in its props
    [onModuleVerified] and [onModuleSelfCompleted] (lines 1533 and 1534):
    closures of one render of the page.  Whenever such a closure is called
    it reads the [goal] of the render that created it, here [renderGoal];
    [mockGoalsData] and the reload that follows [forceUpdate] are those of
    the moment of the call. *)
Definition onModuleVerified (goalId : string) (renderGoal : option Goal)
    (moduleId : string) (st : GoalPage) : GoalPage :=
  match renderGoal with
  | None => st
  | Some g =>
      match modules g with
      | None => st
      | Some ms =>
          let updatedModules := map (completeModule moduleId true) ms in
          updateGlobalAndLocalGoal goalId (withModules g updatedModules) st
      end
  end.

Definition onModuleSelfCompleted (goalId : string) (renderGoal : option Goal)
    (moduleId : string) (st : GoalPage) : GoalPage :=
  match renderGoal with
  | None => st
  | Some g =>
      match modules g with
      | None => st
      | Some ms =>
          let updatedModules := map (completeModule moduleId false) ms in
          updateGlobalAndLocalGoal goalId (withModules g updatedModules) st
      end
  end.

(** A function handed to [setTimeout] by the dialog (lines 1210 to 1213
    and 1230 to 1233): the handler call it will make, with the [goal] its
    handler closes over. *)
Record Callback := mkCallback {
  cb_op : ModuleOp;
  cb_goal : option Goal
}.

Definition runCallback (goalId : string) (cb : Callback) (st : GoalPage)
    : GoalPage :=
  match cb_op cb with
  | OpVerified moduleId => onModuleVerified goalId (cb_goal cb) moduleId st
  | OpSelfCompleted moduleId =>
      onModuleSelfCompleted goalId (cb_goal cb) moduleId st
  end.

(** The page together with its dialog: [verifyingModule] is the module the
    dialog is open for, [isSubmittingAnswer] the flag both actions of the
    dialog set, [timeouts] the callbacks that wait for their delay. *)
Record ModuleSession := mkModuleSession {
  s_page : GoalPage;
  verifyingModule : option GoalModule;
  isSubmittingAnswer : bool;
  timeouts : list Callback
}.

(** The page right after its mount effect. *)
Definition openedPage (st : GoalPage) : ModuleSession :=
  mkModuleSession st None false [].

(** The modules whose list items, and with them the module buttons, the
    page renders: those of a Learning goal (lines 1454 to 1459). *)
Definition shownModules (st : GoalPage) : list GoalModule :=
  match goal st with
  | Some g =>
      match learningModules g with
      | Some ms => ms
      | None => []
      end
  | None => []
  end.

(** The module the dialog is rendered for (line 1528). *)
Definition dialogModule (s : ModuleSession) : option GoalModule :=
  match verifyingModule s, goal (s_page s) with
  | Some m, Some _ => Some m
  | _, _ => None
  end.

Definition removeAt {A} (n : nat) (l : list A) : list A :=
  firstn n l ++ skipn (S n) l.

(** What the user and the timers can do.
    - [ClickSelfCompleted]: the button I did it! of a module (line 1473).
    - [ClickVerify]: the button Verify with AI or Re-verify with AI of a
      module (lines 1475 and 1481), which opens the dialog.
    - [DialogSubmit]: [handleSubmitToAI] with an answer, up to its
      [setTimeout]; the acknowledgment it awaits never fails.
    - [DialogSelfComplete]: [handleSelfComplete].
    - [DialogOverlay]: a click on the overlay, which calls [onClose]
      whatever the dialog is doing (line 1239).
    - [TimeoutFires n]: the [n]-th waiting callback runs.  The delays
      depend on the time the provider takes, so callbacks may run in any
      order. *)
Inductive SessionEvent :=
| ClickSelfCompleted (moduleId : string)
| ClickVerify (moduleId : string)
| DialogSubmit
| DialogSelfComplete
| DialogOverlay
| TimeoutFires (n : nat).

(** One event.  The dialog is modal ([aria-modal], line 1239): the
    buttons of the page are reached only while no dialog is shown, and
    every opening mounts a dialog with fresh state.  A button that is not
    rendered or is disabled cannot be clicked, and such an event changes
    nothing.  The buttons of the page call the handlers of the current
    render; a callback calls the handler of the render in which the dialog
    action was taken, and then [onClose].  The [awardXp (10)] of line 1207
    acts on the ledger only. *)
Definition sessionStep (goalId : string) (ev : SessionEvent)
    (s : ModuleSession) : ModuleSession :=
  match ev with
  | ClickSelfCompleted moduleId =>
      match dialogModule s with
      | Some _ => s
      | None =>
          if existsb (fun m => String.eqb (m_id m) moduleId
                               && ModuleStatus_eqb (status m) pending)
                     (shownModules (s_page s))
          then mkModuleSession
                 (handleModuleSelfCompleted goalId moduleId (s_page s))
                 (verifyingModule s) (isSubmittingAnswer s) (timeouts s)
          else s
      end
  | ClickVerify moduleId =>
      match dialogModule s with
      | Some _ => s
      | None =>
          match find (fun m => String.eqb (m_id m) moduleId
                               && moduleActionsOffered m)
                     (shownModules (s_page s)) with
          | Some moduleToVerify =>
              mkModuleSession (s_page s) (Some moduleToVerify) false
                (timeouts s)
          | None => s
          end
      end
  | DialogSubmit =>
      match dialogModule s, isSubmittingAnswer s with
      | Some module, false =>
          mkModuleSession (s_page s) (verifyingModule s) true
            (timeouts s
             ++ [mkCallback (OpVerified (m_id module)) (goal (s_page s))])
      | _, _ => s
      end
  | DialogSelfComplete =>
      match dialogModule s, isSubmittingAnswer s with
      | Some module, false =>
          mkModuleSession (s_page s) (verifyingModule s) true
            (timeouts s
             ++ [mkCallback (OpSelfCompleted (m_id module))
                   (goal (s_page s))])
      | _, _ => s
      end
  | DialogOverlay =>
      mkModuleSession (s_page s) None (isSubmittingAnswer s) (timeouts s)
  | TimeoutFires n =>
      match nth_error (timeouts s) n with
      | Some cb =>
          mkModuleSession (runCallback goalId cb (s_page s)) None
            (isSubmittingAnswer s) (removeAt n (timeouts s))
      | None => s
      end
  end.

Definition sessionRun (goalId : string) (evs : list SessionEvent)
    (s : ModuleSession) : ModuleSession :=
  fold_left (fun st ev => sessionStep goalId ev st) evs s.

(** A callback is late when the [goal] of the page is no longer the one
    its handler closes over.  In a timely run no callback is late. *)
Definition timelyStep (ev : SessionEvent) (s : ModuleSession) : Prop :=
  match ev with
  | TimeoutFires n =>
      match nth_error (timeouts s) n with
      | Some cb => cb_goal cb = goal (s_page s)
      | None => True
      end
  | _ => True
  end.

Fixpoint timely (goalId : string) (evs : list SessionEvent)
    (s : ModuleSession) : Prop :=
  match evs with
  | [] => True
  | ev :: r => timelyStep ev s /\ timely goalId r (sessionStep goalId ev s)
  end.

(** The handler calls an event makes, and those of a run in order. *)
Definition performedBy (ev : SessionEvent) (s : ModuleSession)
    : list ModuleOp :=
  match ev with
  | ClickSelfCompleted moduleId =>
      match dialogModule s with
      | Some _ => []
      | None =>
          if existsb (fun m => String.eqb (m_id m) moduleId
                               && ModuleStatus_eqb (status m) pending)
                     (shownModules (s_page s))
          then [OpSelfCompleted moduleId]
          else []
      end
  | TimeoutFires n =>
      match nth_error (timeouts s) n with
      | Some cb => [cb_op cb]
      | None => []
      end
  | _ => []
  end.

Fixpoint performed (goalId : string) (evs : list SessionEvent)
    (s : ModuleSession) : list ModuleOp :=
  match evs with
  | [] => []
  | ev :: r => performedBy ev s ++ performed goalId r (sessionStep goalId ev s)
  end.

(** The page after a list of handler calls each of which runs on the page
    the call before it has left; a timely run ends in this page. *)
Definition callsInTurn (goalId : string) (ops : list ModuleOp)
    (st : GoalPage) : GoalPage :=
  fold_left (fun s op => moduleStep goalId op s) ops st.

(** What the claimed invariants say of a module [m] and the same module
    [m1] later. *)
Definition moduleKept (m m1 : GoalModule) : Prop :=
  m_id m1 = m_id m /\
  (status m = completed -> status m1 = completed) /\
  (verified m = true -> verified m1 = true) /\
  verifiedIsCompleted m1.

(** Two sessions on the page of [threeModuleGoal].  In the first the
    answer for m2 is submitted, the dialog is left by the overlay, m3 is
    self-completed, and then the callback of the submission runs.  In the
    second the dialog is reopened for m3 and self-completion is chosen
    there, more than a second after the acknowledgment for m2 arrived, so
    that the callback for m2 runs first. *)
Definition lateVerification : list SessionEvent :=
  [ ClickVerify "m2"; DialogSubmit; DialogOverlay;
    ClickSelfCompleted "m3"; TimeoutFires 0 ].

Definition lateSelfCompletion : list SessionEvent :=
  [ ClickVerify "m2"; DialogSubmit; DialogOverlay;
    ClickVerify "m3"; DialogSelfComplete;
    TimeoutFires 0; TimeoutFires 0 ].

(** What a timely run maintains: the page is loaded, the module ids are
    pairwise distinct, verified modules are completed, the module of the
    dialog is not verified on the page, and the module a waiting callback
    names is not verified in the goal its handler closes over. *)
Definition sessionSafe (goalId : string) (s : ModuleSession) : Prop :=
  mounted goalId (s_page s) /\
  NoDup (map m_id (pageModules (s_page s))) /\
  Forall verifiedIsCompleted (pageModules (s_page s)) /\
  (forall vm m, verifyingModule s = Some vm ->
     In m (pageModules (s_page s)) -> m_id m = m_id vm ->
     verified m = false) /\
  (forall cb g ms m, In cb (timeouts s) ->
     cb_goal cb = Some g -> modules g = Some ms ->
     In m ms -> m_id m = opTarget (cb_op cb) -> verified m = false).

(** What every run maintains, late callbacks included: the goal is stored
    and loaded, and the modules of the page and of every goal a waiting
    callback closes over have the ids [ids] in this order and are
    completed where verified. *)
Definition sessionSound (goalId : string) (ids : list string)
    (s : ModuleSession) : Prop :=
  (exists fg, storedGoal goalId (s_page s) = Some fg) /\
  mounted goalId (s_page s) /\
  map m_id (pageModules (s_page s)) = ids /\
  Forall verifiedIsCompleted (pageModules (s_page s)) /\
  (forall cb g ms, In cb (timeouts s) ->
     cb_goal cb = Some g -> modules g = Some ms ->
     g_id g = goalId /\ map m_id ms = ids /\
     Forall verifiedIsCompleted ms).

(** *** Direct messages: [ChatPage] *)

Inductive MessageType := msg_sent | msg_received.

Record Message := mkMessage {
  msg_id : string;
  msg_sender : string;
  msg_text : string;
  msg_time : string;
  msg_type : MessageType
}.

(** A conversation; avatar, unread count and the buddy figures are left
    out.  Every conversation of the script carries a [messages] array. *)
Record Chat := mkChat {
  chat_id : string;
  chat_name : string;
  lastMessage : string;
  chat_time : string;
  messages : list Message
}.

(** The state of the page; [awaiting] holds what the suspended
    [handleSendMessage] has captured while it waits for the reply: the chat
    that was active when the message was sent. *)
Record ChatState := mkChatState {
  directMessages : list Chat;
  activeChat : option Chat;
  messageInput : string;
  isBuddyTyping : bool;
  awaiting : option Chat
}.

(** The updater both halves pass to [setDirectMessages]: append the message
    to every chat with the id of [target], and make the first such chat
    the active one. *)
Definition appendMessage (target : Chat) (m : Message)
    (dms : list Chat) : list Chat * option Chat :=
  let updatedDMs :=
    map (fun c => if String.eqb (chat_id c) (chat_id target)
                  then mkChat (chat_id c) (chat_name c) (msg_text m)
                         (msg_time m) (messages c ++ [m])
                  else c)
        dms in
  (updatedDMs,
   find (fun c => String.eqb (chat_id c) (chat_id target)) updatedDMs).

Inductive ChatEvent :=
| ChatSelect (chat : Chat)
| ChatType (value : string)
| ChatSend (now : nat) (time : string)
| ChatReply (aiReplyText : string) (now : nat) (time : string).

(** [handleSelectChat], the input field, and the two halves of
    [handleSendMessage] (lines 1887 to 1936): up to the [await], and from
    the reply on. *)
Definition chatStep (ev : ChatEvent) (s : ChatState) : ChatState :=
  match ev with
  | ChatSelect chat =>
      mkChatState (directMessages s) (Some chat) (messageInput s)
        (isBuddyTyping s) (awaiting s)
  | ChatType value =>
      mkChatState (directMessages s) (activeChat s) value
        (isBuddyTyping s) (awaiting s)
  | ChatSend now time =>
      match trim (messageInput s), activeChat s, isBuddyTyping s with
      | String _ _, Some chat, false =>
          let userMessage :=
            mkMessage ("msg-" ++ showNat now) "You" (messageInput s) time
              msg_sent in
          let r := appendMessage chat userMessage (directMessages s) in
          mkChatState (fst r) (snd r) EmptyString true (Some chat)
      | _, _, _ => s
      end
  | ChatReply aiReplyText now time =>
      match awaiting s with
      | Some chat =>
          let aiMessage :=
            mkMessage ("reply-" ++ showNat now) (chat_name chat) aiReplyText
              time msg_received in
          let r := appendMessage chat aiMessage (directMessages s) in
          mkChatState (fst r) (snd r) (messageInput s) false None
      | None => s
      end
  end.

Definition chatRun (evs : list ChatEvent) (s : ChatState) : ChatState :=
  fold_left (fun st ev => chatStep ev st) evs s.

(** A conversation keeps its identity and only gains messages at its
    end. *)
Definition chatGrown (c c1 : Chat) : Prop :=
  chat_id c1 = chat_id c /\ chat_name c1 = chat_name c /\
  exists added, messages c1 = messages c ++ added.

(** A page with two conversations and nothing selected, and a session
    on it: a message is sent to the first conversation and the second one
    is opened before the reply arrives. *)
Definition sampleChatState : ChatState :=
  mkChatState
    [ mkChat "dm1" "Alex Taylor" "Pretty good, making progress on the UI."
        "10:31 AM"
        [ mkMessage "m1a" "Alex Taylor" "Hey! How is the project going?"
            "10:30 AM" msg_received;
          mkMessage "m1b" "You" "Pretty good, making progress on the UI."
            "10:31 AM" msg_sent ];
      mkChat "dm2" "Samira Khan" "Just finished my vocab for the day!"
        "Yesterday"
        [ mkMessage "m2a" "Samira Khan" "Just finished my vocab for the day!"
            "Yesterday" msg_received ] ]
    None EmptyString false None.

Definition sampleChatEvents : list ChatEvent :=
  [ ChatSelect (mkChat "dm1" "Alex Taylor"
                  "Pretty good, making progress on the UI." "10:31 AM" []);
    ChatType "On my way";
    ChatSend 1000 "10:40 AM";
    ChatSelect (mkChat "dm2" "Samira Khan"
                  "Just finished my vocab for the day!" "Yesterday" []);
    ChatReply "Sounds good!" 2000 "10:41 AM" ].

(** * Properties *)

(** ** The leveling ledger *)

Lemma lookupLevel_cases k t :
  lookupLevel LEVEL_THRESHOLDS k = Some t ->
  (k = 1 /\ t = 0) \/ (k = 2 /\ t = 100) \/ (k = 3 /\ t = 250) \/
  (k = 4 /\ t = 500) \/ (k = 5 /\ t = 1000).
Proof.
  unfold LEVEL_THRESHOLDS; cbn [lookupLevel].
  repeat match goal with
         | |- context [?a =? k] =>
             destruct (Z.eqb_spec a k); [intros [= <-]; subst; tauto|]
         end.
  intros H; discriminate H.
Qed.

Lemma awardXp_xp today amount s :
  xp (mockUserProfile (awardXp today amount s))
  = xp (mockUserProfile s) + amount.
Proof.
  unfold awardXp. destruct (Z.eqb_spec amount 0) as [->|_]; simpl; lia.
Qed.

Lemma checkLevelUp_cases newXp l :
  checkLevelUp newXp l = l \/ checkLevelUp newXp l = l + 1.
Proof.
  unfold checkLevelUp.
  destruct (truthyNum _ && _); auto.
Qed.

Lemma awardXp_level_cases today amount s :
  level (mockUserProfile (awardXp today amount s)) = level (mockUserProfile s)
  \/ level (mockUserProfile (awardXp today amount s))
     = level (mockUserProfile s) + 1.
Proof.
  unfold awardXp. destruct (amount =? 0); simpl; auto using checkLevelUp_cases.
Qed.

Lemma checkLevelUp_table x :
  checkLevelUp x 1 = (if 100 <=? x then 2 else 1) /\
  checkLevelUp x 2 = (if 250 <=? x then 3 else 2) /\
  checkLevelUp x 3 = (if 500 <=? x then 4 else 3) /\
  checkLevelUp x 4 = (if 1000 <=? x then 5 else 4) /\
  checkLevelUp x 5 = 5.
Proof. repeat split. Qed.

(** The level invariant survives a call whose amount does not exceed the
    narrowest gap between two consecutive thresholds above level 2. *)
Lemma awardXp_level_invariant_small today amount s :
  0 <= amount <= 150 ->
  isLargestLevel LEVEL_THRESHOLDS (xp (mockUserProfile s))
                 (level (mockUserProfile s)) ->
  isLargestLevel LEVEL_THRESHOLDS
    (xp (mockUserProfile (awardXp today amount s)))
    (level (mockUserProfile (awardXp today amount s))).
Proof.
  intros Ha [[t [Ht Hle]] Hmax].
  unfold awardXp. destruct (Z.eqb_spec amount 0) as [->|Hnz].
  - split; eauto.
  - cbn [mockUserProfile xp level].
    set (e := xp (mockUserProfile s)) in *.
    set (l := level (mockUserProfile s)) in *.
    assert (H2 := Hmax 2 100 eq_refl).
    assert (H3 := Hmax 3 250 eq_refl).
    assert (H4 := Hmax 4 500 eq_refl).
    assert (H5 := Hmax 5 1000 eq_refl).
    apply lookupLevel_cases in Ht.
    destruct (checkLevelUp_table (e + amount)) as (E1 & E2 & E3 & E4 & E5).
    assert (Hl : l = 1 \/ l = 2 \/ l = 3 \/ l = 4 \/ l = 5) by lia.
    destruct Hl as [Hl|[Hl|[Hl|[Hl|Hl]]]]; rewrite Hl;
      rewrite ?E1, ?E2, ?E3, ?E4, ?E5;
      match goal with
      | |- context [?a <=? ?b] => destruct (Z.leb_spec a b)
      | _ => idtac
      end;
      (split;
       [ first [ exists 0; split; [reflexivity|lia]
               | exists 100; split; [reflexivity|lia]
               | exists 250; split; [reflexivity|lia]
               | exists 500; split; [reflexivity|lia]
               | exists 1000; split; [reflexivity|lia] ]
       | intros L' t' HL' Hle'; apply lookupLevel_cases in HL'; lia ]).
Qed.

(** C1. One call of [awardXp] compares the experience with the threshold of
    the next level only: from level 1 with 0 XP, awarding 300 XP leaves the
    user at level 2, although the largest level of the table whose
    threshold is at most 300 is level 3.  The same happens from the initial
    profile of the script (85 XP, level 1). *)
Theorem awardXp_300_stops_at_level_2 :
  let s := awardXp "2024-07-23" 300 freshLedger in
  let s1 := awardXp "2024-07-23" 300 initialLedger in
  (xp (mockUserProfile s) = 300 /\
   level (mockUserProfile s) = 2 /\
   isLargestLevel LEVEL_THRESHOLDS 300 3 /\
   ~ isLargestLevel LEVEL_THRESHOLDS 300 (level (mockUserProfile s))) /\
  (isLargestLevel LEVEL_THRESHOLDS (xp (mockUserProfile initialLedger))
     (level (mockUserProfile initialLedger)) /\
   xp (mockUserProfile s1) = 385 /\
   level (mockUserProfile s1) = 2 /\
   isLargestLevel LEVEL_THRESHOLDS 385 3).
Proof.
  intros s s1.
  assert (Hl : level (mockUserProfile s) = 2) by reflexivity.
  rewrite Hl.
  assert (Hbound : forall e L, (exists t, lookupLevel LEVEL_THRESHOLDS L = Some t
                                          /\ t <= e) ->
            (forall L1 t1, lookupLevel LEVEL_THRESHOLDS L1 = Some t1 ->
                           t1 <= e -> L1 <= L) ->
            isLargestLevel LEVEL_THRESHOLDS e L) by (intros; split; auto).
  repeat split; try reflexivity.
  - exists 250. split; [reflexivity|lia].
  - intros L1 t1 H Hle. apply lookupLevel_cases in H. lia.
  - intros [_ Hmax]. specialize (Hmax 3 250 eq_refl). lia.
  - exists 0. split; [reflexivity|]. change (0 <= 85). lia.
  - intros L1 t1 H Hle. apply lookupLevel_cases in H.
    change (t1 <= 85) in Hle. change (L1 <= 1). lia.
  - exists 250. split; [reflexivity|lia].
  - intros L1 t1 H Hle. apply lookupLevel_cases in H. lia.
Qed.

(** C8. Two awards of non-negative amounts add up in the experience, and
    the level after them is at least the level before. *)
Theorem awardXp_twice_adds_and_level_monotone
    (day1 day2 : string) (a1 a2 : Z) (s : Ledger) :
  0 <= a1 -> 0 <= a2 ->
  let s2 := awardXp day2 a2 (awardXp day1 a1 s) in
  xp (mockUserProfile s2) = xp (mockUserProfile s) + a1 + a2 /\
  level (mockUserProfile s) <= level (mockUserProfile s2).
Proof.
  intros _ _ s2. subst s2. split.
  - rewrite !awardXp_xp. lia.
  - pose proof (awardXp_level_cases day2 a2 (awardXp day1 a1 s)).
    pose proof (awardXp_level_cases day1 a1 s). lia.
Qed.

Lemma awardXp_twice_witness :
  0 <= 10 /\ 0 <= 10 /\
  let s2 := awardXp "2024-07-24" 10 (awardXp "2024-07-23" 10 initialLedger) in
  xp (mockUserProfile s2) = 85 + 10 + 10 /\
  level (mockUserProfile initialLedger) <= level (mockUserProfile s2).
Proof.
  split; [lia|split; [lia|]].
  apply (@awardXp_twice_adds_and_level_monotone
           "2024-07-23" "2024-07-24" 10 10 initialLedger); lia.
Defined.

(** C9, as stated, fails: a negative amount is subtracted.  Awarding -10 to
    the initial profile lowers its experience from 85 to 75. *)
Lemma awardXp_negative_amount_decreases :
  xp (mockUserProfile (awardXp "2024-07-23" (-10) initialLedger)) = 75 /\
  xp (mockUserProfile (awardXp "2024-07-23" (-10) initialLedger))
  < xp (mockUserProfile initialLedger).
Proof. split; [reflexivity|vm_compute; reflexivity]. Qed.

(** C9, amended. [awardXp] neither rejects nor clamps: for every integer
    amount the experience after the call is the experience before plus the
    amount, so it decreases exactly when the amount is negative. *)
Theorem awardXp_adds_every_amount (today : string) (amount : Z) (s : Ledger) :
  xp (mockUserProfile (awardXp today amount s))
  = xp (mockUserProfile s) + amount /\
  (xp (mockUserProfile (awardXp today amount s)) < xp (mockUserProfile s)
   <-> amount < 0).
Proof. rewrite awardXp_xp. split; [reflexivity|lia]. Qed.

(** *** The XP log *)

Lemma updateAt_length {A} i (g : A -> A) l :
  List.length (updateAt i g l) = List.length l.
Proof.
  revert i; induction l as [|x r IH]; intros [|j]; simpl; auto.
Qed.

Lemma updateXpLog_unfold today newXp log :
  updateXpLog today newXp log =
  match findIndex (fun e => String.eqb (xl_date e) today) log with
  | Some i =>
      let log1 := updateAt i (fun e => mkXpLogEntry (xl_date e) newXp) log in
      if 60 <? Z.of_nat (List.length log) then shift log1 else log1
  | None =>
      if 60 <? Z.of_nat (List.length log) + 1
      then shift (log ++ [mkXpLogEntry today newXp])
      else log ++ [mkXpLogEntry today newXp]
  end.
Proof.
  unfold updateXpLog.
  destruct (findIndex _ log) as [i|]; cbv zeta.
  - now rewrite updateAt_length.
  - rewrite length_app. cbn [List.length].
    now replace (Z.of_nat (List.length log + 1)) with
      (Z.of_nat (List.length log) + 1) by lia.
Qed.

Lemma shift_length {A} (l : list A) :
  List.length (shift l) = pred (List.length l).
Proof. now destruct l. Qed.

Lemma updateXpLog_bounded today newXp log :
  (List.length log <= 60)%nat ->
  (List.length (updateXpLog today newXp log) <= 60)%nat.
Proof.
  intros H. rewrite updateXpLog_unfold.
  destruct (findIndex _ log) as [i|]; cbv zeta.
  - destruct (Z.ltb_spec 60 (Z.of_nat (List.length log))); [lia|].
    now rewrite updateAt_length.
  - destruct (Z.ltb_spec 60 (Z.of_nat (List.length log) + 1)).
    + rewrite shift_length, length_app. cbn [List.length]. lia.
    + rewrite length_app. cbn [List.length]. lia.
Qed.

(** C10. A call of [awardXp] keeps the XP log within 60 entries; when
    today has no entry yet and the log already holds 60, the new entry is
    pushed and the first, oldest entry is dropped. *)
Theorem awardXp_keeps_log_within_60 (today : string) (amount : Z)
    (s : Ledger) :
  (List.length (mockXpLog s) <= 60)%nat ->
  (List.length (mockXpLog (awardXp today amount s)) <= 60)%nat /\
  (amount <> 0 ->
   findIndex (fun e => String.eqb (xl_date e) today) (mockXpLog s) = None ->
   List.length (mockXpLog s) = 60%nat ->
   mockXpLog (awardXp today amount s)
   = tl (mockXpLog s)
     ++ [mkXpLogEntry today (xp (mockUserProfile s) + amount)]).
Proof.
  intros H. unfold awardXp.
  destruct (Z.eqb_spec amount 0) as [->|Hnz]; cbn [mockXpLog].
  - split; [exact H|]. intros Hc; now elim Hc.
  - split; [now apply updateXpLog_bounded|].
    intros _ Hnone Hlen. rewrite updateXpLog_unfold, Hnone, Hlen.
    destruct (mockXpLog s); [discriminate Hlen|reflexivity].
Qed.

Lemma awardXp_log_witness :
  (List.length (mockXpLog fullLedger) <= 60)%nat /\
  (List.length (mockXpLog (awardXp "2024-07-23" 10 fullLedger)) <= 60)%nat /\
  mockXpLog (awardXp "2024-07-23" 10 fullLedger)
  = tl (mockXpLog fullLedger) ++ [mkXpLogEntry "2024-07-23" 95].
Proof.
  assert (H : (List.length (mockXpLog fullLedger) <= 60)%nat)
    by (vm_compute; lia).
  split; [exact H|].
  destruct (@awardXp_keeps_log_within_60 "2024-07-23" 10 fullLedger H)
    as [Hlen Hdrop].
  split; [exact Hlen|].
  apply Hdrop; [lia|reflexivity|reflexivity].
Defined.

(** ** The progress projector *)

Lemma filter_disjoint_length {A} (p q : A -> bool) (l : list A) :
  (forall x, p x = true -> q x = false) ->
  (List.length (filter p l) + List.length (filter q l) <= List.length l)%nat.
Proof.
  intros Hpq. induction l as [|x r IH]; simpl; [lia|].
  destruct (p x) eqn:Hp.
  - rewrite (Hpq x Hp). simpl. lia.
  - destruct (q x); simpl; lia.
Qed.

Lemma verified_not_selfCompleted m :
  isVerified m = true -> isSelfCompleted m = false.
Proof.
  unfold isVerified, isSelfCompleted. intros ->.
  now rewrite andb_false_r.
Qed.

(** The display of a Learning goal with a non-empty module list, in terms
    of its three counts. *)
Lemma display_of_learning_goal g ms :
  learningModules g = Some ms -> ms <> [] ->
  let v := List.length (filter isVerified ms) in
  let h := List.length (filter isSelfCompleted ms) in
  let n := List.length ms in
  calculateOverallProgressDisplay (Some g)
  = mkDisplay (percentOfCounts v h n) (progressText v h n).
Proof.
  intros Hl Hne. unfold calculateOverallProgressDisplay. rewrite Hl.
  destruct ms as [|m r]; [now elim Hne|]. reflexivity.
Qed.

(** A Learning goal without modules shows 0 and the text No modules. *)
Lemma display_no_modules g :
  learningModules g = Some [] ->
  calculateOverallProgressDisplay (Some g) = mkDisplay 0 "No modules".
Proof.
  intros Hl. unfold calculateOverallProgressDisplay. now rewrite Hl.
Qed.

(** The modules [verified, completed-unverified, pending] give 50 percent. *)
Lemma display_three_modules :
  calculateOverallProgressDisplay (Some threeModuleGoal)
  = mkDisplay 50 "1 Verified, 1 Self-Completed / 3 Total Modules".
Proof. vm_compute. reflexivity. Qed.

Lemma percentExactBelow_20 : percentExactBelow 20 = true.
Proof. vm_compute. reflexivity. Qed.

(** Below 20 modules the binary64 computation agrees with the exact
    round-half-up percentage. *)
Lemma percent_exact_below_20 g ms :
  learningModules g = Some ms -> ms <> [] -> (List.length ms < 20)%nat ->
  percent (calculateOverallProgressDisplay (Some g))
  = roundHalfUpPercent (List.length (filter isVerified ms))
      (List.length (filter isSelfCompleted ms)) (List.length ms).
Proof.
  intros Hl Hne Hlt.
  rewrite (display_of_learning_goal g Hl Hne). cbn [percent].
  pose proof (filter_disjoint_length isVerified isSelfCompleted ms
                verified_not_selfCompleted) as Hsum.
  assert (Hpos : (0 < List.length ms)%nat)
    by (destruct ms; [now elim Hne|simpl; lia]).
  pose proof percentExactBelow_20 as Hall. unfold percentExactBelow in Hall.
  rewrite forallb_forall in Hall.
  assert (Hn := Hall (List.length ms) ltac:(apply in_seq; lia)).
  rewrite forallb_forall in Hn.
  assert (Hv := Hn (List.length (filter isVerified ms))
                  ltac:(apply in_seq; lia)).
  rewrite forallb_forall in Hv.
  apply Z.eqb_eq, Hv, in_seq. lia.
Qed.

(** C3. At 20 modules the computed percentage leaves the claimed formula:
    with 11 verified and 1 self-completed module the exact value is 57.5,
    round-half-up gives 58, and the code, which evaluates
    [(11.5 / 20) * 100] in binary64 to a number just below 57.5, shows 57.
    The text is as claimed. *)
Theorem display_twenty_modules_rounds_down :
  calculateOverallProgressDisplay (Some twentyModuleGoal)
  = mkDisplay 57 "11 Verified, 1 Self-Completed / 20 Total Modules" /\
  roundHalfUpPercent 11 1 20 = 58 /\
  fmul (fdiv (fadd (num 11) (fmul (num 1) num_half)) (num 20)) (num 100)
  = S754_finite false 8092405580431359 (-47).
Proof. vm_compute. repeat split. Qed.

(** ** The module handlers *)

Lemma find_updateAt {A} (p : A -> bool) (g : A -> A) l i :
  (forall x, p x = true -> p (g x) = true) ->
  findIndex p l = Some i ->
  find p (updateAt i g l) = option_map g (find p l).
Proof.
  intros Hg. revert i. induction l as [|x r IH]; intros i; simpl.
  - discriminate.
  - destruct (p x) eqn:Hp.
    + intros [= <-]. simpl. now rewrite (Hg x Hp).
    + destruct (findIndex p r) as [j|]; simpl; [|discriminate].
      intros [= <-]. simpl. rewrite Hp. now apply IH.
Qed.

Lemma findIndex_find {A} (p : A -> bool) l :
  findIndex p l = None <-> find p l = None.
Proof.
  induction l as [|x r IH]; simpl; [tauto|].
  destruct (p x); [split; discriminate|].
  destruct (findIndex p r) as [j|]; simpl.
  - split; [discriminate|]. intros H. apply IH in H. discriminate H.
  - split; [intros _; now apply IH|reflexivity].
Qed.

Lemma find_some_index {A} (p : A -> bool) l x :
  find p l = Some x -> exists i, findIndex p l = Some i.
Proof.
  intros H. destruct (findIndex p l) as [i|] eqn:E; [eauto|].
  apply findIndex_find in E. congruence.
Qed.

Lemma loadGoal_found goalId data fg :
  find (fun g => String.eqb (g_id g) goalId) data = Some fg ->
  modules (loadGoal goalId data) = modules fg /\
  g_id (loadGoal goalId data) = goalId.
Proof.
  intros H. unfold loadGoal. rewrite H.
  cbn [calculateLocalGoalProgress modules g_id].
  split; [reflexivity|].
  apply find_some in H. destruct H as [_ H]. now apply String.eqb_eq in H.
Qed.

Lemma update_modules goalId g ms1 st :
  goal st = Some g ->
  mounted goalId st ->
  modules g <> None ->
  pageModules (updateGlobalAndLocalGoal goalId (withModules g ms1) st) = ms1.
Proof.
  intros Hg Hm Hmods. unfold mounted in Hm. rewrite Hg in Hm.
  injection Hm as ->.
  set (g := loadGoal goalId (mockGoalsData st)) in *.
  destruct (find (fun x => String.eqb (g_id x) goalId) (mockGoalsData st))
    as [fg|] eqn:Hf.
  - destruct (@loadGoal_found _ _ _ Hf) as [_ Hid]. fold g in Hid.
    destruct (@find_some_index _ _ _ _ Hf) as [i Hi].
    assert (Hpres : forall x, String.eqb (g_id x) goalId = true ->
              String.eqb (g_id (mergeGoal x (withModules g ms1))) goalId = true).
    { intros x _. cbn [mergeGoal g_id withModules]. rewrite Hid.
      apply String.eqb_refl. }
    unfold updateGlobalAndLocalGoal, pageModules. cbn [goal withModules g_id].
    rewrite Hid, Hi. unfold loadGoal.
    rewrite (@find_updateAt _ (fun x => String.eqb (g_id x) goalId)
               (fun old => mergeGoal old (withModules g ms1)) _ _ Hpres Hi).
    rewrite Hf. reflexivity.
  - exfalso. apply Hmods. unfold g, loadGoal. now rewrite Hf.
Qed.

Lemma handler_modules goalId moduleId v st :
  mounted goalId st ->
  let st1 :=
    match goal st with
    | None => st
    | Some g =>
        match modules g with
        | None => st
        | Some ms =>
            updateGlobalAndLocalGoal goalId
              (withModules g (map (completeModule moduleId v) ms)) st
        end
    end in
  mounted goalId st1 /\
  pageModules st1 = map (completeModule moduleId v) (pageModules st).
Proof.
  intros Hm. cbv zeta.
  destruct (goal st) as [g|] eqn:Hg.
  - destruct (modules g) as [ms|] eqn:Hms.
    + split; [reflexivity|].
      rewrite (@update_modules goalId g _ st Hg Hm) by congruence.
      unfold pageModules. now rewrite Hg, Hms.
    + split; [exact Hm|]. unfold pageModules. now rewrite Hg, Hms.
  - split; [exact Hm|]. unfold pageModules. now rewrite Hg.
Qed.

Lemma moduleStep_modules goalId op st :
  mounted goalId st ->
  mounted goalId (moduleStep goalId op st) /\
  pageModules (moduleStep goalId op st)
  = map (opOnModule op) (pageModules st).
Proof.
  intros Hm. destruct op as [moduleId|moduleId].
  - exact (@handler_modules goalId moduleId true st Hm).
  - exact (@handler_modules goalId moduleId false st Hm).
Qed.

Lemma completeModule_id moduleId v m :
  m_id (completeModule moduleId v m) = m_id m.
Proof. unfold completeModule. now destruct (String.eqb _ _). Qed.

Lemma opsOnModule_facts ops m :
  m_id (opsOnModule ops m) = m_id m /\
  (status m = completed -> status (opsOnModule ops m) = completed) /\
  (verifiedIsCompleted m -> verifiedIsCompleted (opsOnModule ops m)) /\
  (verified m = true -> ~ In (OpSelfCompleted (m_id m)) ops ->
   verified (opsOnModule ops m) = true).
Proof.
  revert m. induction ops as [|op r IH]; intros m.
  - cbn. tauto.
  - unfold opsOnModule. cbn [fold_left]. fold (opsOnModule r (opOnModule op m)).
    destruct (IH (opOnModule op m)) as (Hid & Hst & Hvc & Hv).
    assert (Eid : m_id (opOnModule op m) = m_id m)
      by (destruct op; apply completeModule_id).
    rewrite Eid in *.
    split; [exact Hid|]. split; [|split].
    + intros Hc. apply Hst. destruct op as [i|i]; cbn; unfold completeModule;
        now destruct (String.eqb _ _).
    + intros Hc. apply Hvc. destruct op as [i|i]; cbn;
        unfold completeModule, verifiedIsCompleted in *;
        destruct (String.eqb _ _); cbn; auto.
    + intros Hver Hnot. apply Hv.
      * destruct op as [i|i]; cbn; unfold completeModule;
          destruct (String.eqb_spec (m_id m) i); cbn; auto.
        subst i. exfalso. apply Hnot. now left.
      * intros Hin. apply Hnot. now right.
Qed.

(** C7.  The claimed invariants fail on the code when a callback of the
    dialog runs late.  On the page of the three-module goal (m1 verified,
    m2 self-completed, m3 pending): after the answer for m2 is submitted,
    the dialog left by the overlay and m3 self-completed, the callback of
    the submission writes back the module list of the render it was
    created in, and m3 goes from completed to pending.  When instead the
    dialog is reopened for m3 and self-completion is chosen there before
    the callback for m2 has run, the later callback for m3 takes m2 from
    verified back to unverified.  In both sessions every click is on a
    button the page shows, and only the last callback is late. *)
Theorem late_callback_breaks_module_invariants :
  let s0 := openedPage samplePage in
  let shown evs :=
    map (fun m => (m_id m, status m, verified m))
        (pageModules (s_page (sessionRun "React101" evs s0))) in
  shown []
  = [("m1", completed, true); ("m2", completed, false);
     ("m3", pending, false)] /\
  shown (firstn 4 lateVerification)
  = [("m1", completed, true); ("m2", completed, false);
     ("m3", completed, false)] /\
  shown lateVerification
  = [("m1", completed, true); ("m2", completed, true);
     ("m3", pending, false)] /\
  shown (firstn 6 lateSelfCompletion)
  = [("m1", completed, true); ("m2", completed, true);
     ("m3", pending, false)] /\
  shown lateSelfCompletion
  = [("m1", completed, true); ("m2", completed, false);
     ("m3", completed, false)] /\
  performed "React101" lateVerification s0
  = [OpSelfCompleted "m3"; OpVerified "m2"] /\
  performed "React101" lateSelfCompletion s0
  = [OpVerified "m2"; OpSelfCompleted "m3"] /\
  timely "React101" (firstn 4 lateVerification) s0 /\
  ~ timely "React101" lateVerification s0 /\
  timely "React101" (firstn 6 lateSelfCompletion) s0 /\
  ~ timely "React101" lateSelfCompletion s0.
Proof.
  cbv zeta.
  split; [vm_compute; reflexivity|]. split; [vm_compute; reflexivity|].
  split; [vm_compute; reflexivity|]. split; [vm_compute; reflexivity|].
  split; [vm_compute; reflexivity|]. split; [vm_compute; reflexivity|].
  split; [vm_compute; reflexivity|].
  split; [vm_compute; repeat split|].
  split; [vm_compute; intros (_ & _ & _ & _ & H & _); discriminate H|].
  split; [vm_compute; repeat split|].
  vm_compute. intros (_ & _ & _ & _ & _ & _ & H & _). discriminate H.
Qed.

(** ** The habit tracker *)

Lemma Forall2_map_same {A B} (R : A -> B -> Prop) (f : A -> B) l :
  (forall x, R x (f x)) -> Forall2 R l (map f l).
Proof. intros H. induction l; cbn [map]; constructor; auto. Qed.

Lemma handleCheckIn_refused today trackerId type xpAmount p :
  proofMissing type (getInputs trackerId (inputs p)) = true ->
  handleCheckIn today trackerId type xpAmount p
  = (Some ("Please provide a " ++ proofTypeName type ++ " to check in.")%string,
     p).
Proof. intros H. unfold handleCheckIn. now rewrite H. Qed.

Lemma entriesOn_cons date l t :
  ci_date l = date ->
  forall t1, logs t1 = l :: logs t ->
  entriesOn date t1 = S (entriesOn date t) /\
  checkInOffered date t1 = false /\
  freezeDisabled date t1 = true.
Proof.
  intros Hd t1 Hl.
  unfold entriesOn, checkInOffered, freezeDisabled, todaysLog.
  rewrite Hl. cbn [filter find]. rewrite Hd, String.eqb_refl.
  repeat split.
Qed.

Lemma checkedIn_effect today trackerId newLog t :
  ci_date newLog = today -> ci_status newLog = log_completed ->
  checkInEffect today trackerId t
    (if String.eqb (t_id t) trackerId then checkedIn newLog t else t).
Proof.
  intros Hd Hs. unfold checkInEffect.
  destruct (String.eqb (t_id t) trackerId); [|reflexivity].
  destruct (@entriesOn_cons today newLog t Hd (checkedIn newLog t) eq_refl)
    as (E1 & E2 & E3).
  cbn [checkedIn t_id currentStreak longestStreak streakFreezes logs].
  repeat split; eauto.
Qed.

Lemma handleCheckIn_accepted today trackerId type xpAmount p :
  proofMissing type (getInputs trackerId (inputs p)) = false ->
  let r := handleCheckIn today trackerId type xpAmount p in
  fst r = None /\
  ledger (snd r) = awardXp today xpAmount (ledger p) /\
  mockCheckinsLog (snd r) = countCheckin today (mockCheckinsLog p) /\
  mockTrackersData (snd r) = trackers (snd r) /\
  Forall2 (checkInEffect today trackerId) (trackers p) (trackers (snd r)).
Proof.
  intros H. unfold handleCheckIn. rewrite H.
  cbn [fst snd ledger mockCheckinsLog mockTrackersData trackers].
  repeat split.
  apply Forall2_map_same. intros t. now apply checkedIn_effect.
Qed.

Lemma frozenToday_effect today trackerId t :
  freezeEffect today trackerId t
    (if String.eqb (t_id t) trackerId && (0 <? remaining (streakFreezes t))
     then frozenToday today t else t).
Proof.
  unfold freezeEffect.
  destruct (String.eqb (t_id t) trackerId && _); [|reflexivity].
  destruct (@entriesOn_cons today
              (mkCheckIn today log_frozen (mkProof frozen None None)) t
              eq_refl (frozenToday today t) eq_refl) as (E1 & E2 & E3).
  cbn [frozenToday t_id currentStreak longestStreak streakFreezes logs
       remaining total].
  repeat split; auto.
Qed.

Lemma map_unchanged {A} (f : A -> A) l :
  (forall x, In x l -> f x = x) -> map f l = l.
Proof.
  intros H. induction l as [|x r IH]; cbn [map]; [reflexivity|].
  rewrite H by now left. f_equal. apply IH. intros y Hy. apply H. now right.
Qed.

(** C2, as stated, fails: the handler has no same-day guard.  On the
    opening page, a check-in of habit h1 on 2024-07-23 succeeds, and so do a
    second one on the same date and, after a link is typed in, a third one
    worth 10 XP: the streak goes from 5 to 6, 7 and 8, the log holds three
    entries for that date and the experience rises from 85 to 95. *)
Lemma second_checkIn_same_day_is_accepted :
  let today := "2024-07-23" in
  let r1 := handleCheckIn today "h1" unverified 0 initialTrackerPage in
  let r2 := handleCheckIn today "h1" unverified 0 (snd r1) in
  let r3 := handleCheckIn today "h1" link 10
              (handleInputChange "h1" f_link "https://example.org/" (snd r2)) in
  (fst r1 = None /\ fst r2 = None /\ fst r3 = None) /\
  map currentStreak (trackers (snd r1)) = [6; 0] /\
  map currentStreak (trackers (snd r2)) = [7; 0] /\
  map currentStreak (trackers (snd r3)) = [8; 0] /\
  map (entriesOn today) (trackers (snd r1)) = [1%nat; 0%nat] /\
  map (entriesOn today) (trackers (snd r3)) = [3%nat; 0%nat] /\
  xp (mockUserProfile (ledger (snd r2))) = 85 /\
  xp (mockUserProfile (ledger (snd r3))) = 95.
Proof. vm_compute. repeat split. Qed.

(** C2, amended. [handleCheckIn] refuses a call only when a screenshot or
    link check-in has no payload in the form: it then alerts and leaves the
    page unchanged.  Every other call is accepted, also when the habit
    already has a log entry for today: it awards the experience, counts the
    check-in, and for each habit with that id prepends one completed entry
    for today and raises the streak by one.  After an accepted call the
    habit has an entry for today, so the page renders neither its check-in
    actions nor an enabled freeze button. *)
Theorem handleCheckIn_refuses_only_missing_proof
    (today trackerId : string) (type : ProofType) (xpAmount : Z)
    (p : TrackerPage) :
  let r := handleCheckIn today trackerId type xpAmount p in
  if proofMissing type (getInputs trackerId (inputs p)) then
    fst r = Some ("Please provide a " ++ proofTypeName type
                  ++ " to check in.")%string /\
    snd r = p
  else
    fst r = None /\
    ledger (snd r) = awardXp today xpAmount (ledger p) /\
    mockCheckinsLog (snd r) = countCheckin today (mockCheckinsLog p) /\
    Forall2 (checkInEffect today trackerId) (trackers p) (trackers (snd r)).
Proof.
  cbv zeta.
  destruct (proofMissing type (getInputs trackerId (inputs p))) eqn:H.
  - now rewrite (@handleCheckIn_refused today trackerId type xpAmount p H).
  - destruct (@handleCheckIn_accepted today trackerId type xpAmount p H)
      as (H1 & H2 & H3 & _ & H5).
    auto.
Qed.

(** C4, as stated, fails for the second condition: the handler does not
    look at today's log.  Habit h1 has an entry for 2024-07-22 and one
    freeze left; calling the handler on that date adds a second entry for
    the date and uses the token. *)
Lemma freeze_on_logged_day_is_accepted :
  let today := "2024-07-22" in
  let p1 := handleUseStreakFreeze today "h1" initialTrackerPage in
  option_map ci_date (todaysLog today habitH1) = Some today /\
  remaining (streakFreezes habitH1) = 1 /\
  map (entriesOn today) (trackers p1) = [2%nat; 0%nat] /\
  map (fun t => remaining (streakFreezes t)) (trackers p1) = [0; 0].
Proof. vm_compute. repeat split. Qed.

(** C4, amended. [handleUseStreakFreeze] returns nothing and alerts
    nothing.  It changes only the habits: one with the given id and a
    positive number of freezes left gets one frozen entry for today
    prepended and one freeze less, with both streaks as they were, whether
    or not it already has an entry for today; every other habit is
    unchanged, so with no freeze left the habit list stays as it is.  Only
    the page guards the same day: its button is disabled when the habit has
    an entry for today or no freeze left. *)
Theorem handleUseStreakFreeze_effect (today trackerId : string)
    (p : TrackerPage) :
  let p1 := handleUseStreakFreeze today trackerId p in
  ledger p1 = ledger p /\
  mockCheckinsLog p1 = mockCheckinsLog p /\
  inputs p1 = inputs p /\
  Forall2 (freezeEffect today trackerId) (trackers p) (trackers p1) /\
  ((forall t, In t (trackers p) -> t_id t = trackerId ->
              remaining (streakFreezes t) <= 0) ->
   trackers p1 = trackers p) /\
  (forall t, freezeDisabled today t = true <->
             todaysLog today t <> None \/ remaining (streakFreezes t) = 0).
Proof.
  cbv zeta. unfold handleUseStreakFreeze, updateTrackersState.
  cbn [ledger mockCheckinsLog inputs trackers].
  repeat split.
  - apply Forall2_map_same. intros t. apply frozenToday_effect.
  - intros H. apply map_unchanged. intros t Ht.
    destruct (String.eqb_spec (t_id t) trackerId) as [E|_]; [|reflexivity].
    specialize (H t Ht E).
    destruct (Z.ltb_spec 0 (remaining (streakFreezes t))); [lia|reflexivity].
  - unfold freezeDisabled. destruct (todaysLog today t).
    + intros _. left. discriminate.
    + intros H. right. now apply Z.eqb_eq.
  - unfold freezeDisabled. destruct (todaysLog today t).
    + reflexivity.
    + intros [H|H]; [now elim H|now apply Z.eqb_eq].
Qed.

Lemma Forall2_compose {A} (R : A -> A -> Prop) :
  (forall x y z, R x y -> R y z -> R x z) ->
  forall l1 l2 l3, Forall2 R l1 l2 -> Forall2 R l2 l3 -> Forall2 R l1 l3.
Proof.
  intros Ht l1 l2 l3 H12. revert l3.
  induction H12 as [|x y r1 r2 Hxy _ IH]; intros l3 H23.
  - inversion H23. constructor.
  - inversion H23 as [|y' z r2' r3 Hyz Hr]; subst. constructor; eauto.
Qed.

Lemma Forall2_same {A} (R : A -> A -> Prop) l :
  (forall x, R x x) -> Forall2 R l l.
Proof. intros H. induction l; constructor; auto. Qed.

Lemma trackerStep_streakKept op p :
  Forall2 streakKept (trackers p) (trackers (trackerStep op p)).
Proof.
  destruct op as [i f v|today i ty a|today i]; cbn [trackerStep].
  - apply Forall2_same. split; [reflexivity|lia].
  - destruct (proofMissing ty (getInputs i (inputs p))) eqn:H.
    + rewrite (@handleCheckIn_refused today i ty a p H). cbn [snd].
      apply Forall2_same. split; [reflexivity|lia].
    + destruct (@handleCheckIn_accepted today i ty a p H)
        as (_ & _ & _ & _ & H5).
      revert H5. apply Forall2_impl. intros t t1. unfold checkInEffect.
      destruct (String.eqb (t_id t) i).
      * intros (E1 & E2 & _). split; [exact E1|lia].
      * intros ->. split; [reflexivity|lia].
  - unfold handleUseStreakFreeze, updateTrackersState. cbn [trackers].
    apply Forall2_map_same. intros t.
    destruct (String.eqb (t_id t) i && _); split; cbn; auto; lia.
Qed.

Lemma runTrackerOps_streakKept ops p :
  Forall2 streakKept (trackers p) (trackers (runTrackerOps ops p)).
Proof.
  revert p. induction ops as [|op r IH]; intros p.
  - apply Forall2_same. split; [reflexivity|lia].
  - unfold runTrackerOps. cbn [fold_left].
    apply Forall2_compose with (l2 := trackers (trackerStep op p)).
    + intros x y z [E1 L1] [E2 L2]. split; [congruence|lia].
    + apply trackerStep_streakKept.
    + apply IH.
Qed.

(** C5, as stated, fails: nothing resets a streak.  On 2024-08-01 the most
    recent entry of habit h1 (2024-07-22) is older than yesterday; the page
    still shows the stored streak 5, and a check-in on that day makes it
    6. *)
Lemma checkIn_after_gap_continues_streak :
  let today := "2024-08-01" in
  daySkipped today habitH1 = true /\
  shownStreak habitH1 = 5 /\
  map currentStreak
    (trackers (snd (handleCheckIn today "h1" unverified 0 initialTrackerPage)))
  = [6; 0].
Proof. vm_compute. repeat split. Qed.

(** C5, amended. The streak is a counter that no operation of the page
    resets, whatever the dates of the log: the page shows the stored value,
    an accepted check-in sets the streak to the stored value plus one, a
    freeze leaves it as it is, and over every sequence of form inputs,
    check-ins and freezes each habit keeps its place and id and its streak
    never decreases. *)
Theorem currentStreak_is_never_reset (ops : list TrackerOp)
    (p : TrackerPage) :
  Forall2 (fun t t1 => t_id t1 = t_id t /\
                       currentStreak t <= currentStreak t1 /\
                       shownStreak t1 = currentStreak t1)
    (trackers p) (trackers (runTrackerOps ops p)) /\
  (forall today trackerId type xpAmount,
     proofMissing type (getInputs trackerId (inputs p)) = false ->
     Forall2 (fun t t1 =>
                if String.eqb (t_id t) trackerId
                then currentStreak t1 = currentStreak t + 1
                else t1 = t)
       (trackers p)
       (trackers (snd (handleCheckIn today trackerId type xpAmount p)))) /\
  (forall today trackerId,
     Forall2 (fun t t1 => currentStreak t1 = currentStreak t)
       (trackers p) (trackers (handleUseStreakFreeze today trackerId p))).
Proof.
  split; [|split].
  - generalize (runTrackerOps_streakKept ops p). apply Forall2_impl.
    intros t t1 [E L]. auto.
  - intros today i ty a H.
    destruct (@handleCheckIn_accepted today i ty a p H)
      as (_ & _ & _ & _ & H5).
    revert H5. apply Forall2_impl. intros t t1. unfold checkInEffect.
    destruct (String.eqb (t_id t) i); [|auto]. intros (_ & E & _). exact E.
  - intros today i. unfold handleUseStreakFreeze, updateTrackersState.
    cbn [trackers]. apply Forall2_map_same. intros t.
    now destruct (String.eqb (t_id t) i && _).
Qed.

(** ** The quest parser *)














(** The two sample inputs of the specification. *)
Example parse_well_formed_response :
  parseQuestResponse (Some wellFormedResponse) [learnPython]
  = Some (mkQuest "A" "B" "C").
Proof. reflexivity. Qed.

Example parse_unstructured_response :
  parseQuestResponse
    (Some "random unstructured text mentioning Learn Python") [learnPython]
  = Some (mkQuest "Weekly Quest Suggestion"
            "random unstructured text mentioning Learn Python"
            "Learn Python").
Proof. reflexivity. Qed.

(** ** Further properties of the ledger *)

Lemma ownsPerk_app id owned u :
  ownsPerk id (owned ++ [u])
  = ownsPerk id owned || String.eqb (perk_id u) id.
Proof.
  unfold ownsPerk. rewrite existsb_app. cbn [existsb].
  now rewrite orb_false_r.
Qed.

Lemma checkUnlock_owns newXp owned u id :
  ownsPerk id (checkUnlock newXp owned u)
  = ownsPerk id owned
    || (String.eqb (perk_id u) id && (xpRequired u <=? newXp)).
Proof.
  unfold checkUnlock. fold (ownsPerk (perk_id u) owned).
  destruct (xpRequired u <=? newXp); cbn [andb].
  - destruct (ownsPerk (perk_id u) owned) eqn:Ho; cbn [negb].
    + rewrite andb_true_r.
      destruct (String.eqb_spec (perk_id u) id) as [<-|_].
      * now rewrite Ho.
      * now rewrite orb_false_r.
    + now rewrite ownsPerk_app, andb_true_r.
  - now rewrite andb_false_r, orb_false_r.
Qed.

Lemma unlocks_own newXp tbl owned id :
  ownsPerk id (fold_left (checkUnlock newXp) tbl owned)
  = ownsPerk id owned
    || existsb (fun u => String.eqb (perk_id u) id && (xpRequired u <=? newXp))
               tbl.
Proof.
  revert owned. induction tbl as [|u r IH]; intros owned; cbn [fold_left existsb].
  - now rewrite orb_false_r.
  - rewrite IH, checkUnlock_owns. now rewrite orb_assoc.
Qed.

Lemma ownsPerk_In id owned :
  ownsPerk id owned = true <-> In id (map perk_id owned).
Proof.
  unfold ownsPerk. rewrite existsb_exists, in_map_iff. split.
  - intros (p & Hin & He). apply String.eqb_eq in He. eauto.
  - intros (p & He & Hin). exists p. split; [exact Hin|].
    now apply String.eqb_eq.
Qed.

Lemma unlocks_extend newXp tbl owned :
  exists added,
    fold_left (checkUnlock newXp) tbl owned = owned ++ added /\
    (forall u, In u added ->
               In u tbl /\ xpRequired u <= newXp /\
               ownsPerk (perk_id u) owned = false) /\
    (NoDup (map perk_id owned) ->
     NoDup (map perk_id (owned ++ added))).
Proof.
  revert owned. induction tbl as [|u r IH]; intros owned; cbn [fold_left].
  - exists []. rewrite app_nil_r. split; [reflexivity|].
    split; [intros x []|auto].
  - destruct (IH (checkUnlock newXp owned u)) as (added & E & Hadded & Hnd).
    assert (Hkeep : checkUnlock newXp owned u = owned ->
              exists added0,
                fold_left (checkUnlock newXp) r (checkUnlock newXp owned u)
                = owned ++ added0 /\
                (forall x, In x added0 ->
                   In x (u :: r) /\ xpRequired x <= newXp /\
                   ownsPerk (perk_id x) owned = false) /\
                (NoDup (map perk_id owned) ->
                 NoDup (map perk_id (owned ++ added0)))).
    { intros Ek. rewrite Ek in *. exists added.
      split; [exact E|]. split; [|exact Hnd].
      intros x Hx. destruct (Hadded x Hx) as (H1 & H2 & H3).
      split; [now right|auto]. }
    unfold checkUnlock in *. fold (ownsPerk (perk_id u) owned) in *.
    destruct (Z.leb_spec (xpRequired u) newXp) as [Hle|Hgt]; cbn [andb] in *;
      [|now apply Hkeep].
    destruct (ownsPerk (perk_id u) owned) eqn:Ho; cbn [negb] in *;
      [now apply Hkeep|].
    clear Hkeep. exists (u :: added).
    replace (owned ++ u :: added) with ((owned ++ [u]) ++ added)
      by (rewrite <- app_assoc; reflexivity).
    split; [exact E|]. split.
    + intros x [<-|Hx].
      * split; [now left|auto].
      * destruct (Hadded x Hx) as (H1 & H2 & H3).
        split; [now right|]. split; [exact H2|].
        rewrite ownsPerk_app in H3. now apply orb_false_iff in H3.
    + intros Hn. apply Hnd. rewrite map_app. cbn [map].
      apply NoDup_app.
      * exact Hn.
      * constructor; [intros []|constructor].
      * intros x Hx [<-|[]]. apply ownsPerk_In in Hx. congruence.
Qed.

(** X1. [awardXp] only appends to the perk list: what the user owned stays
    in place and in order, each appended perk is an entry of [UNLOCKABLES]
    whose requirement the new experience meets and which was not owned, and
    perk ids that were pairwise distinct stay so. *)
Theorem awardXp_perks_only_grow (today : string) (amount : Z) (s : Ledger) :
  let s1 := awardXp today amount s in
  exists added,
    unlockedPerks (mockUserProfile s1)
    = unlockedPerks (mockUserProfile s) ++ added /\
    (forall u, In u added ->
       In u UNLOCKABLES /\
       xpRequired u <= xp (mockUserProfile s1) /\
       ownsPerk (perk_id u) (unlockedPerks (mockUserProfile s)) = false) /\
    (NoDup (map perk_id (unlockedPerks (mockUserProfile s))) ->
     NoDup (map perk_id (unlockedPerks (mockUserProfile s1)))).
Proof.
  cbv zeta. unfold awardXp. destruct (amount =? 0).
  - exists []. rewrite app_nil_r. split; [reflexivity|].
    split; [intros u []|auto].
  - cbn [mockUserProfile unlockedPerks xp].
    destruct (unlocks_extend (xp (mockUserProfile s) + amount) UNLOCKABLES
                (unlockedPerks (mockUserProfile s)))
      as (added & E & Hadded & Hnd).
    exists added. rewrite E. auto.
Qed.

(** X2. After a call with a non-zero amount the user owns a perk of the
    table exactly if it was owned before or the new experience reaches its
    requirement; a call with amount 0 changes no perk. *)
Theorem awardXp_owns_exactly_reached_perks (today : string) (amount : Z)
    (s : Ledger) (u : Perk) :
  In u UNLOCKABLES ->
  let s1 := awardXp today amount s in
  ownsPerk (perk_id u) (unlockedPerks (mockUserProfile s1)) = true <->
  ownsPerk (perk_id u) (unlockedPerks (mockUserProfile s)) = true \/
  (amount <> 0 /\ xpRequired u <= xp (mockUserProfile s) + amount).
Proof.
  intros Hu. cbv zeta. unfold awardXp.
  destruct (Z.eqb_spec amount 0) as [->|Hnz].
  - split; [auto|]. intros [H|[H _]]; [exact H|now elim H].
  - cbn [mockUserProfile unlockedPerks]. rewrite unlocks_own.
    rewrite orb_true_iff, existsb_exists. split.
    + intros [H|(v & Hv & Hc)]; [now left|right].
      split; [exact Hnz|].
      apply andb_true_iff in Hc. destruct Hc as [He Hle].
      apply String.eqb_eq in He. apply Z.leb_le in Hle.
      assert (v = u); [|now subst].
      cbn in Hu, Hv.
      repeat match goal with
             | H : _ \/ _ |- _ => destruct H
             | H : False |- _ => destruct H
             end; subst; try reflexivity; discriminate He.
    + intros [H|[_ H]]; [now left|right].
      exists u. split; [exact Hu|].
      rewrite String.eqb_refl. now apply Z.leb_le.
Qed.

Lemma awardXp_owns_witness :
  In (mkPerk "Dark Mode Theme" 100 "dark_mode") UNLOCKABLES /\
  (ownsPerk "dark_mode"
     (unlockedPerks (mockUserProfile (awardXp "2024-07-23" 10 initialLedger)))
   = true <->
   ownsPerk "dark_mode" (unlockedPerks (mockUserProfile initialLedger)) = true
   \/ (10 <> 0 /\ 100 <= xp (mockUserProfile initialLedger) + 10)).
Proof.
  assert (H : In (mkPerk "Dark Mode Theme" 100 "dark_mode") UNLOCKABLES)
    by (cbn; auto).
  split; [exact H|].
  exact (@awardXp_owns_exactly_reached_perks "2024-07-23" 10 initialLedger
           (mkPerk "Dark Mode Theme" 100 "dark_mode") H).
Defined.

Lemma updateAt_dates i newXp log :
  map xl_date (updateAt i (fun e => mkXpLogEntry (xl_date e) newXp) log)
  = map xl_date log.
Proof.
  revert i. induction log as [|e r IH]; intros [|j]; cbn; auto.
  now rewrite IH.
Qed.

Lemma findIndex_none_dates today (log : list XpLogEntry) :
  findIndex (fun e => String.eqb (xl_date e) today) log = None ->
  ~ In today (map xl_date log).
Proof.
  induction log as [|e r IH]; cbn; [tauto|].
  destruct (String.eqb_spec (xl_date e) today) as [|Hne]; [discriminate|].
  destruct (findIndex _ r); cbn; [discriminate|].
  intros _ [H|H]; [now elim Hne|now apply IH].
Qed.

(** X3. The XP log holds at most one entry per date, and [awardXp] keeps it
    so: it overwrites the entry of today or appends one, never a second
    one. *)
Theorem awardXp_keeps_one_entry_per_date (today : string) (amount : Z)
    (s : Ledger) :
  NoDup (map xl_date (mockXpLog s)) ->
  NoDup (map xl_date (mockXpLog (awardXp today amount s))).
Proof.
  intros Hn. unfold awardXp. destruct (amount =? 0); [exact Hn|].
  cbn [mockXpLog]. unfold updateXpLog.
  set (newXp := xp (mockUserProfile s) + amount).
  assert (H1 : NoDup (map xl_date
            match findIndex (fun e => String.eqb (xl_date e) today)
                            (mockXpLog s) with
            | Some i => updateAt i (fun e => mkXpLogEntry (xl_date e) newXp)
                                 (mockXpLog s)
            | None => mockXpLog s ++ [mkXpLogEntry today newXp]
            end)).
  { destruct (findIndex _ (mockXpLog s)) as [i|] eqn:E.
    - now rewrite updateAt_dates.
    - rewrite map_app. cbn [map xl_date]. apply NoDup_app.
      + exact Hn.
      + constructor; [intros []|constructor].
      + intros d Hd [<-|[]]. now apply (findIndex_none_dates _ _ E). }
  destruct (60 <? _); [|exact H1].
  unfold shift.
  match goal with |- NoDup (map _ (tl ?l)) => destruct l as [|e r] end;
    cbn [tl map] in *; [exact H1|now inversion H1].
Qed.

Lemma awardXp_dates_witness :
  NoDup (map xl_date (mockXpLog initialLedger)) /\
  NoDup (map xl_date (mockXpLog (awardXp "2024-07-23" 10 initialLedger))).
Proof.
  assert (H : NoDup (map xl_date (mockXpLog initialLedger)))
    by (cbn; constructor; [intros []|constructor]).
  split; [exact H|].
  exact (@awardXp_keeps_one_entry_per_date "2024-07-23" 10 initialLedger H).
Defined.

Lemma find_updateAt_hit {A} (p : A -> bool) (g : A -> A) l i :
  findIndex p l = Some i ->
  (forall x, p x = true -> p (g x) = true) ->
  exists x, find p l = Some x /\ find p (updateAt i g l) = Some (g x).
Proof.
  intros Hi Hg. rewrite (@find_updateAt _ p g l i Hg Hi).
  destruct (find p l) as [x|] eqn:E; [eauto|].
  apply findIndex_find in E. congruence.
Qed.

Lemma find_app_last {A} (p : A -> bool) l x :
  find p l = None -> p x = true -> find p (l ++ [x]) = Some x.
Proof.
  intros Hn Hx. induction l as [|y r IH]; cbn in *; [now rewrite Hx|].
  destruct (p y); [discriminate|auto].
Qed.

Lemma find_tl_miss {A} (p : A -> bool) l :
  (forall x, hd_error l = Some x -> p x = false) ->
  find p (tl l) = find p l.
Proof.
  destruct l as [|y r]; cbn; [auto|]. intros H. now rewrite (H y eq_refl).
Qed.

Lemma xpLog_update_other today d newXp log i :
  d <> today ->
  findIndex (fun e => String.eqb (xl_date e) today) log = Some i ->
  find (fun e => String.eqb (xl_date e) d)
       (updateAt i (fun e => mkXpLogEntry (xl_date e) newXp) log)
  = find (fun e => String.eqb (xl_date e) d) log.
Proof.
  intros Hd. revert i. induction log as [|e r IH]; intros i; cbn [findIndex].
  - discriminate.
  - destruct (String.eqb_spec (xl_date e) today) as [Ee|Hne].
    + intros [= <-]. cbn [updateAt find xl_date].
      destruct (String.eqb_spec (xl_date e) d); [congruence|reflexivity].
    + destruct (findIndex _ r) as [j|]; cbn [option_map]; [|discriminate].
      intros [= <-]. cbn [updateAt find].
      destruct (String.eqb (xl_date e) d); [reflexivity|now apply IH].
Qed.

(** X4. After a call with a non-zero amount on a log of at most 60 entries,
    the entry found for today records the new experience; while the log is
    shorter than 60, the entry found for any other date is the one found
    before. *)
Theorem awardXp_records_today (today : string) (amount : Z) (s : Ledger) :
  amount <> 0 ->
  (List.length (mockXpLog s) <= 60)%nat ->
  let s1 := awardXp today amount s in
  xpLogEntryOn today (mockXpLog s1)
  = Some (mkXpLogEntry today (xp (mockUserProfile s) + amount)) /\
  ((List.length (mockXpLog s) < 60)%nat ->
   forall d, d <> today ->
     xpLogEntryOn d (mockXpLog s1) = xpLogEntryOn d (mockXpLog s)).
Proof.
  intros Hnz Hlen. cbv zeta. unfold awardXp.
  destruct (Z.eqb_spec amount 0) as [E|_]; [now elim Hnz|].
  cbn [mockXpLog]. rewrite updateXpLog_unfold. unfold xpLogEntryOn.
  set (newXp := xp (mockUserProfile s) + amount).
  set (log := mockXpLog s) in *.
  destruct (findIndex (fun e => String.eqb (xl_date e) today) log)
    as [i|] eqn:Hi; cbv zeta.
  - destruct (Z.ltb_spec 60 (Z.of_nat (List.length log))); [lia|]. split.
    + destruct (@find_updateAt_hit _ (fun e => String.eqb (xl_date e) today)
                  (fun e => mkXpLogEntry (xl_date e) newXp) log i Hi
                  (fun x Hx => Hx)) as (x & Hx & ->).
      apply find_some in Hx. destruct Hx as [_ Hx].
      apply String.eqb_eq in Hx. now rewrite Hx.
    + intros _ d Hd. exact (@xpLog_update_other today d newXp log i Hd Hi).
  - assert (Hfind : find (fun e => String.eqb (xl_date e) today) log = None)
      by now apply findIndex_find.
    destruct (Z.ltb_spec 60 (Z.of_nat (List.length log) + 1)) as [Hfull|Hroom].
    + split; [|lia]. unfold shift. rewrite find_tl_miss.
      * apply find_app_last; [exact Hfind|]. cbn. apply String.eqb_refl.
      * intros x Hx. destruct log as [|y r]; [cbn in Hlen, Hfull; lia|].
        cbn in Hx. injection Hx as <-. cbn in Hfind.
        now destruct (String.eqb (xl_date y) today).
    + split.
      * apply find_app_last; [exact Hfind|]. cbn. apply String.eqb_refl.
      * intros _ d Hd. clear Hfind Hi Hlen Hroom.
        induction log as [|e r IH]; cbn [app find xl_date].
        -- destruct (String.eqb_spec today d); [congruence|reflexivity].
        -- destruct (String.eqb (xl_date e) d); auto.
Qed.

Lemma awardXp_records_witness :
  10 <> 0 /\
  (List.length (mockXpLog fullLedger) <= 60)%nat /\
  xpLogEntryOn "2024-07-23" (mockXpLog (awardXp "2024-07-23" 10 fullLedger))
  = Some (mkXpLogEntry "2024-07-23" 95).
Proof.
  assert (H1 : 10 <> 0) by lia.
  assert (H2 : (List.length (mockXpLog fullLedger) <= 60)%nat)
    by (vm_compute; lia).
  split; [exact H1|]. split; [exact H2|].
  exact (proj1 (@awardXp_records_today "2024-07-23" 10 fullLedger H1 H2)).
Defined.

(** X5. With the amounts the application awards (0 and 10, and any amount
    from 0 to 150), the level stays the largest level whose threshold the
    experience has reached, over every run of calls. *)
Theorem awardAll_keeps_level_invariant (awards : list (string * Z))
    (s : Ledger) :
  (forall a, In a awards -> 0 <= snd a <= 150) ->
  isLargestLevel LEVEL_THRESHOLDS (xp (mockUserProfile s))
                 (level (mockUserProfile s)) ->
  isLargestLevel LEVEL_THRESHOLDS
    (xp (mockUserProfile (awardAll awards s)))
    (level (mockUserProfile (awardAll awards s))).
Proof.
  revert s. induction awards as [|a r IH]; intros s Hall Hinv; [exact Hinv|].
  unfold awardAll. cbn [fold_left]. apply IH.
  - intros b Hb. apply Hall. now right.
  - apply awardXp_level_invariant_small; [|exact Hinv]. apply Hall. now left.
Qed.

Lemma initialLedger_level_invariant :
  isLargestLevel LEVEL_THRESHOLDS (xp (mockUserProfile initialLedger))
                 (level (mockUserProfile initialLedger)).
Proof.
  split.
  - exists 0. split; [reflexivity|]. change (0 <= 85). lia.
  - intros L1 t1 H Hle. apply lookupLevel_cases in H.
    change (t1 <= 85) in Hle. change (L1 <= 1). lia.
Qed.

Lemma awardAll_level_witness :
  let awards := [("2024-07-23", 10); ("2024-07-23", 0); ("2024-07-24", 10)] in
  (forall a, In a awards -> 0 <= snd a <= 150) /\
  isLargestLevel LEVEL_THRESHOLDS (xp (mockUserProfile initialLedger))
                 (level (mockUserProfile initialLedger)) /\
  isLargestLevel LEVEL_THRESHOLDS
    (xp (mockUserProfile (awardAll awards initialLedger)))
    (level (mockUserProfile (awardAll awards initialLedger))).
Proof.
  intros awards.
  assert (H1 : forall a, In a awards -> 0 <= snd a <= 150).
  { intros a [<-|[<-|[<-|[]]]]; cbn; lia. }
  split; [exact H1|]. split; [exact initialLedger_level_invariant|].
  exact (@awardAll_keeps_level_invariant awards initialLedger H1
           initialLedger_level_invariant).
Defined.

Lemma lookupLevel_other k :
  k <> 1 -> k <> 2 -> k <> 3 -> k <> 4 -> k <> 5 ->
  lookupLevel LEVEL_THRESHOLDS k = None.
Proof.
  intros. unfold LEVEL_THRESHOLDS; cbn [lookupLevel].
  repeat match goal with
         | |- context [?a =? k] => destruct (Z.eqb_spec a k); [lia|]
         end.
  reflexivity.
Qed.

Lemma checkLevelUp_outside x l :
  l < 1 \/ 4 < l -> checkLevelUp x l = l.
Proof.
  intros H. unfold checkLevelUp.
  destruct (Z.eq_dec l 0) as [->|H0]; [reflexivity|].
  rewrite lookupLevel_other by lia. reflexivity.
Qed.

(** X6. A call moves the level by one step at most, and it moves it exactly
    when the amount is not 0, the level is one of 1 to 4 and the new
    experience reaches the threshold of the next level.  A profile at level
    5, or at a level below 1 (level 0 looks up the threshold 0 of level 1,
    which the test takes for missing), keeps its level whatever it is
    awarded; no call lowers the level, also when the amount is negative. *)
Theorem awardXp_level_step (today : string) (amount : Z) (s : Ledger) :
  let l := level (mockUserProfile s) in
  let l1 := level (mockUserProfile (awardXp today amount s)) in
  (l1 = l \/ l1 = l + 1) /\
  (l1 = l + 1 <->
   amount <> 0 /\ 1 <= l <= 4 /\
   exists t, lookupLevel LEVEL_THRESHOLDS (l + 1) = Some t /\
             t <= xp (mockUserProfile s) + amount) /\
  (l < 1 \/ 4 < l -> l1 = l).
Proof.
  cbv zeta. split; [apply awardXp_level_cases|].
  unfold awardXp. destruct (Z.eqb_spec amount 0) as [->|Hnz].
  - split; [|reflexivity]. split; [lia|]. intros [H _]. now elim H.
  - cbn [mockUserProfile level].
    set (l := level (mockUserProfile s)).
    set (x := xp (mockUserProfile s) + amount).
    split; [|apply checkLevelUp_outside].
    destruct (checkLevelUp_table x) as (E1 & E2 & E3 & E4 & _).
    destruct (Z_lt_le_dec l 1) as [Hlo|Hlo];
      [|destruct (Z_lt_le_dec 4 l) as [Hhi|Hhi]].
    + rewrite checkLevelUp_outside by lia. split; [lia|]. intros (_ & H & _). lia.
    + rewrite checkLevelUp_outside by lia. split; [lia|]. intros (_ & H & _). lia.
    + assert (Hl : l = 1 \/ l = 2 \/ l = 3 \/ l = 4) by lia.
      destruct Hl as [Hl|[Hl|[Hl|Hl]]]; rewrite Hl;
        rewrite ?E1, ?E2, ?E3, ?E4;
        match goal with
        | |- context [?a <=? x] => destruct (Z.leb_spec a x) as [Hge|Hlt]
        end;
        (split;
         [ intros Hup;
           first [ lia
                 | split; [exact Hnz|]; split; [lia|];
                   eexists; split; [reflexivity|lia] ]
         | intros (_ & _ & t & Ht & Hle);
           first [ reflexivity | apply lookupLevel_cases in Ht; lia ] ]).
Qed.

(** X7. On the profile page the span of the current level is positive for
    every profile, so the progress bar is always computed by the division
    and its fallback of 100 is never taken; at level 5 the span is the
    fallback of 150.  When the level is the largest level reached, the
    experience into the level is not negative, and below level 5 it is
    less than the span. *)
Theorem levelProgress_span (p : UserProfile) :
  let lp := levelProgress p in
  0 < xpForNextLevel lp /\
  levelBarPercent lp
  = fmul (fdiv (num (xpIntoLevel lp)) (num (xpForNextLevel lp))) (num 100) /\
  (level p = 5 -> xpForNextLevel lp = 150) /\
  (isLargestLevel LEVEL_THRESHOLDS (xp p) (level p) ->
   0 <= xpIntoLevel lp /\ (level p < 5 -> xpIntoLevel lp < xpForNextLevel lp)).
Proof.
  cbv zeta.
  assert (Hspan : 0 < xpForNextLevel (levelProgress p)).
  { unfold levelProgress. cbn [xpForNextLevel].
    set (l := level p).
    destruct (Z.eq_dec l 0) as [->|H0]; [reflexivity|].
    destruct (Z.eq_dec l 1) as [->|H1]; [reflexivity|].
    destruct (Z.eq_dec l 2) as [->|H2]; [reflexivity|].
    destruct (Z.eq_dec l 3) as [->|H3]; [reflexivity|].
    destruct (Z.eq_dec l 4) as [->|H4]; [reflexivity|].
    destruct (Z.eq_dec l 5) as [->|H5]; [reflexivity|].
    rewrite (lookupLevel_other (k := l)) by lia.
    rewrite (lookupLevel_other (k := l + 1)) by lia.
    reflexivity. }
  split; [exact Hspan|]. split; [|split].
  - unfold levelProgress in *. cbn [levelBarPercent xpForNextLevel xpIntoLevel] in *.
    apply Z.ltb_lt in Hspan. now rewrite Hspan.
  - unfold levelProgress. cbn [xpForNextLevel]. now intros ->.
  - intros [[t [Ht Hle]] Hmax].
    assert (H2 := Hmax 2 100 eq_refl).
    assert (H3 := Hmax 3 250 eq_refl).
    assert (H4 := Hmax 4 500 eq_refl).
    assert (H5 := Hmax 5 1000 eq_refl).
    apply lookupLevel_cases in Ht.
    destruct p as [x l perks]. cbn [level xp] in *.
    destruct Ht as [[-> ->]|[[-> ->]|[[-> ->]|[[-> ->]|[-> ->]]]]];
      cbv -[Z.sub Z.le Z.lt]; lia.
Qed.

(** X8. The settings page allows dark mode from 100 XP on, and whenever it
    does so right after a call of [awardXp] with a non-zero amount, the
    perk Dark Mode Theme is among the unlocked perks. *)
Theorem darkMode_allowed_is_unlocked (today : string) (amount : Z)
    (s : Ledger) :
  let p1 := mockUserProfile (awardXp today amount s) in
  canUseDarkMode p1 = Some (100 <=? xp p1) /\
  (amount <> 0 -> canUseDarkMode p1 = Some true ->
   ownsPerk "dark_mode" (unlockedPerks p1) = true).
Proof.
  cbv zeta. split; [reflexivity|].
  intros Hnz H.
  change (Some (100 <=? xp (mockUserProfile (awardXp today amount s)))
          = Some true) in H.
  injection H as Hle. rewrite awardXp_xp in Hle.
  unfold awardXp. destruct (Z.eqb_spec amount 0) as [E|_]; [now elim Hnz|].
  cbn [mockUserProfile unlockedPerks]. rewrite unlocks_own.
  apply orb_true_iff. right. cbn [UNLOCKABLES existsb perk_id xpRequired].
  rewrite String.eqb_refl, Hle. reflexivity.
Qed.
(** ** Further properties of the goal page *)

Lemma orElse_same {A} (a : option A) : orElse a a = a.
Proof. now destruct a. Qed.

Lemma learningModules_local g :
  learningModules (calculateLocalGoalProgress g) = learningModules g.
Proof. reflexivity. Qed.

Lemma display_depends_on_learningModules g1 g2 ms :
  learningModules g1 = Some ms -> learningModules g2 = Some ms ->
  calculateOverallProgressDisplay (Some g1)
  = calculateOverallProgressDisplay (Some g2).
Proof.
  intros H1 H2. unfold calculateOverallProgressDisplay. now rewrite H1, H2.
Qed.

Lemma storedDisplay_text_nonempty g :
  text (storedDisplay g) <> EmptyString.
Proof.
  unfold storedDisplay. cbn [text].
  destruct (statusText g) as [[|c r]|];
    try destruct (orZero (progressPercent g) =? 100); discriminate.
Qed.

Lemma display_not_learning g :
  learningModules g = None ->
  calculateOverallProgressDisplay (Some g) = storedDisplay g.
Proof.
  intros E. unfold calculateOverallProgressDisplay. now rewrite E.
Qed.

Lemma storedDisplay_eta g :
  storedDisplay g = mkDisplay (orZero (progressPercent g))
                              (text (storedDisplay g)).
Proof. reflexivity. Qed.

(** X9. [calculateLocalGoalProgress] is idempotent, and the projector shows
    for the goal it returns what it shows for the goal it was given: the
    stored copy of the progress never changes what is displayed. *)
Theorem calculateLocalGoalProgress_idempotent (g : Goal) :
  calculateLocalGoalProgress (calculateLocalGoalProgress g)
  = calculateLocalGoalProgress g /\
  calculateOverallProgressDisplay (Some (calculateLocalGoalProgress g))
  = calculateOverallProgressDisplay (Some g).
Proof.
  assert (H : calculateOverallProgressDisplay
                (Some (calculateLocalGoalProgress g))
              = calculateOverallProgressDisplay (Some g)).
  { destruct (learningModules g) as [ms|] eqn:E.
    - apply display_depends_on_learningModules with (ms := ms);
        [now rewrite learningModules_local|exact E].
    - rewrite (@display_not_learning (calculateLocalGoalProgress g))
        by now rewrite learningModules_local.
      unfold calculateLocalGoalProgress.
      rewrite (@display_not_learning g E).
      pose proof (storedDisplay_text_nonempty g) as Hne.
      rewrite (storedDisplay_eta g) at 3.
      unfold storedDisplay at 1.
      cbn [progressPercent statusText orZero].
      destruct (text (storedDisplay g)) as [|c r]; [now elim Hne|].
      reflexivity. }
  split; [|exact H].
  unfold calculateLocalGoalProgress at 1. rewrite H. reflexivity.
Qed.

Lemma updateAt_found_fix {A} (p : A -> bool) (g : A -> A) l i x :
  findIndex p l = Some i -> find p l = Some x -> g x = x ->
  updateAt i g l = l.
Proof.
  revert i. induction l as [|y r IH]; intros i; cbn [findIndex find].
  - discriminate.
  - destruct (p y).
    + intros [= <-] [= ->] Hg. cbn. now rewrite Hg.
    + destruct (findIndex p r) as [j|]; cbn [option_map]; [|discriminate].
      intros [= <-] Hf Hg. cbn. f_equal. now apply IH.
Qed.

Lemma update_found goalId upd st fg :
  storedGoal goalId st = Some fg -> g_id upd = goalId ->
  storedGoal goalId (updateGlobalAndLocalGoal goalId upd st)
  = Some (mergeGoal fg upd) /\
  goal (updateGlobalAndLocalGoal goalId upd st)
  = Some (calculateLocalGoalProgress (mergeGoal fg upd)).
Proof.
  unfold storedGoal. intros Hf Hid.
  destruct (@find_some_index _ _ _ _ Hf) as [i Hi].
  assert (Hpres : forall x, String.eqb (g_id x) goalId = true ->
            String.eqb (g_id (mergeGoal x upd)) goalId = true).
  { intros x _. cbn [mergeGoal g_id]. rewrite Hid. apply String.eqb_refl. }
  unfold updateGlobalAndLocalGoal. cbn [mockGoalsData goal].
  rewrite Hid, Hi. unfold loadGoal.
  rewrite (@find_updateAt _ (fun x => String.eqb (g_id x) goalId)
             (fun old => mergeGoal old upd) _ _ Hpres Hi).
  rewrite Hf. split; reflexivity.
Qed.

Lemma update_noop goalId upd st fg :
  mounted goalId st ->
  storedGoal goalId st = Some fg -> g_id upd = goalId ->
  mergeGoal fg upd = fg ->
  updateGlobalAndLocalGoal goalId upd st = st.
Proof.
  unfold storedGoal, mounted. intros Hm Hf Hid Hfix.
  destruct (@find_some_index _ _ _ _ Hf) as [i Hi].
  unfold updateGlobalAndLocalGoal. rewrite Hid, Hi.
  rewrite (@updateAt_found_fix _ (fun x => String.eqb (g_id x) goalId)
             (fun old => mergeGoal old upd) _ _ _ Hi Hf Hfix).
  rewrite <- Hm. now destruct st.
Qed.

Lemma storedGoal_id goalId st fg :
  storedGoal goalId st = Some fg -> g_id fg = goalId.
Proof.
  unfold storedGoal. intros H. apply find_some in H.
  now apply String.eqb_eq.
Qed.

Lemma mounted_goal goalId st fg :
  mounted goalId st -> storedGoal goalId st = Some fg ->
  goal st = Some (calculateLocalGoalProgress fg).
Proof.
  unfold mounted, storedGoal, loadGoal. intros -> ->. reflexivity.
Qed.

Lemma update_mounted goalId upd st :
  mounted goalId (updateGlobalAndLocalGoal goalId upd st).
Proof. reflexivity. Qed.

(** X10. Finalizing on a page whose goal is stored in [mockGoalsData] and
    may be finalized: the stored goal gets 100 percent and the text
    Completed & Finalized! while its type and modules stay; the page keeps
    its modules, and for a Learning goal it goes on showing the progress
    computed from the modules, for another goal it shows 100 percent and
    the finalized text; the button stays enabled and a second click changes
    nothing. *)
Theorem finalizeButton_effect (goalId : string) (st : GoalPage) (fg : Goal) :
  mounted goalId st ->
  storedGoal goalId st = Some fg ->
  canFinalizeGoal (calculateLocalGoalProgress fg) = true ->
  let st1 := finalizeButton goalId st in
  exists fg1 g1,
    storedGoal goalId st1 = Some fg1 /\
    goal st1 = Some g1 /\
    progressPercent fg1 = Some 100 /\
    statusText fg1 = Some "Completed & Finalized!" /\
    type fg1 = type fg /\ modules fg1 = modules fg /\
    pageModules st1 = pageModules st /\
    calculateOverallProgressDisplay (Some g1)
    = match learningModules fg with
      | Some _ => calculateOverallProgressDisplay (Some fg)
      | None => mkDisplay 100 "Completed & Finalized!"
      end /\
    canFinalizeGoal g1 = true /\
    finalizeButton goalId st1 = st1.
Proof.
  intros Hm Hf Hcan. cbv zeta.
  pose proof (mounted_goal Hm Hf) as Hg.
  pose proof (storedGoal_id _ _ Hf) as Hid.
  set (g := calculateLocalGoalProgress fg) in *.
  set (m1 := mergeGoal fg (finalizedGoal g)).
  assert (Hm1 : m1 = mkGoal (g_id fg) (title fg) (type fg) (modules fg)
                       (Some 100) (Some "Completed & Finalized!")
                       (linkedHabitId fg)).
  { unfold m1, mergeGoal, finalizedGoal, g, calculateLocalGoalProgress.
    cbn [g_id title type modules progressPercent statusText linkedHabitId
         orElse].
    now rewrite !orElse_same. }
  assert (Est : finalizeButton goalId st
                = updateGlobalAndLocalGoal goalId (finalizedGoal g) st).
  { unfold finalizeButton. now rewrite Hg, Hcan. }
  destruct (@update_found goalId (finalizedGoal g) st fg Hf Hid) as [Hs1 Hg1].
  fold m1 in Hs1, Hg1.
  assert (Hlm : learningModules (calculateLocalGoalProgress m1)
                = learningModules fg) by now rewrite Hm1.
  assert (Hcan1 : canFinalizeGoal (calculateLocalGoalProgress m1) = true).
  { unfold canFinalizeGoal in *. rewrite Hlm.
    change (learningModules g) with (learningModules fg) in Hcan.
    destruct (learningModules fg) as [ms|] eqn:El; [exact Hcan|].
    unfold calculateLocalGoalProgress. cbn [progressPercent].
    rewrite (@display_not_learning m1) by now rewrite Hm1.
    rewrite Hm1. reflexivity. }
  exists m1, (calculateLocalGoalProgress m1). rewrite Est.
  split; [exact Hs1|]. split; [exact Hg1|].
  rewrite Hm1 at 1 2 3 4.
  cbn [progressPercent statusText type modules].
  repeat (split; [reflexivity|]).
  split; [|split; [|split]].
  - unfold pageModules. rewrite Hg1, Hg. now rewrite Hm1.
  - destruct (learningModules fg) as [ms|] eqn:El.
    + apply display_depends_on_learningModules with (ms := ms);
        [now rewrite Hlm|exact El].
    + rewrite (@display_not_learning (calculateLocalGoalProgress m1))
        by now rewrite Hlm.
      unfold calculateLocalGoalProgress.
      rewrite (@display_not_learning m1) by now rewrite Hm1.
      rewrite Hm1. reflexivity.
  - exact Hcan1.
  - unfold finalizeButton. rewrite Hg1, Hcan1.
    apply update_noop with (fg := m1).
    + apply update_mounted.
    + exact Hs1.
    + change (g_id m1 = goalId). rewrite Hm1. exact Hid.
    + rewrite Hm1. unfold mergeGoal, finalizedGoal, calculateLocalGoalProgress.
      cbn [g_id title type modules progressPercent statusText linkedHabitId
           orElse].
      now rewrite !orElse_same.
Qed.

Lemma finalizeButton_witness :
  mounted "SideProject" sideProjectPage /\
  storedGoal "SideProject" sideProjectPage = Some sideProjectDone /\
  canFinalizeGoal (calculateLocalGoalProgress sideProjectDone) = true /\
  finalizeButton "SideProject" (finalizeButton "SideProject" sideProjectPage)
  = finalizeButton "SideProject" sideProjectPage.
Proof.
  assert (H1 : mounted "SideProject" sideProjectPage) by reflexivity.
  assert (H2 : storedGoal "SideProject" sideProjectPage = Some sideProjectDone)
    by reflexivity.
  assert (H3 : canFinalizeGoal (calculateLocalGoalProgress sideProjectDone)
               = true) by reflexivity.
  split; [exact H1|]. split; [exact H2|]. split; [exact H3|].
  destruct (@finalizeButton_effect "SideProject" sideProjectPage
              sideProjectDone H1 H2 H3) as (fg1 & g1 & H).
  apply H.
Defined.

Lemma moduleStep_stored goalId op st fg ms :
  mounted goalId st ->
  storedGoal goalId st = Some fg -> modules fg = Some ms ->
  let fg1 :=
    mkGoal (g_id fg) (title fg) (type fg)
      (Some (map (opOnModule op) ms))
      (Some (percent (calculateOverallProgressDisplay (Some fg))))
      (Some (text (calculateOverallProgressDisplay (Some fg))))
      (linkedHabitId fg) in
  storedGoal goalId (moduleStep goalId op st) = Some fg1 /\
  goal (moduleStep goalId op st) = Some (calculateLocalGoalProgress fg1).
Proof.
  intros Hm Hf Hms. cbv zeta.
  pose proof (mounted_goal Hm Hf) as Hg.
  pose proof (storedGoal_id _ _ Hf) as Hid.
  assert (Hmerge : forall ms1,
    mergeGoal fg (withModules (calculateLocalGoalProgress fg) ms1)
    = mkGoal (g_id fg) (title fg) (type fg) (Some ms1)
        (Some (percent (calculateOverallProgressDisplay (Some fg))))
        (Some (text (calculateOverallProgressDisplay (Some fg))))
        (linkedHabitId fg)).
  { intros ms1. unfold mergeGoal, withModules, calculateLocalGoalProgress.
    cbn [g_id title type modules progressPercent statusText linkedHabitId
         orElse].
    now rewrite !orElse_same. }
  destruct op as [moduleId|moduleId]; cbn [moduleStep opOnModule];
    unfold handleModuleVerified, handleModuleSelfCompleted;
    rewrite Hg; cbn [calculateLocalGoalProgress modules]; rewrite Hms;
    fold (calculateLocalGoalProgress fg);
    match goal with
    | |- context [updateGlobalAndLocalGoal goalId ?u st] =>
        destruct (@update_found goalId u st fg Hf Hid) as [Hs1 Hg1];
        rewrite Hs1, Hg1, Hmerge
    end; split; reflexivity.
Qed.

(** X11. A module handler stores in [mockGoalsData] the new modules
    together with the percentage and text the page showed before the call,
    while the page itself shows the progress recomputed from the new
    modules: the stored progress fields lag one operation behind. *)
Theorem moduleStep_stores_previous_progress (goalId : string) (op : ModuleOp)
    (st : GoalPage) (fg : Goal) (ms : list GoalModule) :
  mounted goalId st ->
  storedGoal goalId st = Some fg ->
  modules fg = Some ms ->
  exists fg1 g1,
    storedGoal goalId (moduleStep goalId op st) = Some fg1 /\
    goal (moduleStep goalId op st) = Some g1 /\
    modules fg1 = Some (map (opOnModule op) ms) /\
    type fg1 = type fg /\
    progressPercent fg1
    = Some (percent (calculateOverallProgressDisplay (Some fg))) /\
    statusText fg1
    = Some (text (calculateOverallProgressDisplay (Some fg))) /\
    modules g1 = modules fg1 /\
    progressPercent g1
    = Some (percent (calculateOverallProgressDisplay (Some fg1))) /\
    statusText g1
    = Some (text (calculateOverallProgressDisplay (Some fg1))).
Proof.
  intros Hm Hf Hms.
  destruct (@moduleStep_stored goalId op st fg ms Hm Hf Hms) as [Hs Hg].
  eexists. eexists. split; [exact Hs|]. split; [exact Hg|].
  repeat split.
Qed.

Lemma moduleStep_progress_witness :
  mounted "React101" samplePage /\
  storedGoal "React101" samplePage = Some threeModuleGoal /\
  modules threeModuleGoal
  = Some [verifiedModule "m1"; selfCompletedModule "m2"; pendingModule "m3"] /\
  option_map progressPercent
    (storedGoal "React101" (moduleStep "React101" (OpVerified "m3") samplePage))
  = Some (Some 50) /\
  option_map progressPercent
    (goal (moduleStep "React101" (OpVerified "m3") samplePage))
  = Some (Some 83).
Proof.
  assert (H1 : mounted "React101" samplePage) by reflexivity.
  assert (H2 : storedGoal "React101" samplePage = Some threeModuleGoal)
    by reflexivity.
  assert (H3 : modules threeModuleGoal
               = Some [verifiedModule "m1"; selfCompletedModule "m2";
                       pendingModule "m3"]) by reflexivity.
  split; [exact H1|]. split; [exact H2|]. split; [exact H3|].
  destruct (@moduleStep_stores_previous_progress "React101" (OpVerified "m3")
              samplePage threeModuleGoal _ H1 H2 H3)
    as (fg1 & g1 & Hs & Hg & _ & _ & Hp & _ & _ & Hp1 & _).
  rewrite Hs, Hg. cbn [option_map]. rewrite Hp, Hp1.
  split; [vm_compute; reflexivity|].
  vm_compute in Hs. injection Hs as <-. vm_compute. reflexivity.
Defined.

(** ** The verification dialog and its delayed callbacks *)

Lemma runCallback_timely goalId cb st :
  cb_goal cb = goal st ->
  runCallback goalId cb st = moduleStep goalId (cb_op cb) st.
Proof.
  destruct cb as [op g]. cbn [cb_goal cb_op]. intros ->.
  destruct op; reflexivity.
Qed.

Lemma shownModules_page st m :
  In m (shownModules st) -> In m (pageModules st).
Proof.
  unfold shownModules, pageModules, learningModules.
  destruct (goal st) as [g|]; [|intros []].
  destruct (type g) as [ty|]; [|intros []].
  destruct (modules g) as [ms|]; [|intros []].
  destruct (String.eqb ty "Learning"); [tauto|intros []].
Qed.

Lemma dialogModule_none s g :
  dialogModule s = None -> goal (s_page s) = Some g ->
  verifyingModule s = None.
Proof.
  unfold dialogModule. intros H Hg. rewrite Hg in H.
  now destruct (verifyingModule s).
Qed.

Lemma dialogModule_some s m :
  dialogModule s = Some m ->
  verifyingModule s = Some m /\ exists g, goal (s_page s) = Some g.
Proof.
  unfold dialogModule.
  destruct (verifyingModule s) as [vm|]; [|discriminate].
  destruct (goal (s_page s)) as [g|]; [|discriminate].
  intros [= ->]. split; [reflexivity|now exists g].
Qed.

Lemma removeAt_In {A} (n : nat) (l : list A) x :
  In x (removeAt n l) -> In x l.
Proof.
  unfold removeAt. revert l. induction n as [|n IH]; intros [|y r];
    cbn [firstn skipn app]; try tauto.
  - intros H. now right.
  - intros [->|H]; [now left|]. right. now apply IH.
Qed.

Lemma NoDup_map_eq {A B} (f : A -> B) l x y :
  NoDup (map f l) -> In x l -> In y l -> f x = f y -> x = y.
Proof.
  induction l as [|a r IH]; cbn [map]; [intros _ []|].
  intros Hnd Hx Hy E. inversion Hnd as [|? ? Hnot Hr]; subst.
  destruct Hx as [->|Hx], Hy as [->|Hy]; try reflexivity.
  - exfalso. apply Hnot. rewrite E. now apply in_map.
  - exfalso. apply Hnot. rewrite <- E. now apply in_map.
  - now apply IH.
Qed.

Lemma callsInTurn_app goalId ops1 ops2 st :
  callsInTurn goalId (ops1 ++ ops2) st
  = callsInTurn goalId ops2 (callsInTurn goalId ops1 st).
Proof. unfold callsInTurn. apply fold_left_app. Qed.

(** In a step that is not late the page changes as if the handler calls
    of the step ran on the page as it is. *)
Lemma sessionStep_timely goalId ev s :
  timelyStep ev s ->
  s_page (sessionStep goalId ev s)
  = callsInTurn goalId (performedBy ev s) (s_page s).
Proof.
  destruct ev as [moduleId|moduleId| | | |n];
    cbn [sessionStep performedBy timelyStep]; intros Ht.
  - destruct (dialogModule s); [reflexivity|].
    destruct (existsb _ _); reflexivity.
  - destruct (dialogModule s); [reflexivity|].
    destruct (find _ _); reflexivity.
  - destruct (dialogModule s); [|reflexivity].
    destruct (isSubmittingAnswer s); reflexivity.
  - destruct (dialogModule s); [|reflexivity].
    destruct (isSubmittingAnswer s); reflexivity.
  - reflexivity.
  - destruct (nth_error (timeouts s) n) as [cb|]; [|reflexivity].
    cbn [s_page callsInTurn fold_left]. now apply runCallback_timely.
Qed.

Lemma sessionRun_timely goalId evs s :
  timely goalId evs s ->
  s_page (sessionRun goalId evs s)
  = callsInTurn goalId (performed goalId evs s) (s_page s).
Proof.
  revert s. induction evs as [|ev r IH]; intros s; [reflexivity|].
  cbn [timely performed]. intros [Ht Hr].
  change (sessionRun goalId (ev :: r) s)
    with (sessionRun goalId r (sessionStep goalId ev s)).
  rewrite (IH _ Hr), callsInTurn_app.
  now rewrite (sessionStep_timely goalId ev s Ht).
Qed.

Lemma callsInTurn_stored goalId ops st fg ms :
  mounted goalId st ->
  storedGoal goalId st = Some fg -> modules fg = Some ms ->
  exists fg1,
    storedGoal goalId (callsInTurn goalId ops st) = Some fg1 /\
    goal (callsInTurn goalId ops st) = Some (calculateLocalGoalProgress fg1) /\
    type fg1 = type fg /\
    modules fg1 = Some (map (opsOnModule ops) ms).
Proof.
  revert st fg ms. induction ops as [|op r IH]; intros st fg ms Hm Hf Hms.
  - exists fg. cbn. rewrite map_id. split; [exact Hf|].
    split; [exact (mounted_goal Hm Hf)|]. split; [reflexivity|exact Hms].
  - destruct (@moduleStep_stored goalId op st fg ms Hm Hf Hms) as [Hs Hg].
    destruct (@moduleStep_modules goalId op st Hm) as [Hm1 _].
    destruct (IH _ _ _ Hm1 Hs eq_refl) as (fg1 & H1 & H2 & H3 & H4).
    exists fg1. unfold callsInTurn in *. cbn [fold_left].
    split; [exact H1|]. split; [exact H2|]. split; [exact H3|].
    rewrite H4, map_map. reflexivity.
Qed.

Lemma moduleKept_refl m : verifiedIsCompleted m -> moduleKept m m.
Proof. intros H. repeat split; auto. Qed.

Lemma moduleKept_trans m1 m2 m3 :
  moduleKept m1 m2 -> moduleKept m2 m3 -> moduleKept m1 m3.
Proof.
  intros (A1 & A2 & A3 & A4) (B1 & B2 & B3 & B4).
  repeat split; auto. congruence.
Qed.

Lemma Forall2_refl_on {A} (R : A -> A -> Prop) (P : A -> Prop) l :
  (forall x, P x -> R x x) -> Forall P l -> Forall2 R l l.
Proof.
  intros H HP. induction HP; constructor; auto.
Qed.

Lemma Forall2_map_on {A B} (R : A -> B -> Prop) (f : A -> B) l :
  (forall x, In x l -> R x (f x)) -> Forall2 R l (map f l).
Proof.
  induction l as [|a r IH]; cbn [map]; intros H; constructor.
  - apply H. now left.
  - apply IH. intros x Hx. apply H. now right.
Qed.

Lemma Forall2_moduleKept_out l l1 :
  Forall2 moduleKept l l1 ->
  map m_id l1 = map m_id l /\ Forall verifiedIsCompleted l1.
Proof.
  induction 1 as [|m m1 r r1 (Hid & _ & _ & Hvc) _ [IH1 IH2]];
    [split; constructor|].
  cbn [map]. rewrite Hid, IH1. split; [reflexivity|now constructor].
Qed.

(** One handler call on a module list whose modules with the id named are
    not verified. *)
Lemma opOnModule_kept op m :
  verifiedIsCompleted m ->
  (m_id m = opTarget op -> verified m = false) ->
  moduleKept m (opOnModule op m).
Proof.
  intros Hvc Hun. unfold moduleKept, verifiedIsCompleted.
  destruct op as [i|i]; cbn [opOnModule opTarget] in *;
    unfold completeModule;
    destruct (String.eqb_spec (m_id m) i) as [E|E];
    cbn [m_id status verified]; repeat split; auto.
  intros Hv. rewrite (Hun E) in Hv. discriminate Hv.
Qed.

Lemma moduleStep_kept goalId op st :
  mounted goalId st ->
  Forall verifiedIsCompleted (pageModules st) ->
  (forall m, In m (pageModules st) -> m_id m = opTarget op ->
             verified m = false) ->
  mounted goalId (moduleStep goalId op st) /\
  Forall2 moduleKept (pageModules st) (pageModules (moduleStep goalId op st)).
Proof.
  intros Hm Hvc Hun.
  destruct (@moduleStep_modules goalId op st Hm) as [Hm1 E].
  split; [exact Hm1|]. rewrite E. apply Forall2_map_on. intros m Hin.
  apply opOnModule_kept.
  - rewrite Forall_forall in Hvc. now apply Hvc.
  - now apply Hun.
Qed.

Lemma offered_not_verified m :
  verifiedIsCompleted m -> moduleActionsOffered m = true ->
  verified m = false.
Proof.
  intros Hvc. unfold moduleActionsOffered.
  destruct (verified m) eqn:Hv; [|reflexivity].
  rewrite (Hvc Hv). discriminate.
Qed.

Lemma pageModules_goal st g ms :
  goal st = Some g -> modules g = Some ms -> pageModules st = ms.
Proof. intros Hg Hms. unfold pageModules. now rewrite Hg, Hms. Qed.

Lemma sessionSafe_kept goalId s l1 :
  sessionSafe goalId s ->
  Forall2 moduleKept (pageModules (s_page s)) l1 ->
  NoDup (map m_id l1) /\ Forall verifiedIsCompleted l1.
Proof.
  intros (_ & Hnd & _) H. destruct (Forall2_moduleKept_out H) as [E Hvc].
  split; [now rewrite E|exact Hvc].
Qed.

(** A step that is not late keeps [sessionSafe] and every module. *)
Lemma sessionStep_safe goalId ev s :
  sessionSafe goalId s -> timelyStep ev s ->
  sessionSafe goalId (sessionStep goalId ev s) /\
  Forall2 moduleKept (pageModules (s_page s))
    (pageModules (s_page (sessionStep goalId ev s))).
Proof.
  intros Hs Ht.
  assert (Hsame : Forall2 moduleKept (pageModules (s_page s))
                    (pageModules (s_page s))).
  { destruct Hs as (_ & _ & Hvc & _).
    apply Forall2_refl_on with (P := verifiedIsCompleted);
      [apply moduleKept_refl|exact Hvc]. }
  pose proof Hs as (Hm & Hnd & Hvc & Hdlg & Hcb).
  destruct ev as [moduleId|moduleId| | | |n]; cbn [sessionStep].
  - (* I did it! *)
    destruct (dialogModule s) as [vm|] eqn:Hd; [now split|].
    destruct (existsb _ _) eqn:Hex; [|now split].
    apply existsb_exists in Hex. destruct Hex as (p & Hp & Hpp).
    apply andb_true_iff in Hpp. destruct Hpp as [Hpid Hpst].
    apply String.eqb_eq in Hpid.
    assert (Hpend : status p = pending) by (now destruct (status p)).
    apply shownModules_page in Hp.
    assert (Hun : forall m, In m (pageModules (s_page s)) ->
                    m_id m = opTarget (OpSelfCompleted moduleId) ->
                    verified m = false).
    { intros m Hin E. cbn [opTarget] in E.
      assert (m = p) by (apply (NoDup_map_eq m_id _ _ _ Hnd Hin Hp);
                         congruence).
      subst m. rewrite Forall_forall in Hvc.
      destruct (verified p) eqn:Hv; [|reflexivity].
      rewrite (Hvc p Hp Hv) in Hpend. discriminate Hpend. }
    destruct (@moduleStep_kept goalId (OpSelfCompleted moduleId) (s_page s)
                Hm Hvc Hun) as [Hm1 Hk].
    cbn [moduleStep] in Hm1, Hk.
    destruct (sessionSafe_kept Hs Hk) as [Hnd1 Hvc1].
    split; [|exact Hk].
    assert (Hg : exists g, goal (s_page s) = Some g).
    { unfold pageModules in Hp. destruct (goal (s_page s)) as [g|];
        [now exists g|destruct Hp]. }
    destruct Hg as [g Hg].
    pose proof (dialogModule_none s Hd Hg) as Hvm.
    unfold sessionSafe. cbn [s_page verifyingModule timeouts].
    split; [exact Hm1|]. split; [exact Hnd1|]. split; [exact Hvc1|].
    split; [intros vm m E; rewrite Hvm in E; discriminate E|exact Hcb].
  - (* Verify with AI *)
    destruct (dialogModule s) as [vm|] eqn:Hd; [now split|].
    destruct (find _ _) as [found|] eqn:Hf; [|now split].
    split; [|exact Hsame].
    apply find_some in Hf. destruct Hf as [Hin Hff].
    apply andb_true_iff in Hff. destruct Hff as [_ Hoff].
    apply shownModules_page in Hin.
    unfold sessionSafe. cbn [s_page verifyingModule timeouts].
    split; [exact Hm|]. split; [exact Hnd|]. split; [exact Hvc|].
    split; [|exact Hcb].
    intros vm m [= <-] Hm0 E.
    assert (m = found) by (now apply (NoDup_map_eq m_id _ _ _ Hnd Hm0 Hin)).
    subst m. apply offered_not_verified; [|exact Hoff].
    rewrite Forall_forall in Hvc. now apply Hvc.
  - (* submit *)
    destruct (dialogModule s) as [vm|] eqn:Hd; [|now split].
    destruct (isSubmittingAnswer s); [now split|].
    split; [|exact Hsame].
    apply dialogModule_some in Hd. destruct Hd as [Hvm [g Hg]].
    unfold sessionSafe. cbn [s_page verifyingModule timeouts].
    split; [exact Hm|]. split; [exact Hnd|]. split; [exact Hvc|].
    split; [exact Hdlg|].
    intros cb g0 ms m Hin Hcg Hms Hmin E.
    apply in_app_or in Hin. destruct Hin as [Hin|[<-|[]]];
      [exact (Hcb cb g0 ms m Hin Hcg Hms Hmin E)|].
    cbn [cb_goal cb_op opTarget] in Hcg, E.
    apply (Hdlg vm m Hvm); [|exact E].
    now rewrite (pageModules_goal _ Hcg Hms).
  - (* self-complete in the dialog *)
    destruct (dialogModule s) as [vm|] eqn:Hd; [|now split].
    destruct (isSubmittingAnswer s); [now split|].
    split; [|exact Hsame].
    apply dialogModule_some in Hd. destruct Hd as [Hvm [g Hg]].
    unfold sessionSafe. cbn [s_page verifyingModule timeouts].
    split; [exact Hm|]. split; [exact Hnd|]. split; [exact Hvc|].
    split; [exact Hdlg|].
    intros cb g0 ms m Hin Hcg Hms Hmin E.
    apply in_app_or in Hin. destruct Hin as [Hin|[<-|[]]];
      [exact (Hcb cb g0 ms m Hin Hcg Hms Hmin E)|].
    cbn [cb_goal cb_op opTarget] in Hcg, E.
    apply (Hdlg vm m Hvm); [|exact E].
    now rewrite (pageModules_goal _ Hcg Hms).
  - (* overlay *)
    split; [|exact Hsame].
    unfold sessionSafe. cbn [s_page verifyingModule timeouts].
    split; [exact Hm|]. split; [exact Hnd|]. split; [exact Hvc|].
    split; [intros vm m E; discriminate E|exact Hcb].
  - (* a callback runs *)
    cbn [timelyStep] in Ht.
    destruct (nth_error (timeouts s) n) as [cb|] eqn:Hn; [|now split].
    pose proof (nth_error_In _ _ Hn) as Hin.
    cbn [s_page]. rewrite (runCallback_timely goalId cb (s_page s) Ht).
    assert (Hun : forall m, In m (pageModules (s_page s)) ->
                    m_id m = opTarget (cb_op cb) -> verified m = false).
    { intros m Hmin E. unfold pageModules in Hmin.
      destruct (goal (s_page s)) as [g|] eqn:Hg; [|destruct Hmin].
      destruct (modules g) as [ms|] eqn:Hms; [|destruct Hmin].
      exact (Hcb cb g ms m Hin Ht Hms Hmin E). }
    destruct (@moduleStep_kept goalId (cb_op cb) (s_page s) Hm Hvc Hun)
      as [Hm1 Hk].
    destruct (sessionSafe_kept Hs Hk) as [Hnd1 Hvc1].
    split; [|exact Hk].
    unfold sessionSafe. cbn [s_page verifyingModule timeouts].
    split; [exact Hm1|]. split; [exact Hnd1|]. split; [exact Hvc1|].
    split; [intros vm m E; discriminate E|].
    intros cb0 g0 ms m Hin0. apply Hcb. now apply removeAt_In in Hin0.
Qed.

Lemma openedPage_safe goalId st :
  mounted goalId st ->
  NoDup (map m_id (pageModules st)) ->
  Forall verifiedIsCompleted (pageModules st) ->
  sessionSafe goalId (openedPage st).
Proof.
  intros Hm Hnd Hvc. unfold sessionSafe, openedPage.
  cbn [s_page verifyingModule timeouts].
  split; [exact Hm|]. split; [exact Hnd|]. split; [exact Hvc|].
  split; [intros vm m E; discriminate E|intros cb g ms m []].
Qed.

(** When no callback is late, the claimed invariants hold of every run of
    the page and its dialog: each module keeps its place and id, a
    completed module stays completed, a verified module stays verified,
    and verified modules are completed. *)
Lemma timely_session_keeps_modules goalId evs s :
  sessionSafe goalId s -> timely goalId evs s ->
  sessionSafe goalId (sessionRun goalId evs s) /\
  Forall2 moduleKept (pageModules (s_page s))
    (pageModules (s_page (sessionRun goalId evs s))).
Proof.
  revert s. induction evs as [|ev r IH]; intros s Hs.
  - intros _. split; [exact Hs|].
    destruct Hs as (_ & _ & Hvc & _).
    apply Forall2_refl_on with (P := verifiedIsCompleted);
      [apply moduleKept_refl|exact Hvc].
  - cbn [timely]. intros [Ht Hr].
    destruct (@sessionStep_safe goalId ev s Hs Ht) as [Hs1 Hk1].
    destruct (IH _ Hs1 Hr) as [Hs2 Hk2].
    change (sessionRun goalId (ev :: r) s)
      with (sessionRun goalId r (sessionStep goalId ev s)).
    split; [exact Hs2|].
    exact (Forall2_compose moduleKept_trans Hk1 Hk2).
Qed.

Lemma completeModule_sound moduleId v l :
  Forall verifiedIsCompleted l ->
  map m_id (map (completeModule moduleId v) l) = map m_id l /\
  Forall verifiedIsCompleted (map (completeModule moduleId v) l).
Proof.
  intros H. split.
  - rewrite map_map. apply map_ext. intros m. apply completeModule_id.
  - apply Forall_map. revert H. apply Forall_impl. intros m Hvc.
    unfold completeModule, verifiedIsCompleted in *.
    destruct (String.eqb (m_id m) moduleId); cbn; auto.
Qed.

(** A handler call with the goal of any earlier render: the page then
    shows the module list of that goal with the module named completed. *)
Lemma handler_late goalId g ms moduleId v st fg :
  storedGoal goalId st = Some fg ->
  g_id g = goalId -> modules g = Some ms ->
  let st1 :=
    updateGlobalAndLocalGoal goalId
      (withModules g (map (completeModule moduleId v) ms)) st in
  (exists fg1, storedGoal goalId st1 = Some fg1) /\
  mounted goalId st1 /\
  pageModules st1 = map (completeModule moduleId v) ms.
Proof.
  intros Hf Hid Hms. cbv zeta.
  destruct (@update_found goalId
              (withModules g (map (completeModule moduleId v) ms)) st fg
              Hf Hid) as [Hs Hg].
  split; [eexists; exact Hs|]. split; [apply update_mounted|].
  unfold pageModules. rewrite Hg. reflexivity.
Qed.

Lemma runCallback_sound goalId ids cb st :
  (exists fg, storedGoal goalId st = Some fg) ->
  mounted goalId st ->
  map m_id (pageModules st) = ids ->
  Forall verifiedIsCompleted (pageModules st) ->
  (forall g ms, cb_goal cb = Some g -> modules g = Some ms ->
     g_id g = goalId /\ map m_id ms = ids /\
     Forall verifiedIsCompleted ms) ->
  (exists fg, storedGoal goalId (runCallback goalId cb st) = Some fg) /\
  mounted goalId (runCallback goalId cb st) /\
  map m_id (pageModules (runCallback goalId cb st)) = ids /\
  Forall verifiedIsCompleted (pageModules (runCallback goalId cb st)).
Proof.
  intros [fg Hf] Hm Hids Hvc Hcb.
  assert (Hsame : (exists fg, storedGoal goalId st = Some fg) /\
                  mounted goalId st /\ map m_id (pageModules st) = ids /\
                  Forall verifiedIsCompleted (pageModules st))
    by (split; [now exists fg|auto]).
  destruct cb as [op cg]. cbn [cb_goal] in Hcb.
  unfold runCallback. cbn [cb_op cb_goal].
  destruct op as [moduleId|moduleId];
    unfold onModuleVerified, onModuleSelfCompleted;
    (destruct cg as [g|]; [|exact Hsame]);
    (destruct (modules g) as [ms|] eqn:Hms; [|exact Hsame]);
    destruct (Hcb g ms eq_refl Hms) as (Hid & Hi & Hv);
    [destruct (@handler_late goalId g ms moduleId true st fg Hf Hid Hms)
       as (Hs1 & Hm1 & E);
     destruct (completeModule_sound moduleId true Hv) as [Ei Ev]
    |destruct (@handler_late goalId g ms moduleId false st fg Hf Hid Hms)
       as (Hs1 & Hm1 & E);
     destruct (completeModule_sound moduleId false Hv) as [Ei Ev]];
    (split; [exact Hs1|]); (split; [exact Hm1|]); rewrite E;
    (split; [now rewrite Ei|exact Ev]).
Qed.

(** The goal of the page is one the handlers can be called with. *)
Lemma page_goal_sound goalId ids s g ms :
  sessionSound goalId ids s ->
  goal (s_page s) = Some g -> modules g = Some ms ->
  g_id g = goalId /\ map m_id ms = ids /\ Forall verifiedIsCompleted ms.
Proof.
  intros ([fg Hf] & Hm & Hids & Hvc & _) Hg Hms.
  rewrite (mounted_goal Hm Hf) in Hg. injection Hg as <-.
  rewrite <- (pageModules_goal (s_page s) (mounted_goal Hm Hf) Hms).
  split; [exact (storedGoal_id _ _ Hf)|]. split; [exact Hids|exact Hvc].
Qed.

Lemma sessionStep_sound goalId ids ev s :
  sessionSound goalId ids s ->
  sessionSound goalId ids (sessionStep goalId ev s).
Proof.
  intros Hs. pose proof Hs as (Hf & Hm & Hids & Hvc & Hcb).
  destruct ev as [moduleId|moduleId| | | |n]; cbn [sessionStep].
  - destruct (dialogModule s) as [vm|]; [exact Hs|].
    destruct (existsb _ _); [|exact Hs].
    destruct (@runCallback_sound goalId ids
                (mkCallback (OpSelfCompleted moduleId) (goal (s_page s)))
                (s_page s) Hf Hm Hids Hvc) as (H1 & H2 & H3 & H4).
    { cbn [cb_goal]. intros g ms. now apply page_goal_sound. }
    unfold sessionSound. cbn [s_page timeouts].
    split; [exact H1|]. split; [exact H2|]. split; [exact H3|].
    split; [exact H4|exact Hcb].
  - destruct (dialogModule s) as [vm|]; [exact Hs|].
    destruct (find _ _) as [found|]; [|exact Hs].
    unfold sessionSound. cbn [s_page timeouts]. auto.
  - destruct (dialogModule s) as [vm|]; [|exact Hs].
    destruct (isSubmittingAnswer s); [exact Hs|].
    unfold sessionSound. cbn [s_page timeouts].
    split; [exact Hf|]. split; [exact Hm|]. split; [exact Hids|].
    split; [exact Hvc|].
    intros cb g ms Hin. apply in_app_or in Hin.
    destruct Hin as [Hin|[<-|[]]]; [now apply Hcb|].
    cbn [cb_goal]. now apply page_goal_sound.
  - destruct (dialogModule s) as [vm|]; [|exact Hs].
    destruct (isSubmittingAnswer s); [exact Hs|].
    unfold sessionSound. cbn [s_page timeouts].
    split; [exact Hf|]. split; [exact Hm|]. split; [exact Hids|].
    split; [exact Hvc|].
    intros cb g ms Hin. apply in_app_or in Hin.
    destruct Hin as [Hin|[<-|[]]]; [now apply Hcb|].
    cbn [cb_goal]. now apply page_goal_sound.
  - unfold sessionSound. cbn [s_page timeouts]. auto.
  - destruct (nth_error (timeouts s) n) as [cb|] eqn:Hn; [|exact Hs].
    pose proof (nth_error_In _ _ Hn) as Hin.
    destruct (@runCallback_sound goalId ids cb (s_page s) Hf Hm Hids Hvc)
      as (H1 & H2 & H3 & H4).
    { intros g ms. now apply Hcb. }
    unfold sessionSound. cbn [s_page timeouts].
    split; [exact H1|]. split; [exact H2|]. split; [exact H3|].
    split; [exact H4|].
    intros cb0 g ms Hin0. apply Hcb. now apply removeAt_In in Hin0.
Qed.

(** Whatever the order of clicks and callbacks, late ones included, the
    page keeps showing modules with the same ids in the same places, and
    every verified module is completed. *)
Lemma session_keeps_verified_completed goalId evs st fg :
  mounted goalId st -> storedGoal goalId st = Some fg ->
  Forall verifiedIsCompleted (pageModules st) ->
  let st1 := s_page (sessionRun goalId evs (openedPage st)) in
  map m_id (pageModules st1) = map m_id (pageModules st) /\
  Forall verifiedIsCompleted (pageModules st1).
Proof.
  intros Hm Hf Hvc. cbv zeta.
  assert (H0 : sessionSound goalId (map m_id (pageModules st))
                 (openedPage st)).
  { unfold sessionSound, openedPage. cbn [s_page timeouts].
    split; [now exists fg|]. split; [exact Hm|]. split; [reflexivity|].
    split; [exact Hvc|intros cb g ms []]. }
  revert H0. generalize (openedPage st) as s.
  generalize (map m_id (pageModules st)) as ids.
  induction evs as [|ev r IH]; intros ids s Hs.
  - destruct Hs as (_ & _ & Hids & Hv & _). now split.
  - change (sessionRun goalId (ev :: r) s)
      with (sessionRun goalId r (sessionStep goalId ev s)).
    apply IH. now apply sessionStep_sound.
Qed.

Lemma opOnModule_completes op m :
  opTarget op = m_id m -> status (opOnModule op m) = completed.
Proof.
  destruct op as [i|i]; cbn; intros ->; unfold completeModule;
    now rewrite String.eqb_refl.
Qed.

Lemma opsOnModule_completes ops m :
  status m = completed \/ (exists op, In op ops /\ opTarget op = m_id m) ->
  status (opsOnModule ops m) = completed.
Proof.
  intros [H|(op & Hin & Ht)];
    [now destruct (opsOnModule_facts ops m) as (_ & Hst & _); apply Hst|].
  revert m Ht. induction ops as [|o r IH]; intros m Ht; [destruct Hin|].
  unfold opsOnModule. cbn [fold_left]. fold (opsOnModule r (opOnModule o m)).
  destruct Hin as [->|Hin].
  - destruct (opsOnModule_facts r (opOnModule op m)) as (_ & Hst & _).
    apply Hst. now apply opOnModule_completes.
  - apply IH; [exact Hin|].
    destruct o; cbn [opOnModule]; now rewrite completeModule_id.
Qed.

(** X12. On the page of a Learning goal, after a run of clicks, dialog
    actions and callbacks in which no callback is late, the finalize
    button is enabled exactly if every module shown is completed, and it
    is enabled once every module that was not completed has been named by
    a handler call of the run. *)
Theorem finalize_enabled_after_completing_all (goalId : string)
    (evs : list SessionEvent) (st : GoalPage) (fg : Goal)
    (ms : list GoalModule) :
  mounted goalId st ->
  storedGoal goalId st = Some fg ->
  learningModules fg = Some ms ->
  timely goalId evs (openedPage st) ->
  let s1 := sessionRun goalId evs (openedPage st) in
  exists g1,
    goal (s_page s1) = Some g1 /\
    (canFinalizeGoal g1 = true <->
     forall m, In m (pageModules (s_page s1)) -> status m = completed) /\
    ((forall m, In m ms ->
        status m = completed \/
        exists op, In op (performed goalId evs (openedPage st)) /\
                   opTarget op = m_id m) ->
     canFinalizeGoal g1 = true).
Proof.
  intros Hm Hf Hl Ht. cbv zeta.
  rewrite (sessionRun_timely goalId evs (openedPage st) Ht).
  cbn [openedPage s_page].
  set (ops := performed goalId evs (openedPage st)).
  assert (Hty : type fg = Some "Learning" /\ modules fg = Some ms).
  { unfold learningModules in Hl.
    destruct (type fg) as [ty|]; [|discriminate].
    destruct (modules fg) as [ms0|]; [|discriminate].
    destruct (String.eqb_spec ty "Learning"); [|discriminate].
    subst. now injection Hl as ->. }
  destruct Hty as [Hty Hms].
  destruct (@callsInTurn_stored goalId ops st fg ms Hm Hf Hms)
    as (fg1 & H1 & H2 & H3 & H4).
  exists (calculateLocalGoalProgress fg1). split; [exact H2|].
  assert (Hl1 : learningModules (calculateLocalGoalProgress fg1)
                = Some (map (opsOnModule ops) ms)).
  { rewrite learningModules_local. unfold learningModules.
    now rewrite H3, Hty, H4. }
  assert (Hpm : pageModules (callsInTurn goalId ops st)
                = map (opsOnModule ops) ms).
  { unfold pageModules. rewrite H2.
    change (modules (calculateLocalGoalProgress fg1)) with (modules fg1).
    now rewrite H4. }
  assert (Hiff : canFinalizeGoal (calculateLocalGoalProgress fg1) = true <->
                 forall m, In m (map (opsOnModule ops) ms) ->
                           status m = completed).
  { unfold canFinalizeGoal. rewrite Hl1, forallb_forall.
    split; intros H m Hin; specialize (H m Hin).
    - now destruct (status m).
    - now rewrite H. }
  rewrite Hpm. split; [exact Hiff|].
  intros Hall. apply Hiff. intros m1 Hin.
  apply in_map_iff in Hin. destruct Hin as (m & <- & Hin).
  apply opsOnModule_completes. now apply Hall.
Qed.

Lemma finalize_enabled_witness :
  mounted "React101" samplePage /\
  storedGoal "React101" samplePage = Some threeModuleGoal /\
  learningModules threeModuleGoal
  = Some [verifiedModule "m1"; selfCompletedModule "m2"; pendingModule "m3"] /\
  timely "React101" [ClickVerify "m3"; DialogSubmit; TimeoutFires 0]
    (openedPage samplePage) /\
  option_map canFinalizeGoal
    (goal (s_page (sessionRun "React101"
                     [ClickVerify "m3"; DialogSubmit; TimeoutFires 0]
                     (openedPage samplePage))))
  = Some true.
Proof.
  assert (H1 : mounted "React101" samplePage) by reflexivity.
  assert (H2 : storedGoal "React101" samplePage = Some threeModuleGoal)
    by reflexivity.
  assert (H3 : learningModules threeModuleGoal
               = Some [verifiedModule "m1"; selfCompletedModule "m2";
                       pendingModule "m3"]) by reflexivity.
  assert (H4 : timely "React101"
                 [ClickVerify "m3"; DialogSubmit; TimeoutFires 0]
                 (openedPage samplePage))
    by (vm_compute; repeat split).
  split; [exact H1|]. split; [exact H2|]. split; [exact H3|].
  split; [exact H4|].
  destruct (@finalize_enabled_after_completing_all "React101"
              [ClickVerify "m3"; DialogSubmit; TimeoutFires 0]
              samplePage threeModuleGoal _ H1 H2 H3 H4)
    as (g1 & Hg & _ & Hsuff).
  rewrite Hg. cbn [option_map]. f_equal. apply Hsuff.
  intros m [<-|[<-|[<-|[]]]].
  - left. reflexivity.
  - left. reflexivity.
  - right. exists (OpVerified "m3"). split; [vm_compute; now left|reflexivity].
Defined.

(** ** The habit link and the range of the percentage *)

Lemma handleLinkHabit_goal goalId habitId st fg :
  mounted goalId st -> storedGoal goalId st = Some fg ->
  exists fg1,
    storedGoal goalId (handleLinkHabit goalId habitId st) = Some fg1 /\
    goal (handleLinkHabit goalId habitId st)
    = Some (calculateLocalGoalProgress fg1) /\
    linkedHabitId fg1 = Some habitId /\
    modules fg1 = modules fg /\ type fg1 = type fg /\ title fg1 = title fg.
Proof.
  intros Hm Hf.
  pose proof (mounted_goal Hm Hf) as Hg.
  pose proof (storedGoal_id _ _ Hf) as Hid.
  unfold handleLinkHabit. rewrite Hg.
  destruct (@update_found goalId
              (withLinkedHabit (calculateLocalGoalProgress fg) habitId)
              st fg Hf Hid) as [Hs1 Hg1].
  eexists. split; [exact Hs1|]. split; [exact Hg1|].
  unfold mergeGoal, withLinkedHabit, calculateLocalGoalProgress.
  cbn [g_id title type modules progressPercent statusText linkedHabitId
       orElse].
  rewrite !orElse_same. repeat split.
Qed.

(** X13. Linking a habit on a page whose goal is stored: the goal then
    points to the given habit id, whatever it pointed to before, and keeps
    its title, type and modules.  The linked habit the page shows is the
    first habit of the list with that id, and none when the id is empty or
    no habit has it: a dangling link shows no habit. *)
Theorem handleLinkHabit_links (goalId habitId : string) (s : GoalHabitPage)
    (fg : Goal) :
  mounted goalId (gh_page s) ->
  storedGoal goalId (gh_page s) = Some fg ->
  let s1 := mkGoalHabitPage (handleLinkHabit goalId habitId (gh_page s))
                            (gh_habits s) in
  (exists g1, goal (gh_page s1) = Some g1 /\
              linkedHabitId g1 = Some habitId /\
              modules g1 = modules fg /\ type g1 = type fg /\
              title g1 = title fg) /\
  linkedHabit s1
  = match habitId with
    | EmptyString => None
    | _ => find (fun t => String.eqb (t_id t) habitId) (gh_habits s)
    end /\
  ((forall t, In t (gh_habits s) -> t_id t <> habitId) ->
   linkedHabit s1 = None).
Proof.
  intros Hm Hf. cbv zeta.
  destruct (@handleLinkHabit_goal goalId habitId (gh_page s) fg Hm Hf)
    as (fg1 & Hs & Hg & Hl & Hmo & Hty & Hti).
  assert (Hlook : linkedHabit
                    (mkGoalHabitPage (handleLinkHabit goalId habitId (gh_page s))
                                     (gh_habits s))
                  = match habitId with
                    | EmptyString => None
                    | _ => find (fun t => String.eqb (t_id t) habitId)
                                (gh_habits s)
                    end).
  { unfold linkedHabit. cbn [gh_page gh_habits]. rewrite Hg.
    change (linkedHabitId (calculateLocalGoalProgress fg1))
      with (linkedHabitId fg1).
    rewrite Hl. now destruct habitId. }
  split; [|split].
  - exists (calculateLocalGoalProgress fg1). cbn [gh_page].
    split; [exact Hg|]. repeat split; assumption.
  - exact Hlook.
  - intros Hnone. rewrite Hlook. destruct habitId as [|c r]; [reflexivity|].
    destruct (find _ (gh_habits s)) as [t|] eqn:E; [|reflexivity].
    apply find_some in E. destruct E as [Hin He].
    apply String.eqb_eq in He. now elim (Hnone t Hin).
Qed.

(** X14. Creating and linking a habit on a page whose goal is stored, with
    a non-empty name: the new habit (streak 0, one freeze, empty log) is
    appended to the habit list, the goal points to its id, and the linked
    habit shown has that id; it is the new habit itself when the id was not
    in use.  A cancelled or empty prompt changes nothing. *)
Theorem handleCreateAndLinkHabit_effect (goalId : string) (now : nat)
    (c : ascii) (r : string) (s : GoalHabitPage) (fg : Goal) :
  mounted goalId (gh_page s) ->
  storedGoal goalId (gh_page s) = Some fg ->
  let name := String c r in
  let s1 := handleCreateAndLinkHabit goalId now (Some name) s in
  gh_habits s1 = gh_habits s ++ [newHabit now name] /\
  (exists g1, goal (gh_page s1) = Some g1 /\
              linkedHabitId g1 = Some (t_id (newHabit now name)) /\
              modules g1 = modules fg) /\
  (exists h, linkedHabit s1 = Some h /\ t_id h = t_id (newHabit now name)) /\
  ((forall t, In t (gh_habits s) -> t_id t <> t_id (newHabit now name)) ->
   linkedHabit s1 = Some (newHabit now name)) /\
  handleCreateAndLinkHabit goalId now None s = s /\
  handleCreateAndLinkHabit goalId now (Some EmptyString) s = s.
Proof.
  intros Hm Hf. cbv zeta.
  set (name := String c r). set (h := newHabit now name).
  destruct (@handleLinkHabit_goal goalId (t_id h) (gh_page s) fg Hm Hf)
    as (fg1 & Hs & Hg & Hl & Hmo & _ & _).
  assert (Hlook : linkedHabit (handleCreateAndLinkHabit goalId now (Some name) s)
                  = find (fun t => String.eqb (t_id t) (t_id h))
                         (gh_habits s ++ [h])).
  { unfold handleCreateAndLinkHabit, name, linkedHabit.
    cbn [gh_page gh_habits]. fold name. fold h. rewrite Hg.
    change (linkedHabitId (calculateLocalGoalProgress fg1))
      with (linkedHabitId fg1).
    rewrite Hl. reflexivity. }
  split; [reflexivity|]. split; [|split; [|split; [|split; reflexivity]]].
  - exists (calculateLocalGoalProgress fg1). split; [exact Hg|].
    split; [exact Hl|exact Hmo].
  - rewrite Hlook.
    destruct (find (fun t => String.eqb (t_id t) (t_id h)) (gh_habits s ++ [h]))
      as [t|] eqn:E.
    + exists t. split; [reflexivity|]. apply find_some in E.
      now apply String.eqb_eq.
    + exfalso.
      assert (Hin : In h (gh_habits s ++ [h]))
        by (apply in_or_app; right; now left).
      pose proof (find_none _ _ E h Hin) as Hne. cbv beta in Hne.
      rewrite String.eqb_refl in Hne. discriminate Hne.
  - intros Hfresh. rewrite Hlook. apply find_app_last.
    + destruct (find _ (gh_habits s)) as [t|] eqn:E; [|reflexivity].
      apply find_some in E. destruct E as [Hin He].
      apply String.eqb_eq in He. now elim (Hfresh t Hin).
    + apply String.eqb_refl.
Qed.

Lemma handleLinkHabit_witness :
  mounted "React101" (gh_page sampleGoalHabitPage) /\
  storedGoal "React101" (gh_page sampleGoalHabitPage) = Some threeModuleGoal /\
  linkedHabit
    (mkGoalHabitPage
       (handleLinkHabit "React101" "h2" (gh_page sampleGoalHabitPage))
       (gh_habits sampleGoalHabitPage))
  = Some habitH2 /\
  linkedHabit
    (mkGoalHabitPage
       (handleLinkHabit "React101" "h9" (gh_page sampleGoalHabitPage))
       (gh_habits sampleGoalHabitPage))
  = None.
Proof.
  assert (H1 : mounted "React101" (gh_page sampleGoalHabitPage))
    by reflexivity.
  assert (H2 : storedGoal "React101" (gh_page sampleGoalHabitPage)
               = Some threeModuleGoal) by reflexivity.
  split; [exact H1|]. split; [exact H2|]. split.
  - destruct (@handleLinkHabit_links "React101" "h2" sampleGoalHabitPage
                threeModuleGoal H1 H2) as (_ & Hlook & _).
    rewrite Hlook. reflexivity.
  - destruct (@handleLinkHabit_links "React101" "h9" sampleGoalHabitPage
                threeModuleGoal H1 H2) as (_ & _ & Hnone).
    apply Hnone. intros t [<-|[<-|[]]]; discriminate.
Defined.

Lemma handleCreateAndLinkHabit_witness :
  mounted "React101" (gh_page sampleGoalHabitPage) /\
  storedGoal "React101" (gh_page sampleGoalHabitPage) = Some threeModuleGoal /\
  linkedHabit
    (handleCreateAndLinkHabit "React101" 42 (Some "Read the docs")
       sampleGoalHabitPage)
  = Some (mkTracker "h42" "Read the docs" 0 0 (mkFreezes 1 1) []).
Proof.
  assert (H1 : mounted "React101" (gh_page sampleGoalHabitPage))
    by reflexivity.
  assert (H2 : storedGoal "React101" (gh_page sampleGoalHabitPage)
               = Some threeModuleGoal) by reflexivity.
  split; [exact H1|]. split; [exact H2|].
  destruct (@handleCreateAndLinkHabit_effect "React101" 42 "R"%char
              "ead the docs" sampleGoalHabitPage threeModuleGoal H1 H2)
    as (_ & _ & _ & Hfresh & _).
  apply Hfresh. intros t [<-|[<-|[]]]; discriminate.
Defined.

Lemma filter_length_all {A} (f : A -> bool) l :
  List.length (filter f l) = List.length l <-> forall x, In x l -> f x = true.
Proof.
  induction l as [|y r IH]; cbn [filter].
  - split; [intros _ x []|reflexivity].
  - pose proof (filter_length_le f r) as Hle.
    destruct (f y) eqn:Hy; cbn [List.length].
    + split.
      * intros H x [<-|Hx]; [exact Hy|]. apply IH; [lia|exact Hx].
      * intros H. f_equal. apply IH. intros x Hx. apply H. now right.
    + split; [lia|]. intros H. specialize (H y (or_introl eq_refl)).
      congruence.
Qed.

Lemma filter_length_none {A} (f : A -> bool) l :
  List.length (filter f l) = 0%nat <-> forall x, In x l -> f x = false.
Proof.
  induction l as [|y r IH]; cbn [filter].
  - split; [intros _ x []|reflexivity].
  - destruct (f y) eqn:Hy; cbn [List.length].
    + split; [discriminate|]. intros H.
      specialize (H y (or_introl eq_refl)). congruence.
    + split.
      * intros H x [<-|Hx]; [exact Hy|]. now apply IH.
      * intros H. apply IH. intros x Hx. apply H. now right.
Qed.

(** X15. For a Learning goal with 1 to 19 modules the percentage shown lies
    between 0 and 100; it is 100 exactly if every module is verified, and 0
    exactly if no module is verified or self-completed. *)
Theorem percent_range_below_20 (g : Goal) (ms : list GoalModule) :
  learningModules g = Some ms -> ms <> [] -> (List.length ms < 20)%nat ->
  let p := percent (calculateOverallProgressDisplay (Some g)) in
  0 <= p <= 100 /\
  (p = 100 <-> forall m, In m ms -> verified m = true) /\
  (p = 0 <-> forall m, In m ms -> verified m = false /\
                                  isSelfCompleted m = false).
Proof.
  intros Hl Hne Hlt. cbv zeta.
  rewrite (@percent_exact_below_20 g ms Hl Hne Hlt).
  pose proof (filter_disjoint_length isVerified isSelfCompleted ms
                verified_not_selfCompleted) as Hsum.
  pose proof (filter_length_all isVerified ms) as Hall.
  pose proof (filter_length_none isVerified ms) as Hnv.
  pose proof (filter_length_none isSelfCompleted ms) as Hns.
  pose proof (filter_length_le isVerified ms) as Hvle.
  set (v := List.length (filter isVerified ms)) in *.
  set (h := List.length (filter isSelfCompleted ms)) in *.
  set (n := List.length ms) in *.
  assert (Hpos : (0 < n)%nat)
    by (subst n; destruct ms; [now elim Hne|cbn; lia]).
  unfold roundHalfUpPercent.
  set (a := 100 * (2 * Z.of_nat v + Z.of_nat h) + Z.of_nat n).
  assert (Hb : 0 < 2 * Z.of_nat n) by lia.
  pose proof (Z.div_mod a (2 * Z.of_nat n) ltac:(lia)) as Hdm.
  pose proof (Z.mod_pos_bound a (2 * Z.of_nat n) Hb) as Hmod.
  set (q := a / (2 * Z.of_nat n)) in *.
  set (r := a mod (2 * Z.of_nat n)) in *.
  assert (Hq : 2 * Z.of_nat n * q <= a < 2 * Z.of_nat n * (q + 1)) by lia.
  subst a.
  split; [split; nia|]. split.
  - split.
    + intros Hq100. apply Hall. fold v n. nia.
    + intros Hv. apply Hall in Hv. fold v n in Hv. nia.
  - split.
    + intros Hq0. assert (v = 0%nat /\ h = 0%nat) as [Hv0 Hh0] by nia.
      intros m Hm. split; [now apply Hnv|now apply Hns].
    + intros Hz.
      assert (v = 0%nat) by (apply Hnv; intros m Hm; now apply Hz).
      assert (h = 0%nat) by (apply Hns; intros m Hm; now apply Hz).
      nia.
Qed.

Lemma percent_range_witness :
  learningModules threeModuleGoal
  = Some [verifiedModule "m1"; selfCompletedModule "m2"; pendingModule "m3"] /\
  [verifiedModule "m1"; selfCompletedModule "m2"; pendingModule "m3"] <> [] /\
  (3 < 20)%nat /\
  0 <= percent (calculateOverallProgressDisplay (Some threeModuleGoal)) <= 100.
Proof.
  assert (H1 : learningModules threeModuleGoal
               = Some [verifiedModule "m1"; selfCompletedModule "m2";
                       pendingModule "m3"]) by reflexivity.
  assert (H2 : [verifiedModule "m1"; selfCompletedModule "m2";
                pendingModule "m3"] <> []) by discriminate.
  assert (H3 : (3 < 20)%nat) by lia.
  split; [exact H1|]. split; [exact H2|]. split; [exact H3|].
  exact (proj1 (@percent_range_below_20 threeModuleGoal _ H1 H2 H3)).
Defined.
(** ** Further properties of the habit tracker *)

Lemma trackerKept_refl t : trackerKept t t.
Proof.
  unfold trackerKept. repeat split; try lia; auto. now exists [].
Qed.

Lemma trackerKept_trans t1 t2 t3 :
  trackerKept t1 t2 -> trackerKept t2 t3 -> trackerKept t1 t3.
Proof.
  unfold trackerKept.
  intros (A1 & (a & A2) & A3 & A4 & A5 & A6 & A7 & A8 & A9)
         (B1 & (b & B2) & B3 & B4 & B5 & B6 & B7 & B8 & B9).
  repeat split; try lia; try congruence; auto.
  exists (b ++ a). rewrite B2, A2. now rewrite app_assoc.
Qed.

Lemma checkedIn_kept newLog t :
  ci_status newLog = log_completed -> trackerKept t (checkedIn newLog t).
Proof.
  intros Hs. unfold trackerKept, checkedIn, frozenEntries, completedEntries.
  cbn [t_id logs streakFreezes currentStreak longestStreak filter].
  unfold isFrozenEntry at 1, isCompletedEntry at 1. rewrite Hs.
  cbn [List.length]. repeat split; try lia. now exists [newLog].
Qed.

Lemma frozenToday_kept today t :
  0 < remaining (streakFreezes t) -> trackerKept t (frozenToday today t).
Proof.
  intros Hr. unfold trackerKept, frozenToday, frozenEntries, completedEntries.
  cbn [t_id logs streakFreezes currentStreak longestStreak filter remaining
       total isFrozenEntry isCompletedEntry ci_status List.length].
  repeat split; try lia. eexists [_]. reflexivity.
Qed.

Lemma trackerStep_kept op p :
  Forall2 trackerKept (trackers p) (trackers (trackerStep op p)).
Proof.
  destruct op as [i f v|today i ty a|today i]; cbn [trackerStep].
  - apply Forall2_same. apply trackerKept_refl.
  - unfold handleCheckIn.
    destruct (proofMissing ty (getInputs i (inputs p))); cbn [snd trackers].
    + apply Forall2_same. apply trackerKept_refl.
    + apply Forall2_map_same. intros t.
      destruct (String.eqb (t_id t) i);
        [now apply checkedIn_kept|apply trackerKept_refl].
  - unfold handleUseStreakFreeze, updateTrackersState. cbn [trackers].
    apply Forall2_map_same. intros t.
    destruct (String.eqb (t_id t) i); cbn [andb];
      [|apply trackerKept_refl].
    destruct (Z.ltb_spec 0 (remaining (streakFreezes t)));
      [now apply frozenToday_kept|apply trackerKept_refl].
Qed.

Lemma runTrackerOps_kept ops p :
  Forall2 trackerKept (trackers p) (trackers (runTrackerOps ops p)).
Proof.
  revert p. induction ops as [|op r IH]; intros p.
  - apply Forall2_same. apply trackerKept_refl.
  - unfold runTrackerOps. cbn [fold_left].
    apply Forall2_compose with (l2 := trackers (trackerStep op p)).
    + apply trackerKept_trans.
    + apply trackerStep_kept.
    + apply IH.
Qed.

(** X16. Over every run of form inputs, check-ins and freezes on the habit
    page, a habit whose current streak does not exceed its longest streak
    stays so, and the longest streak never decreases. *)
Theorem longestStreak_bounds_currentStreak (ops : list TrackerOp)
    (p : TrackerPage) :
  Forall2 (fun t t1 =>
             t_id t1 = t_id t /\
             longestStreak t <= longestStreak t1 /\
             (currentStreak t <= longestStreak t ->
              currentStreak t1 <= longestStreak t1))
    (trackers p) (trackers (runTrackerOps ops p)).
Proof.
  generalize (runTrackerOps_kept ops p). apply Forall2_impl.
  unfold trackerKept. intros t t1 H. repeat split; apply H.
Qed.

(** X17. Over every run of page operations the freeze tokens of a habit are
    only spent: the total stays, the remaining number never rises and never
    becomes negative if it was not, and the remaining number plus the
    number of frozen entries of the log stays the same, so every token
    spent is a frozen entry. *)
Theorem freezes_are_conserved (ops : list TrackerOp) (p : TrackerPage) :
  Forall2 (fun t t1 =>
             total (streakFreezes t1) = total (streakFreezes t) /\
             remaining (streakFreezes t1) <= remaining (streakFreezes t) /\
             (0 <= remaining (streakFreezes t) ->
              0 <= remaining (streakFreezes t1)) /\
             remaining (streakFreezes t1) + frozenEntries t1
             = remaining (streakFreezes t) + frozenEntries t)
    (trackers p) (trackers (runTrackerOps ops p)).
Proof.
  generalize (runTrackerOps_kept ops p). apply Forall2_impl.
  unfold trackerKept. intros t t1 H. repeat split; apply H.
Qed.

(** X18. Over every run of page operations the log of a habit only grows at
    its front, no entry is removed or changed, and the current streak
    rises by exactly the number of completed entries added. *)
Theorem logs_grow_with_streak (ops : list TrackerOp) (p : TrackerPage) :
  Forall2 (fun t t1 =>
             (exists added, logs t1 = added ++ logs t) /\
             currentStreak t1 - currentStreak t
             = completedEntries t1 - completedEntries t)
    (trackers p) (trackers (runTrackerOps ops p)).
Proof.
  generalize (runTrackerOps_kept ops p). apply Forall2_impl.
  unfold trackerKept. intros t t1 (_ & H2 & _ & _ & _ & _ & H7 & _).
  split; [exact H2|lia].
Qed.

Lemma findIndex_split {A} (p : A -> bool) (g : A -> A) l i :
  findIndex p l = Some i ->
  exists l1 e l2,
    l = l1 ++ e :: l2 /\ p e = true /\
    (forall x, In x l1 -> p x = false) /\
    updateAt i g l = l1 ++ g e :: l2.
Proof.
  revert i. induction l as [|y r IH]; intros i; cbn [findIndex].
  - discriminate.
  - destruct (p y) eqn:Hy.
    + intros [= <-]. exists [], y, r. repeat split; auto. intros x [].
    + destruct (findIndex p r) as [j|]; cbn [option_map]; [|discriminate].
      intros [= <-]. destruct (IH j eq_refl) as (l1 & e & l2 & -> & He & Hl1 & Hu).
      exists (y :: l1), e, l2. cbn [app updateAt]. rewrite Hu.
      repeat split; auto. intros x [<-|Hx]; auto.
Qed.

Lemma heat_miss date l acc :
  ~ In date (map cc_date l) -> fold_left (heatStep date) l acc = acc.
Proof.
  revert acc. induction l as [|e r IH]; intros acc Hn; cbn [fold_left];
    [reflexivity|].
  rewrite IH by (intros H; apply Hn; now right). unfold heatStep.
  destruct (String.eqb_spec (cc_date e) date); [|reflexivity].
  exfalso. apply Hn. now left.
Qed.

Lemma heat_hit date l1 e l2 acc :
  cc_date e = date -> ~ In date (map cc_date l2) ->
  fold_left (heatStep date) (l1 ++ e :: l2) acc = Some (cc_count e).
Proof.
  intros He Hn. rewrite fold_left_app. cbn [fold_left].
  rewrite heat_miss by exact Hn. unfold heatStep at 1.
  now rewrite He, String.eqb_refl.
Qed.

Lemma heat_other date d l1 e e1 l2 acc :
  cc_date e = d -> cc_date e1 = d -> d <> date ->
  fold_left (heatStep date) (l1 ++ e1 :: l2) acc
  = fold_left (heatStep date) (l1 ++ e :: l2) acc.
Proof.
  intros He He1 Hd. rewrite !fold_left_app. cbn [fold_left].
  assert (Hskip : forall X x, cc_date x = d -> heatStep date X x = X).
  { intros X x Hx. unfold heatStep. rewrite Hx.
    destruct (String.eqb_spec d date); [congruence|reflexivity]. }
  now rewrite (Hskip _ e He), (Hskip _ e1 He1).
Qed.

(** X19. The check-in counter log holds one entry per date and an accepted
    check-in keeps it so; the count the activity heatmap shows for today is
    then one higher than before, and the count of every other date is as
    before. *)
Theorem checkin_counter_counts (today : string) (log : list CheckinCount) :
  NoDup (map cc_date log) ->
  NoDup (map cc_date (countCheckin today log)) /\
  heatmapCount today (countCheckin today log) = heatmapCount today log + 1 /\
  (forall d, d <> today ->
     heatmapCount d (countCheckin today log) = heatmapCount d log).
Proof.
  intros Hn. unfold countCheckin, heatmapCount.
  destruct (findIndex (fun e => String.eqb (cc_date e) today) log)
    as [i|] eqn:Hi.
  - destruct (@findIndex_split _ _
                (fun e => mkCheckinCount (cc_date e) (cc_count e + 1))
                log i Hi) as (l1 & e & l2 & -> & He & Hl1 & ->).
    apply String.eqb_eq in He.
    assert (Hdates : forall x, map cc_date (l1 ++ x :: l2)
                               = map cc_date l1 ++ cc_date x :: map cc_date l2)
      by (intros; now rewrite map_app).
    rewrite Hdates in Hn. pose proof (NoDup_remove_2 _ _ _ Hn) as Hnot.
    assert (Hl2 : ~ In today (map cc_date l2)).
    { intros H. apply Hnot. apply in_or_app. right. now rewrite He. }
    split; [|split].
    + rewrite Hdates. exact Hn.
    + rewrite (@heat_hit today l1
                 (mkCheckinCount (cc_date e) (cc_count e + 1)) l2 None He Hl2).
      rewrite (@heat_hit today l1 e l2 None He Hl2). reflexivity.
    + intros d Hd. f_equal.
      apply heat_other with (d := today); auto.
  - assert (Hnot : ~ In today (map cc_date log)).
    { clear Hn. induction log as [|e r IH]; cbn in *; [tauto|].
      destruct (String.eqb_spec (cc_date e) today) as [|Hne]; [discriminate|].
      destruct (findIndex _ r); [discriminate|].
      intros [H|H]; [now elim Hne|now apply IH]. }
    split; [|split].
    + rewrite map_app. cbn [map cc_date]. apply NoDup_app.
      * exact Hn.
      * constructor; [intros []|constructor].
      * intros d Hd [<-|[]]. now apply Hnot.
    + rewrite (@heat_miss today log None Hnot).
      rewrite fold_left_app, (@heat_miss today log None Hnot).
      cbn [fold_left]. unfold heatStep. cbn [cc_date cc_count].
      now rewrite String.eqb_refl.
    + intros d Hd. rewrite fold_left_app. cbn [fold_left].
      unfold heatStep at 1. cbn [cc_date].
      destruct (String.eqb_spec today d); [congruence|reflexivity].
Qed.

Lemma checkin_counter_witness :
  NoDup (map cc_date [mkCheckinCount "2024-07-22" 2]) /\
  heatmapCount "2024-07-22"
    (countCheckin "2024-07-22" [mkCheckinCount "2024-07-22" 2]) = 3.
Proof.
  assert (H : NoDup (map cc_date [mkCheckinCount "2024-07-22" 2]))
    by (cbn; constructor; [intros []|constructor]).
  split; [exact H|].
  destruct (@checkin_counter_counts "2024-07-22" _ H) as (_ & Hc & _).
  rewrite Hc. reflexivity.
Defined.

Lemma getInputs_setInputs_same k v m :
  getInputs k (setInputs k v m) = v.
Proof.
  induction m as [|[k1 w] r IH]; cbn [setInputs getInputs].
  - now rewrite String.eqb_refl.
  - destruct (String.eqb_spec k1 k) as [->|Hne]; cbn [getInputs].
    + now rewrite String.eqb_refl.
    + destruct (String.eqb_spec k1 k); [congruence|exact IH].
Qed.

Lemma getInputs_setInputs_other k k2 v m :
  k2 <> k -> getInputs k2 (setInputs k v m) = getInputs k2 m.
Proof.
  intros Hne. induction m as [|[k1 w] r IH]; cbn [setInputs getInputs].
  - destruct (String.eqb_spec k k2); [congruence|reflexivity].
  - destruct (String.eqb_spec k1 k) as [->|Hk]; cbn [getInputs].
    + destruct (String.eqb_spec k k2); [congruence|reflexivity].
    + destruct (String.eqb k1 k2); [reflexivity|exact IH].
Qed.

(** X20. A form input of one habit is read back as written: after
    [handleInputChange] the form of that habit holds the new value in the
    given field and its other two fields as before, the forms of all other
    habits are as before, and habits, ledger and counters are untouched. *)
Theorem handleInputChange_reads_back (trackerId : string)
    (field : InputField) (value : string) (p : TrackerPage) :
  let p1 := handleInputChange trackerId field value p in
  let old := getInputs trackerId (inputs p) in
  let new := getInputs trackerId (inputs p1) in
  match field with
  | f_screenshotPreview =>
      new = mkInputs (Some value) (in_link old) (in_comment old)
  | f_link =>
      new = mkInputs (screenshotPreview old) (Some value) (in_comment old)
  | f_comment =>
      new = mkInputs (screenshotPreview old) (in_link old) (Some value)
  end /\
  (forall other, other <> trackerId ->
     getInputs other (inputs p1) = getInputs other (inputs p)) /\
  trackers p1 = trackers p /\ ledger p1 = ledger p /\
  mockCheckinsLog p1 = mockCheckinsLog p.
Proof.
  cbv zeta. unfold handleInputChange. cbn [inputs trackers ledger mockCheckinsLog].
  rewrite getInputs_setInputs_same.
  split; [now destruct field|]. split; [|repeat split].
  intros other Hne. now apply getInputs_setInputs_other.
Qed.

(** X21. An accepted check-in empties the form of its habit and leaves the
    forms of the other habits alone, so a screenshot or link check-in for
    the same habit that follows without a new input is refused with the
    alert and changes nothing. *)
Theorem checkIn_clears_form (today trackerId : string) (type : ProofType)
    (xpAmount : Z) (p : TrackerPage) :
  proofMissing type (getInputs trackerId (inputs p)) = false ->
  let p1 := snd (handleCheckIn today trackerId type xpAmount p) in
  getInputs trackerId (inputs p1) = noInputs /\
  (forall other, other <> trackerId ->
     getInputs other (inputs p1) = getInputs other (inputs p)) /\
  (forall today2 type2 xp2,
     type2 = screenshot \/ type2 = link ->
     handleCheckIn today2 trackerId type2 xp2 p1
     = (Some ("Please provide a " ++ proofTypeName type2
              ++ " to check in.")%string, p1)).
Proof.
  intros H. cbv zeta.
  assert (E : inputs (snd (handleCheckIn today trackerId type xpAmount p))
              = setInputs trackerId noInputs (inputs p))
    by (unfold handleCheckIn; now rewrite H).
  assert (Hclear : getInputs trackerId
                     (inputs (snd (handleCheckIn today trackerId type
                                     xpAmount p))) = noInputs)
    by (rewrite E; apply getInputs_setInputs_same).
  split; [exact Hclear|]. split.
  - intros other Hne. rewrite E. now apply getInputs_setInputs_other.
  - intros today2 type2 xp2 Hty. apply handleCheckIn_refused.
    rewrite Hclear. now destruct Hty as [-> | ->].
Qed.

Lemma checkIn_clears_form_witness :
  proofMissing unverified (getInputs "h1" (inputs initialTrackerPage)) = false /\
  fst (handleCheckIn "2024-07-23" "h1" link 10
         (snd (handleCheckIn "2024-07-23" "h1" unverified 0
                 initialTrackerPage)))
  = Some "Please provide a link to check in.".
Proof.
  assert (H : proofMissing unverified
                (getInputs "h1" (inputs initialTrackerPage)) = false)
    by reflexivity.
  split; [exact H|].
  destruct (@checkIn_clears_form "2024-07-23" "h1" unverified 0
              initialTrackerPage H) as (_ & _ & Href).
  rewrite (Href "2024-07-23" link 10 (or_intror eq_refl)). reflexivity.
Defined.

Lemma fold_max_ge (l : list Z) (a : Z) :
  a <= fold_left Z.max l a /\
  (forall x, In x l -> x <= fold_left Z.max l a) /\
  (fold_left Z.max l a = a \/ In (fold_left Z.max l a) l).
Proof.
  revert a. induction l as [|y r IH]; intros a; cbn [fold_left].
  - split; [lia|]. split; [intros x []|now left].
  - destruct (IH (Z.max a y)) as (H1 & H2 & H3). split; [lia|]. split.
    + intros x [<-|Hx]; [lia|now apply H2].
    + destruct H3 as [H3|H3]; [|right; now right].
      rewrite H3. destruct (Z.max_spec a y) as [[_ ->]|[_ ->]];
        [right; now left|now left].
Qed.

(** X22. The top streak card: with no habit at all [Math.max] has no
    argument and the card shows minus infinity and no habit name;
    otherwise the value shown is the largest current streak, and the name
    shown is that of the first habit with that streak. *)
Theorem topStreak_is_maximum (data : list Tracker) :
  match data with
  | [] => topStreak data = None /\ topStreakTracker data = None
  | _ =>
      exists m t,
        topStreak data = Some m /\ topStreakTracker data = Some t /\
        In t data /\ currentStreak t = m /\
        (forall t2, In t2 data -> currentStreak t2 <= m)
  end.
Proof.
  destruct data as [|t0 r]; [split; reflexivity|].
  unfold topStreakTracker, topStreak. cbn [map Math_max].
  set (m := fold_left Z.max (map currentStreak r) (currentStreak t0)).
  destruct (fold_max_ge (map currentStreak r) (currentStreak t0))
    as (H1 & H2 & H3). fold m in H1, H2, H3.
  assert (Hin : exists t, In t (t0 :: r) /\ currentStreak t = m).
  { destruct H3 as [H3|H3].
    - exists t0. split; [now left|now symmetry].
    - apply in_map_iff in H3. destruct H3 as (t & Ht & Hin).
      exists t. split; [now right|exact Ht]. }
  destruct (find (fun t => currentStreak t =? m) (t0 :: r)) as [t|] eqn:E.
  - exists m, t. apply find_some in E. destruct E as [Ein Eeq].
    apply Z.eqb_eq in Eeq. repeat split; auto.
    intros t2 [<-|Ht2]; [exact H1|]. apply H2. now apply in_map.
  - exfalso. destruct Hin as (t & Hin & Ht).
    pose proof (find_none _ _ E t Hin) as Hne. cbv beta in Hne.
    rewrite Ht, Z.eqb_refl in Hne. discriminate Hne.
Qed.

Lemma modulesVerified_fold goals acc :
  fold_left (fun a g => (a + verifiedIn g)%nat) goals acc
  = (acc + List.length (filter isVerified
                          (flat_map (fun g => match modules g with
                                              | Some ms => ms
                                              | None => []
                                              end) goals)))%nat.
Proof.
  revert acc. induction goals as [|g r IH]; intros acc; cbn [fold_left flat_map].
  - cbn. lia.
  - rewrite IH, filter_app, length_app. unfold verifiedIn.
    destruct (modules g); cbn [filter List.length]; lia.
Qed.

(** X23. The badges of the profile page: Goal Setter is unlocked exactly if
    some goal shows 100 percent, Streak Starter exactly if some habit has a
    longest streak of at least 10, and Verified Pro exactly if at least 5
    modules over all goals are verified. *)
Theorem profile_badges (goals : list Goal) (data : list Tracker) :
  (badgeGoalSetter goals = true <->
   exists g, In g goals /\
             percent (calculateOverallProgressDisplay (Some g)) = 100) /\
  (badgeStreakStarter data = true <->
   exists t, In t data /\ 10 <= longestStreak t) /\
  (badgeVerifiedPro goals = true <->
   (5 <= List.length
           (filter isVerified
              (flat_map (fun g => match modules g with
                                  | Some ms => ms
                                  | None => []
                                  end) goals)))%nat).
Proof.
  split; [|split].
  - unfold badgeGoalSetter, goalsCompleted. rewrite Nat.ltb_lt. split.
    + intros H.
      destruct (filter (fun g => percent (calculateOverallProgressDisplay
                                            (Some g)) =? 100) goals)
        as [|g r] eqn:E; [cbn in H; lia|].
      assert (Hg : In g (g :: r)) by now left.
      rewrite <- E in Hg. apply filter_In in Hg. destruct Hg as [Hin He].
      exists g. split; [exact Hin|now apply Z.eqb_eq].
    + intros (g & Hin & He).
      assert (Hg : In g (filter (fun g => percent
                  (calculateOverallProgressDisplay (Some g)) =? 100) goals)).
      { apply filter_In. split; [exact Hin|now apply Z.eqb_eq]. }
      destruct (filter _ goals); [destruct Hg|cbn; lia].
  - unfold badgeStreakStarter, statsLongestStreak. rewrite Z.leb_le.
    destruct (fold_max_ge (map longestStreak data) 0) as (H1 & H2 & H3).
    split.
    + intros H. destruct H3 as [H3|H3]; [lia|].
      apply in_map_iff in H3. destruct H3 as (t & Ht & Hin).
      exists t. split; [exact Hin|lia].
    + intros (t & Hin & Ht).
      specialize (H2 (longestStreak t) (in_map longestStreak _ _ Hin)). lia.
  - unfold badgeVerifiedPro, modulesVerified.
    rewrite modulesVerified_fold, Nat.leb_le. cbn [Nat.add]. reflexivity.
Qed.
(** ** Properties of the tag selection, the sign-in form and the dashboard *)

Lemma addTag_cases tag l :
  addTag tag l = l \/
  (addTag tag l = l ++ [tag] /\
   trim (tag_text tag) <> EmptyString /\
   forall t, In t l -> ~ sameTagText t tag).
Proof.
  unfold addTag. destruct (trim (tag_text tag)) as [|c r] eqn:Et;
    [now left|].
  destruct (existsb _ l) eqn:Ex; [now left|]. right.
  split; [reflexivity|]. split; [discriminate|].
  intros t Hin Hs. unfold sameTagText in Hs.
  assert (Hc : existsb (fun t0 => String.eqb (toLowerCase (tag_text t0))
                                    (toLowerCase (tag_text tag))) l = true).
  { apply existsb_exists. exists t. split; [exact Hin|].
    now apply String.eqb_eq. }
  congruence.
Qed.

(** X24. Adding a tag keeps the selection free of blank tags and of two
    tags with the same text up to case: the tag is appended at the end
    when its text is not blank and no selected tag has that text up to
    case, and otherwise the selection is unchanged. *)
Theorem addTag_keeps_selection_distinct (tag : Tag) (l : list Tag) :
  (addTag tag l = l \/ addTag tag l = l ++ [tag]) /\
  (NoDup (map (fun t => toLowerCase (tag_text t)) l) ->
   NoDup (map (fun t => toLowerCase (tag_text t)) (addTag tag l))) /\
  ((forall t, In t l -> trim (tag_text t) <> EmptyString) ->
   forall t, In t (addTag tag l) -> trim (tag_text t) <> EmptyString) /\
  (trim (tag_text tag) <> EmptyString ->
   exists t, In t (addTag tag l) /\ sameTagText t tag).
Proof.
  destruct (addTag_cases tag l) as [E|(E & Hne & Hfresh)]; rewrite E.
  - split; [now left|]. split; [auto|]. split; [auto|].
    intros Hne. unfold addTag in E.
    destruct (trim (tag_text tag)) as [|c r]; [now elim Hne|].
    destruct (existsb _ l) eqn:Ex.
    + apply existsb_exists in Ex. destruct Ex as (t & Hin & He).
      exists t. split; [exact Hin|]. now apply String.eqb_eq.
    + exfalso. clear -E. induction l as [|x r0 IH]; [discriminate|].
      cbn in E. injection E as E. now apply IH.
  - split; [now right|]. split; [|split].
    + intros Hn. rewrite map_app. cbn [map]. apply NoDup_app.
      * exact Hn.
      * constructor; [intros []|constructor].
      * intros x Hx [<-|[]]. apply in_map_iff in Hx.
        destruct Hx as (t & Ht & Hin). now apply (Hfresh t Hin).
    + intros Hall t Hin. apply in_app_or in Hin.
      destruct Hin as [Hin|[<-|[]]]; [now apply Hall|exact Hne].
    + intros _. exists tag. split; [|reflexivity].
      apply in_or_app. right. now left.
Qed.

(** X25. Removing a tag deletes every selected tag with exactly that text
    and keeps the others in order; removing a tag right after adding it to
    a selection that had no tag with that text gives the selection back.
    The comparison is exact, so a tag that differs in case only is not
    removed. *)
Theorem removeTag_removes_exact_text (tag : Tag) (l : list Tag) :
  (forall t, In t (removeTag tag l) <->
             In t l /\ tag_text t <> tag_text tag) /\
  ((forall t, In t l -> tag_text t <> tag_text tag) ->
   removeTag tag l = l /\ removeTag tag (addTag tag l) = l).
Proof.
  split.
  - intros t. unfold removeTag. rewrite filter_In.
    destruct (String.eqb_spec (tag_text t) (tag_text tag)); cbn [negb];
      intuition congruence.
  - intros Hnone.
    assert (Hl : removeTag tag l = l).
    { unfold removeTag. induction l as [|x r IH]; cbn [filter];
        [reflexivity|].
      destruct (String.eqb_spec (tag_text x) (tag_text tag)) as [Hx|_];
        cbn [negb].
      - now elim (Hnone x (or_introl eq_refl)).
      - f_equal. apply IH. intros t Ht. apply Hnone. now right. }
    split; [exact Hl|].
    destruct (addTag_cases tag l) as [E|(E & _ & _)]; rewrite E;
      [exact Hl|].
    unfold removeTag in *. rewrite filter_app, Hl. cbn [filter].
    rewrite String.eqb_refl. cbn [negb]. now rewrite app_nil_r.
Qed.

Lemma removeTag_witness :
  (forall t, In t [mkTag "py" "Python"] ->
             tag_text t <> tag_text (mkTag "js" "JavaScript")) /\
  removeTag (mkTag "js" "JavaScript")
    (addTag (mkTag "js" "JavaScript") [mkTag "py" "Python"])
  = [mkTag "py" "Python"].
Proof.
  assert (H : forall t, In t [mkTag "py" "Python"] ->
                        tag_text t <> tag_text (mkTag "js" "JavaScript")).
  { intros t [<-|[]]. discriminate. }
  split; [exact H|].
  exact (proj2 (proj2 (@removeTag_removes_exact_text
                         (mkTag "js" "JavaScript") [mkTag "py" "Python"]) H)).
Defined.

(** X26. The sign-in form lets a submission through exactly in two cases:
    a login with an e-mail address and a password, which leads to the main
    page, and a sign-up with an e-mail address, a full name, a password of
    at least 8 characters and an equal confirmation, which leads to the tag
    selection.  Every other submission sets an error message and does not
    navigate. *)
Theorem handleSubmit_accepts (f : AuthForm) (page : string) :
  handleSubmit f = inr page <->
  email f <> EmptyString /\ password f <> EmptyString /\
  ((isLoginView f = true /\ page = "mainHome") \/
   (isLoginView f = false /\ fullName f <> EmptyString /\
    (8 <= String.length (password f))%nat /\
    confirmPassword f = password f /\ page = "tagSelection")).
Proof.
  unfold handleSubmit.
  destruct (email f) as [|e0 er]; cbn [isEmpty];
    [split; [discriminate|intros [H _]; now elim H]|].
  destruct (password f) as [|p0 pr] eqn:Ep; cbn [isEmpty];
    [split; [destruct (isLoginView f); discriminate
            |intros (_ & H & _); now elim H]|].
  destruct (isLoginView f).
  - split.
    + intros [= <-]. repeat split; try discriminate. now left.
    + intros (_ & _ & [[_ ->]|[H _]]); [reflexivity|discriminate].
  - destruct (fullName f) as [|n0 nr]; cbn [isEmpty].
    + split; [discriminate|].
      intros (_ & _ & [[H _]|(_ & H & _)]); [discriminate|now elim H].
    + destruct (Nat.ltb_spec (String.length (String p0 pr)) 8) as [Hlt|Hge].
      * split; [discriminate|].
        intros (_ & _ & [[H _]|(_ & _ & H & _)]); [discriminate|lia].
      * destruct (confirmPassword f) as [|c0 cr] eqn:Ec; cbn [isEmpty].
        -- split; [discriminate|].
           intros (_ & _ & [[H _]|(_ & _ & _ & H & _)]); discriminate.
        -- destruct (String.eqb_spec (String p0 pr) (String c0 cr)) as [E|Hne];
             cbn [negb].
           ++ split.
              ** intros [= <-]. repeat split; try discriminate.
                 right. repeat split; try discriminate; auto.
              ** intros (_ & _ & [[H _]|(_ & _ & _ & _ & ->)]);
                   [discriminate|reflexivity].
           ++ split; [discriminate|].
              intros (_ & _ & [[H _]|(_ & _ & _ & H & _)]);
                [discriminate|congruence].
Qed.

Lemma dashStep_invariant ev d :
  isCheckingIn d && isCheckedIn d = false ->
  let d1 := snd (dashStep ev d) in
  isCheckingIn d1 && isCheckedIn d1 = false /\
  (isCheckedIn d = true -> isCheckedIn d1 = true) /\
  dashXp d1 - (if isCheckedIn d1 then 10 else 0)
  = dashXp d - (if isCheckedIn d then 10 else 0).
Proof.
  intros Hinv. cbv zeta. unfold dashStep, dashXp.
  destruct ev as [|today [msg|]].
  - destruct (isCheckingIn d) eqn:Hc, (isCheckedIn d) eqn:Hd; cbn in *;
      rewrite ?Hc, ?Hd; auto; try discriminate.
  - destruct (isCheckingIn d) eqn:Hc, (isCheckedIn d) eqn:Hd; cbn in *;
      rewrite ?Hc, ?Hd; auto; try discriminate.
  - destruct (isCheckingIn d) eqn:Hc, (isCheckedIn d) eqn:Hd; cbn in *;
      rewrite ?Hc, ?Hd; auto; try discriminate.
    split; [reflexivity|]. split; [auto|].
    change (xp (mockUserProfile (awardXp today 10 (dash_ledger d))) - 10
            = xp (mockUserProfile (dash_ledger d)) - 0).
    rewrite awardXp_xp. lia.
Qed.

(** X27. The daily check-in of the dashboard awards its 10 XP at most once:
    starting with no request in flight while checked in, after any sequence
    of clicks and settled inserts the experience is the initial one plus 10
    if the dashboard is checked in by then and the initial one otherwise,
    and a dashboard that is checked in stays so.  A failed insert awards
    nothing and leaves the dashboard not checked in. *)
Theorem dashboard_checkin_awards_once (evs : list DashEvent) (d : Dashboard) :
  isCheckingIn d && isCheckedIn d = false ->
  let d1 := dashRun evs d in
  dashXp d1 - (if isCheckedIn d1 then 10 else 0)
  = dashXp d - (if isCheckedIn d then 10 else 0) /\
  (isCheckedIn d = true -> isCheckedIn d1 = true /\ dashXp d1 = dashXp d) /\
  isCheckingIn d1 && isCheckedIn d1 = false.
Proof.
  revert d. induction evs as [|ev r IH]; intros d Hinv; cbv zeta.
  - cbn. repeat split; auto.
  - unfold dashRun. cbn [fold_left]. fold (dashRun r (snd (dashStep ev d))).
    destruct (@dashStep_invariant ev d Hinv) as (H1 & H2 & H3).
    destruct (IH _ H1) as (K1 & K2 & K3).
    split; [lia|]. split; [|exact K3].
    intros Hd. destruct (K2 (H2 Hd)) as [K4 K5]. split; [exact K4|].
    rewrite K5. rewrite (H2 Hd), Hd in H3. lia.
Qed.

Lemma dashboard_checkin_witness :
  let d := mkDashboard false false initialLedger in
  let evs := [DashClick; DashClick; DashSettled "2024-07-23" (Some "offline");
              DashClick; DashSettled "2024-07-23" None; DashClick;
              DashSettled "2024-07-23" None] in
  isCheckingIn d && isCheckedIn d = false /\
  isCheckedIn (dashRun evs d) = true /\
  dashXp (dashRun evs d) = 95.
Proof.
  intros d evs.
  assert (H : isCheckingIn d && isCheckedIn d = false) by reflexivity.
  split; [exact H|]. split; [reflexivity|].
  destruct (@dashboard_checkin_awards_once evs d H) as (H1 & _).
  assert (Hc : isCheckedIn (dashRun evs d) = true) by reflexivity.
  rewrite Hc in H1. cbn [isCheckedIn d] in H1.
  change (dashXp d) with 85 in H1. lia.
Defined.
(** ** Further properties of the weekly quest *)

Lemma append_empty (a b : string) :
  (a ++ b)%string = EmptyString -> a = EmptyString /\ b = EmptyString.
Proof. destruct a; cbn; [auto|discriminate]. Qed.

Lemma join_empty sep l :
  sep <> EmptyString ->
  (join sep l = EmptyString <-> l = [] \/ l = [EmptyString]).
Proof.
  intros Hsep. destruct l as [|x [|y r]]; cbn [join].
  - split; [now left|reflexivity].
  - split; [intros ->; now right|]. intros [H|[= ->]]; [discriminate|reflexivity].
  - split.
    + intros H. apply append_empty in H. destruct H as [_ H].
      apply append_empty in H. destruct H as [H _]. now elim Hsep.
    + intros [H|H]; discriminate.
Qed.

(** X28. How [getWeeklyQuest] chooses its answer.  Without a configured
    client it returns the offline quest, and without goals the quest that
    asks for one, whatever else it is given.  With goals it returns All
    Goals Conquered!, without asking the provider, exactly when the titles
    of the goals below 100 percent are none at all or one empty title; in
    every other case the answer is the parsed response, or the quest of the
    [catch] block when the provider fails or answers nothing. *)
Theorem getWeeklyQuest_dispatch (reply : ProviderReply) (pick : nat)
    (g : Goal) (gs : list Goal) :
  let goals := g :: gs in
  let titles := map title (filter isActive goals) in
  getWeeklyQuest false reply pick (Some goals) = questTechOffline /\
  getWeeklyQuest true reply pick None = questNoGoals /\
  getWeeklyQuest true reply pick (Some []) = questNoGoals /\
  (titles = [] \/ titles = [EmptyString] ->
   getWeeklyQuest true reply pick (Some goals) = questAllConquered) /\
  (~ (titles = [] \/ titles = [EmptyString]) ->
   getWeeklyQuest true reply pick (Some goals)
   = match reply with
     | Resolved responseText =>
         match parseQuestResponse responseText goals with
         | Some quest => quest
         | None => questOnError pick goals
         end
     | Rejected => questOnError pick goals
     end).
Proof.
  cbv zeta. repeat split.
  - intros H. unfold getWeeklyQuest. cbn [negb].
    apply (join_empty (sep := ", ")) in H; [|discriminate].
    now rewrite H.
  - intros H. unfold getWeeklyQuest. cbn [negb].
    destruct (join ", " (map title (filter isActive (g :: gs)))) eqn:E;
      [|reflexivity].
    exfalso. apply H. apply (join_empty (sep := ", ")); [discriminate|exact E].
Qed.

Lemma nth_error_mod_In {A} (l : list A) (k : nat) :
  l <> [] -> exists x, nth_error l (k mod List.length l) = Some x /\ In x l.
Proof.
  intros Hne.
  assert (Hlen : (k mod List.length l < List.length l)%nat).
  { apply Nat.mod_upper_bound. destruct l; [now elim Hne|cbn; lia]. }
  destruct (nth_error l (k mod List.length l)) as [x|] eqn:E.
  - exists x. split; [reflexivity|]. now apply nth_error_In in E.
  - apply nth_error_None in E. lia.
Qed.

(** X29. The quest of the [catch] block: when some goal is below 100
    percent, whatever the random draw, its related goal is the title of one
    of those goals and its description suggests that goal; when none is, it
    relates to no goal and only encourages. *)
Theorem questOnError_picks_active_goal (pick : nat) (userGoals : list Goal) :
  q_title (questOnError pick userGoals) = "Quest Idea!" /\
  ((exists g, In g userGoals /\ isActive g = true) ->
   exists g, In g userGoals /\ isActive g = true /\
     relatedGoal (questOnError pick userGoals) = title g /\
     q_description (questOnError pick userGoals)
     = ("Focus on making a solid leap forward in one of your goals this week. "
        ++ "Perhaps something for '" ++ title g ++ "'?")%string) /\
  ((forall g, In g userGoals -> isActive g = false) ->
   relatedGoal (questOnError pick userGoals) = EmptyString /\
   q_description (questOnError pick userGoals)
   = "Focus on making a solid leap forward in one of your goals this week. You've got this!").
Proof.
  split; [reflexivity|]. unfold questOnError. split.
  - intros (g0 & Hin & Ha).
    assert (Hne : filter isActive userGoals <> []).
    { intros E. assert (Hf : In g0 (filter isActive userGoals))
        by (apply filter_In; auto). rewrite E in Hf. destruct Hf. }
    destruct (nth_error_mod_In pick Hne) as (g & Hnth & Hg).
    apply filter_In in Hg. destruct Hg as [Hgin Hga].
    exists g. split; [exact Hgin|]. split; [exact Hga|].
    destruct (filter isActive userGoals) as [|a r] eqn:E; [now elim Hne|].
    rewrite Hnth. cbn [relatedGoal q_description]. split; reflexivity.
  - intros Hnone.
    assert (E : filter isActive userGoals = []).
    { induction userGoals as [|x r IH]; cbn [filter]; [reflexivity|].
      rewrite (Hnone x (or_introl eq_refl)). apply IH.
      intros y Hy. apply Hnone. now right. }
    rewrite E. split; reflexivity.
Qed.

(** ** Properties of the chat page *)

Lemma chatGrown_refl c : chatGrown c c.
Proof. repeat split. exists []. now rewrite app_nil_r. Qed.

Lemma chatGrown_trans c1 c2 c3 :
  chatGrown c1 c2 -> chatGrown c2 c3 -> chatGrown c1 c3.
Proof.
  intros (A1 & A2 & a & A3) (B1 & B2 & b & B3).
  repeat split; try congruence.
  exists (a ++ b). rewrite B3, A3. now rewrite app_assoc.
Qed.

Lemma appendMessage_grown target m dms :
  Forall2 chatGrown dms (fst (appendMessage target m dms)).
Proof.
  unfold appendMessage. cbn [fst]. apply Forall2_map_same. intros c.
  destruct (String.eqb (chat_id c) (chat_id target));
    [|apply chatGrown_refl].
  repeat split. now exists [m].
Qed.

Lemma chatStep_grown ev s :
  Forall2 chatGrown (directMessages s) (directMessages (chatStep ev s)).
Proof.
  destruct ev as [chat|value|now time|txt now time]; cbn [chatStep].
  - apply Forall2_same, chatGrown_refl.
  - apply Forall2_same, chatGrown_refl.
  - destruct (trim (messageInput s)); [apply Forall2_same, chatGrown_refl|].
    destruct (activeChat s); [|apply Forall2_same, chatGrown_refl].
    destruct (isBuddyTyping s); [apply Forall2_same, chatGrown_refl|].
    cbn [directMessages]. apply appendMessage_grown.
  - destruct (awaiting s); [|apply Forall2_same, chatGrown_refl].
    cbn [directMessages]. apply appendMessage_grown.
Qed.

Lemma chatStep_typing ev s :
  (isBuddyTyping s = true <-> awaiting s <> None) ->
  (isBuddyTyping (chatStep ev s) = true <-> awaiting (chatStep ev s) <> None).
Proof.
  intros H. destruct ev as [chat|value|now time|txt now time];
    cbn [chatStep]; try exact H.
  - destruct (trim (messageInput s)); [exact H|].
    destruct (activeChat s); [|exact H].
    destruct (isBuddyTyping s) eqn:Eb; [rewrite Eb; exact H|].
    cbn. split; [discriminate|reflexivity].
  - destruct (awaiting s) eqn:Ea; [|rewrite Ea; exact H].
    cbn. split; [discriminate|intros Hn; now elim Hn].
Qed.

(** X30. On the chat page, over every sequence of chat selections, typing,
    sends and replies, each conversation keeps its place, id and name and
    only gains messages at its end, and the typing indicator is on exactly
    while a send waits for its reply.  A send is ignored while the input is
    blank, no chat is selected or a reply is awaited; a reply is appended
    to the conversation the message was sent in, also when another chat
    was selected meanwhile, and the page makes that conversation the active
    one again. *)
Theorem chat_messages_only_grow (evs : list ChatEvent) (s : ChatState) :
  (isBuddyTyping s = true <-> awaiting s <> None) ->
  Forall2 chatGrown (directMessages s) (directMessages (chatRun evs s)) /\
  (isBuddyTyping (chatRun evs s) = true <-> awaiting (chatRun evs s) <> None) /\
  (forall now time,
     trim (messageInput s) = EmptyString \/ activeChat s = None \/
     isBuddyTyping s = true ->
     chatStep (ChatSend now time) s = s) /\
  (forall chat txt now time,
     awaiting s = Some chat ->
     let s1 := chatStep (ChatReply txt now time) s in
     isBuddyTyping s1 = false /\ awaiting s1 = None /\
     activeChat s1
     = find (fun c => String.eqb (chat_id c) (chat_id chat))
            (directMessages s1) /\
     Forall2 (fun c c1 =>
                if String.eqb (chat_id c) (chat_id chat)
                then messages c1
                     = messages c
                       ++ [mkMessage ("reply-" ++ showNat now)
                             (chat_name chat) txt time msg_received] /\
                     lastMessage c1 = txt
                else c1 = c)
       (directMessages s) (directMessages s1)).
Proof.
  intros Hinv. split; [|split; [|split]].
  - clear Hinv. revert s. induction evs as [|ev r IH]; intros s.
    + apply Forall2_same, chatGrown_refl.
    + unfold chatRun. cbn [fold_left].
      apply Forall2_compose with (l2 := directMessages (chatStep ev s)).
      * apply chatGrown_trans.
      * apply chatStep_grown.
      * apply IH.
  - revert s Hinv. induction evs as [|ev r IH]; intros s Hinv; [exact Hinv|].
    unfold chatRun. cbn [fold_left]. apply IH. now apply chatStep_typing.
  - intros now time H. cbn [chatStep].
    destruct (trim (messageInput s)) as [|c r] eqn:Et; [reflexivity|].
    destruct (activeChat s) as [chat|] eqn:Ea; [|reflexivity].
    destruct (isBuddyTyping s) eqn:Eb; [reflexivity|].
    destruct H as [H|[H|H]]; discriminate.
  - intros chat txt now time Ha. cbv zeta. cbn [chatStep]. rewrite Ha.
    cbn [isBuddyTyping awaiting activeChat directMessages appendMessage
         fst snd].
    repeat split. apply Forall2_map_same. intros c.
    destruct (String.eqb (chat_id c) (chat_id chat)); [|reflexivity].
    split; reflexivity.
Qed.

Lemma chat_messages_witness :
  (isBuddyTyping sampleChatState = true <-> awaiting sampleChatState <> None) /\
  Forall2 chatGrown (directMessages sampleChatState)
    (directMessages (chatRun sampleChatEvents sampleChatState)).
Proof.
  assert (H : isBuddyTyping sampleChatState = true
              <-> awaiting sampleChatState <> None).
  { cbn. split; [discriminate|intros Hn; now elim Hn]. }
  split; [exact H|].
  exact (proj1 (@chat_messages_only_grow sampleChatEvents sampleChatState H)).
Defined.

(** In the sample session the reply lands in the conversation the message
    was sent in and the page returns to it, although the other
    conversation had been opened. *)
Example chat_reply_returns_to_sender :
  let s1 := chatRun sampleChatEvents sampleChatState in
  option_map chat_id (activeChat s1) = Some "dm1" /\
  map (fun c => map msg_id (messages c)) (directMessages s1)
  = [["m1a"; "m1b"; "msg-1000"; "reply-2000"]; ["m2a"]] /\
  map lastMessage (directMessages s1)
  = ["Sounds good!"; "Just finished my vocab for the day!"].
Proof. vm_compute. repeat split. Qed.
